(** * Content normalization and layout reconciliation

    A shallow embedding of the normalization pipeline of the presentation and
    document generator:

    - [backend/services/docx_generator.py]: [_clean_section_content] (the text
      sanitizer) and [build_docx_file] (the page reflow and export path);
    - [backend/services/content_generator.py]: [generate_content_with_gemini]
      (slide normalization), [generate_word_sections_with_gemini] and
      [refine_word_section_with_gemini];
    - [backend/routers/documents.py]: [create_word_project],
      [get_word_project], [refine_section] and [export_docx].

    Python [str] values are modelled as lists of characters.  A character is
    an [ascii]; text outside the ASCII range is carried as its UTF-8 bytes,
    which are neither whitespace nor cased nor alphanumeric, so the model is
    exact on ASCII text.  Python [int] is [Z], decoded JSON is the type
    [json], a Python [dict] built by a comprehension is a [gmap], and the
    dictionaries handed around as slides are association lists in insertion
    order.  The generative collaborator is a function from the number of the
    call to its reply. *)

From Stdlib Require Import Ascii String ZArith Lia DecimalString DecimalZ DecimalPos.
From stdpp Require Import gmap strings list sorting.

Set Warnings "-via-type-mismatch,-via-type-remapping,-register-all".

(** ** Python strings *)

Abbreviation str := (list ascii).

Inductive str_syntax := SNil | SCons (c : ascii) (s : str_syntax).

Fixpoint syn_of_bytes (l : list Byte.byte) : str_syntax :=
  match l with
  | [] => SNil
  | b :: t => SCons (ascii_of_byte b) (syn_of_bytes t)
  end.

Fixpoint bytes_of_syn (s : str_syntax) : list Byte.byte :=
  match s with
  | SNil => []
  | SCons c t => byte_of_ascii c :: bytes_of_syn t
  end.

Declare Scope str_scope.
Delimit Scope str_scope with str.
String Notation list syn_of_bytes bytes_of_syn
  (via str_syntax mapping [[nil] => SNil, [cons] => SCons]) : str_scope.
Open Scope str_scope.

Definition NL : ascii := "010"%char.
Definition CR : ascii := "013"%char.
Definition BACKSLASH : ascii := "092"%char.

(** [c.isspace()] on the ASCII range: tab, line feed, vertical tab, form
    feed, carriage return, the four separators 28..31 and the space. *)
Definition is_space (c : ascii) : bool :=
  let n := N_of_ascii c in
  ((9 <=? n) && (n <=? 13) || (28 <=? n) && (n <=? 32))%N.

Definition is_digit (c : ascii) : bool :=
  let n := N_of_ascii c in ((48 <=? n) && (n <=? 57))%N.

Definition is_upper (c : ascii) : bool :=
  let n := N_of_ascii c in ((65 <=? n) && (n <=? 90))%N.

Definition is_lower (c : ascii) : bool :=
  let n := N_of_ascii c in ((97 <=? n) && (n <=? 122))%N.

(** The character class [a-zA-Z0-9]. *)
Definition is_alnum (c : ascii) : bool := is_lower c || is_upper c || is_digit c.

Definition lower_char (c : ascii) : ascii :=
  if is_upper c then ascii_of_N (N_of_ascii c + 32) else c.

(** [s.lower()] *)
Definition lower (s : str) : str := lower_char <$> s.

Definition str_eqb (a b : str) : bool := bool_decide (a = b).

(** Truth value of a string: [bool(s)]. *)
Definition nonempty (s : str) : bool :=
  match s with [] => false | _ :: _ => true end.

Fixpoint dropwhile {A} (p : A → bool) (l : list A) : list A :=
  match l with
  | [] => []
  | x :: t => if p x then dropwhile p t else l
  end.

Fixpoint takewhile {A} (p : A → bool) (l : list A) : list A :=
  match l with
  | [] => []
  | x :: t => if p x then x :: takewhile p t else []
  end.

Definition lstrip (s : str) : str := dropwhile is_space s.
Definition rstrip (s : str) : str := reverse (dropwhile is_space (reverse s)).

(** [s.strip()] *)
Definition strip (s : str) : str := rstrip (lstrip s).

(** [s.startswith(p)] *)
Fixpoint startswith (p s : str) : bool :=
  match p, s with
  | [], _ => true
  | _ :: _, [] => false
  | a :: p', b :: s' => bool_decide (a = b) && startswith p' s'
  end.

(** [sub in s] *)
Fixpoint contains (sub s : str) : bool :=
  startswith sub s ||
  match s with
  | [] => false
  | _ :: t => contains sub t
  end.

(** [s.replace(old, new)] for a non-empty [old]: occurrences are taken from
    left to right and do not overlap.  [skip] counts the characters of the
    occurrence just replaced that are still to be passed over. *)
Fixpoint replace_from (old new : str) (skip : nat) (s : str) : str :=
  match s with
  | [] => []
  | c :: t =>
      match skip with
      | S k => replace_from old new k t
      | O =>
          if startswith old s
          then new ++ replace_from old new (pred (length old)) t
          else c :: replace_from old new 0 t
      end
  end.

Definition replace (old new s : str) : str := replace_from old new 0 s.

(** [s.split(sep)] for a one-character separator: never the empty list. *)
Fixpoint split (sep : ascii) (s : str) : list str :=
  match s with
  | [] => [[]]
  | c :: t =>
      if bool_decide (c = sep) then [] :: split sep t
      else match split sep t with
           | l :: ls => (c :: l) :: ls
           | [] => [[c]]
           end
  end.

(** [s.split(sep, 1)]: the text before the first separator and, when there
    is a separator, the text after it. *)
Fixpoint split_once (sep : ascii) (s : str) : str * option str :=
  match s with
  | [] => ([], None)
  | c :: t =>
      if bool_decide (c = sep) then ([], Some t)
      else let '(l, r) := split_once sep t in (c :: l, r)
  end.

(** [sep.join(ls)] *)
Fixpoint join (sep : str) (ls : list str) : str :=
  match ls with
  | [] => []
  | [l] => l
  | l :: rest => l ++ sep ++ join sep rest
  end.

(** [s[:n]] for a position [n] that may be negative (counted from the end). *)
Definition py_slice_to {A} (n : Z) (l : list A) : list A :=
  if (0 <=? n)%Z then take (Z.to_nat n) l
  else take (Z.to_nat (Z.of_nat (length l) + n)) l.

(** [str(n)] for an integer. *)
Definition str_of_Z (n : Z) : str :=
  list_ascii_of_string (NilZero.string_of_int (Z.to_int n)).

(** ** The text sanitizer ([docx_generator._clean_section_content]) *)

(** The test of the stripping loop on a non-blank first line. *)
Definition is_meta_line (doc_title_low heading_low first : str) : bool :=
  let f_low := lower first in
  let is_doc_title := str_eqb f_low doc_title_low in
  let is_page_section := startswith "page " f_low && contains "section" f_low in
  let is_section_prefix := startswith "section " f_low in
  let is_heading_exact := str_eqb f_low heading_low in
  let is_heading_with_colon :=
    nonempty heading_low && startswith (heading_low ++ ":") f_low in
  is_doc_title || is_page_section || is_section_prefix || is_heading_exact
  || is_heading_with_colon.

(** [while lines: ...]: blank and meta lines are popped from the front until
    the first normal line. *)
Fixpoint strip_meta_lines (doc_title_low heading_low : str) (lines : list str)
  : list str :=
  match lines with
  | [] => []
  | l :: rest =>
      let first := strip l in
      if negb (nonempty first) then strip_meta_lines doc_title_low heading_low rest
      else if is_meta_line doc_title_low heading_low first
           then strip_meta_lines doc_title_low heading_low rest
           else lines
  end.

(** One round of the loop that collapses duplicate blank lines. *)
Definition collapse_step (cleaned : list str) (line : str) : list str :=
  if negb (nonempty line) then
    match last cleaned with
    | Some [] => cleaned
    | _ => cleaned ++ [[]]
    end
  else cleaned ++ [line].

Definition collapse_blank_lines (lines : list str) : list str :=
  foldl collapse_step [] lines.

Definition is_blank_line (l : str) : bool := negb (nonempty l).

Definition trim_blank_lines (cleaned : list str) : list str :=
  reverse (dropwhile is_blank_line (reverse (dropwhile is_blank_line cleaned))).

Definition _clean_section_content (doc_title heading raw : str) : str :=
  if negb (nonempty raw) then ""
  else
    let text := replace [CR] [NL] (replace [CR; NL] [NL] raw) in
    let text := replace [BACKSLASH; "n"%char] [NL] text in
    let lines := strip <$> split NL text in
    let doc_title_low := lower (strip doc_title) in
    let heading_low := lower (strip heading) in
    let lines := strip_meta_lines doc_title_low heading_low lines in
    let cleaned := trim_blank_lines (collapse_blank_lines lines) in
    strip (join [NL] cleaned).

(** ** Decoded JSON and Python dictionaries *)

(** The values [json.loads] returns.  Numbers are the integers; a number
    with a fraction or an exponent is outside the model. *)
Inductive json :=
  | JNull
  | JBool (b : bool)
  | JInt (n : Z)
  | JStr (s : str)
  | JArr (items : list json)
  | JObj (fields : list (str * json)).

(** A [dict] with string keys, in insertion order. *)
Abbreviation pydict := (list (str * json)).

(** [d.get(k)] *)
Fixpoint dict_get (d : pydict) (k : str) : option json :=
  match d with
  | [] => None
  | (k', v) :: rest => if bool_decide (k' = k) then Some v else dict_get rest k
  end.

(** [d.get(k, dflt)] *)
Definition dict_get_or (d : pydict) (k : str) (dflt : json) : json :=
  default dflt (dict_get d k).

(** [k in d] *)
Definition dict_has (d : pydict) (k : str) : bool :=
  match dict_get d k with Some _ => true | None => false end.

(** [d[k] = v]: an existing key keeps its place. *)
Fixpoint dict_set (d : pydict) (k : str) (v : json) : pydict :=
  match d with
  | [] => [(k, v)]
  | (k', v') :: rest =>
      if bool_decide (k' = k) then (k, v) :: rest else (k', v') :: dict_set rest k v
  end.

(** [bool(v)] *)
Definition py_truthy (v : json) : bool :=
  match v with
  | JNull => false
  | JBool b => b
  | JInt n => negb (n =? 0)%Z
  | JStr s => nonempty s
  | JArr items => match items with [] => false | _ => true end
  | JObj fields => match fields with [] => false | _ => true end
  end.

(** Truth value of a list. *)
Definition nonempty_list {A} (l : list A) : bool :=
  match l with [] => false | _ :: _ => true end.

(** [a or b] *)
Definition py_or (a b : json) : json := if py_truthy a then a else b.

(** [isinstance(v, str)], [isinstance(v, list)], [isinstance(v, dict)] *)
Definition is_str (v : json) : bool := match v with JStr _ => true | _ => false end.
Definition is_list (v : json) : bool := match v with JArr _ => true | _ => false end.
Definition is_dict (v : json) : bool := match v with JObj _ => true | _ => false end.

(** [v == s] for a string [s]. *)
Definition eq_str (v : json) (s : str) : bool :=
  match v with JStr s' => str_eqb s' s | _ => false end.

Definition hex_digit (n : N) : ascii :=
  if (n <? 10)%N then ascii_of_N (48 + n) else ascii_of_N (87 + n).

(** How [repr] writes one character of a string between quotes [q]. *)
Definition repr_char (q : ascii) (c : ascii) : str :=
  let n := N_of_ascii c in
  if bool_decide (c = BACKSLASH) then [BACKSLASH; BACKSLASH]
  else if bool_decide (c = q) then [BACKSLASH; q]
  else if bool_decide (c = NL) then [BACKSLASH; "n"%char]
  else if bool_decide (c = CR) then [BACKSLASH; "r"%char]
  else if bool_decide (c = "009"%char) then [BACKSLASH; "t"%char]
  else if ((n <? 32) || (n =? 127))%N
       then [BACKSLASH; "x"%char; hex_digit (n / 16); hex_digit (n mod 16)]
       else [c].

(** [repr(s)] for a string: single quotes unless the text has a single quote
    and no double quote. *)
Definition repr_str (s : str) : str :=
  let q := if bool_decide ("'"%char ∈ s) && negb (bool_decide ("034"%char ∈ s))
           then "034"%char else "'"%char in
  [q] ++ concat (repr_char q <$> s) ++ [q].

(** [repr(v)] *)
Fixpoint py_repr (v : json) : str :=
  match v with
  | JNull => "None"
  | JBool true => "True"
  | JBool false => "False"
  | JInt n => str_of_Z n
  | JStr s => repr_str s
  | JArr items => "[" ++ join ", " (map py_repr items) ++ "]"
  | JObj fields =>
      "{" ++ join ", " (map (λ kv, repr_str (fst kv) ++ ": " ++ py_repr (snd kv)) fields)
      ++ "}"
  end.

(** [str(v)] *)
Definition py_str (v : json) : str :=
  match v with
  | JStr s => s
  | _ => py_repr v
  end.

(** [v[:n]] for a non-negative [n]: strings and lists can be sliced, anything
    else raises [TypeError]. *)
Definition py_take (n : nat) (v : json) : option json :=
  match v with
  | JStr s => Some (JStr (take n s))
  | JArr items => Some (JArr (take n items))
  | _ => None
  end.

(** [a < b] on strings: by code point. *)
Fixpoint str_ltb (a b : str) : bool :=
  match a, b with
  | _, [] => false
  | [], _ :: _ => true
  | x :: a', y :: b' =>
      if (N_of_ascii x <? N_of_ascii y)%N then true
      else if (N_of_ascii y <? N_of_ascii x)%N then false
      else str_ltb a' b'
  end.

(** [a < b] as [list.sort] asks it of two keys: integers (and booleans, which
    are integers) compare with each other, strings with each other, and every
    other pair raises [TypeError].  Two JSON arrays, which Python compares
    element by element, are outside the model and raise here too. *)
Definition py_lt (a b : json) : option bool :=
  let num v := match v with
               | JInt n => Some n
               | JBool b => Some (if b then 1 else 0)%Z
               | _ => None
               end in
  match num a, num b with
  | Some x, Some y => Some (x <? y)%Z
  | _, _ =>
      match a, b with
      | JStr x, JStr y => Some (str_ltb x y)
      | _, _ => None
      end
  end.

(** One insertion of the stable sort: [x] goes before the first element whose
    key is greater.  [None] when a comparison raises. *)
Fixpoint sort_insert {A} (key : A → json) (x : A) (sorted : list A) : option (list A) :=
  match sorted with
  | [] => Some [x]
  | y :: rest =>
      match py_lt (key x) (key y) with
      | None => None
      | Some true => Some (x :: y :: rest)
      | Some false => cons y <$> sort_insert key x rest
      end
  end.

(** [l.sort(key=key)]: stable, and failing as soon as two keys that do not
    compare meet. *)
Definition py_sort_by {A} (key : A → json) (l : list A) : option (list A) :=
  foldl (λ acc x, acc ≫= λ sorted, sort_insert key x sorted) (Some []) l.

(** ** The store, the collaborator and the request monad *)

(** Modelled from the spec: [models/enums.py] is not part of the sources.
    The four layout tags are the ones the docstring of
    [generate_content_with_gemini] lists. *)
Module SlideLayout.
Inductive t := title | bullet | two_column | image.

Definition value (l : t) : str :=
  match l with
  | title => "title"
  | bullet => "bullet"
  | two_column => "two_column"
  | image => "image"
  end.
End SlideLayout.

(** Modelled from the spec: the document types of [models/enums.py]. *)
Inductive DocumentType := PPTX | DOCX.

(** One entry of a section's revision history. *)
Record HistoryEntry := {
  version : Z;
  prompt : str;
  entry_content : str;
}.

(** Modelled from the spec: the rows of [models/models.py], with the columns
    the routers read and write. *)
Record Project := {
  proj_id : Z;
  owner_id : Z;
  proj_title : str;
  proj_topic : str;
  proj_doc_type : DocumentType;
  proj_num_pages : option Z;
}.

Record SectionRow := {
  sec_id : Z;
  project_id : Z;
  sec_title : str;
  order_index : Z;
  page_number : option Z;
  section_index : option Z;
  sec_content : str;
  history : list HistoryEntry;
}.

Record Db := {
  projects : list Project;
  sections : list SectionRow;
}.

(** How the [history] column of a section is declared.  The declaration is in
    [models/models.py], which is not among the sources, and it decides what
    the session writes for a list that was changed in place: on a plain JSON
    column the value assigned is compared with the value loaded, and a list
    that was changed in place and assigned back is that same list; a column
    that tracks the mutations of its value is written whenever the list
    changed.  The declaration is a parameter of the endpoint that changes a
    history. *)
Inductive HistoryColumn := PlainJson | MutableJson.

(** What one call of [model.generate_content] does: it raises, or it returns
    a response with its [text]; [decoded] is what [json.loads] makes of the
    text once the code fences are removed, [None] when that raises. *)
Inductive Reply :=
  | Fails
  | Responds (text : str) (decoded : option json).

Inductive Exn :=
  | RuntimeError (msg : str)
  | HTTPException (status_code : Z) (detail : str)
  | KeyError (key : str)
  | TypeError.

(** The state a request runs in: the committed store, the session's view of
    it, and the number of collaborator calls made so far.  Modelled from the
    spec: [core/dbutils.py], which hands the session to the endpoints, is not
    part of the sources; rows added to the session reach the store when the
    endpoint calls [db.commit()], and not otherwise. *)
Record World := {
  committed : Db;
  session : Db;
  calls : nat;
}.

Definition M (A : Type) : Type := World → (Exn + A) * World.

Global Instance M_ret : MRet M := λ A a w, (inr a, w).

Global Instance M_bind : MBind M := λ A B k m w,
  match m w with
  | (inr a, w') => k a w'
  | (inl e, w') => (inl e, w')
  end.

Definition raise {A} (e : Exn) : M A := λ w, (inl e, w).

(** [try: m except Exception: raise e] *)
Definition reraise_as {A} (e : Exn) (m : M A) : M A :=
  λ w, match m w with
       | (inr a, w') => (inr a, w')
       | (inl _, w') => (inl e, w')
       end.

(** An [Optional] result whose [None] stands for an exception. *)
Definition or_raise {A} (e : Exn) (o : option A) : M A :=
  match o with Some a => mret a | None => raise e end.

(** A computed result or the exception that replaces it. *)
Definition lift {A} (r : Exn + A) : M A :=
  match r with inl e => raise e | inr a => mret a end.

Fixpoint for_each {A S : Type} (f : S → A → M S) (s : S) (l : list A) : M S :=
  match l with
  | [] => mret s
  | x :: rest => s' ← f s x; for_each f s' rest
  end.

Definition get_session : M Db := λ w, (inr (session w), w).
Definition put_session (d : Db) : M unit :=
  λ w, (inr tt, {| committed := committed w; session := d; calls := calls w |}).

(** [db.commit()] *)
Definition db_commit : M unit :=
  λ w, (inr tt, {| committed := session w; session := session w; calls := calls w |}).

(** A request against the store [db]: whatever the endpoint did not commit is
    gone when the request ends. *)
Definition run_request {A} (m : M A) (db : Db) (n : nat) : (Exn + A) * Db * nat :=
  let '(r, w) := m {| committed := db; session := db; calls := n |} in
  (r, committed w, calls w).

(** Modelled from the spec: the request bodies of [models/schemas.py], with
    the fields the routers read. *)
Record PageConfig := {
  cfg_page_number : Z;
  cfg_sections : list str;
}.

Record SectionCreate := {
  new_title : str;
  new_order_index : Z;
}.

Record ProjectCreate := {
  in_title : str;
  in_topic : str;
  in_doc_type : DocumentType;
  in_num_pages : option Z;
  in_pages : option (list PageConfig);
  in_sections : list SectionCreate;
}.

Record User := { user_id : Z }.

(** [sorted(l, key=...)] and [ORDER BY]: a stable insertion sort along a
    strict order. *)
Fixpoint insert_sorted {A} (ltb : A → A → bool) (x : A) (sorted : list A) : list A :=
  match sorted with
  | [] => [x]
  | y :: rest => if ltb x y then x :: y :: rest else y :: insert_sorted ltb x rest
  end.

Definition sorted_with {A} (ltb : A → A → bool) (l : list A) : list A :=
  foldl (λ acc x, insert_sorted ltb x acc) [] l.

Definition sorted_by {A} (key : A → Z) (l : list A) : list A :=
  sorted_with (λ x y, (key x <? key y)%Z) l.

(** [enumerate(l, start)] *)
Fixpoint enumerate_from {A} (start : Z) (l : list A) : list (Z * A) :=
  match l with
  | [] => []
  | x :: rest => (start, x) :: enumerate_from (start + 1) rest
  end.

(** ** Slide normalization ([content_generator.generate_content_with_gemini]) *)

(** The body of the loop over the decoded array: what one element adds to
    [normalized_slides]. *)
Definition normalize_slide (normalized_slides : list pydict) (slide : json)
  : list pydict :=
  match slide with
  | JObj slide =>
      if dict_has slide "layout" then
        let layout := dict_get_or slide "layout" JNull in
        if eq_str layout (SlideLayout.value SlideLayout.title) || eq_str layout "title" then
          normalized_slides ++
            [[("layout", JStr (SlideLayout.value SlideLayout.title));
              ("title", dict_get_or slide "title" (JStr ""))]]
        else if eq_str layout (SlideLayout.value SlideLayout.bullet) || eq_str layout "bullet" then
          normalized_slides ++
            [[("layout", JStr (SlideLayout.value SlideLayout.bullet));
              ("title", dict_get_or slide "title" (JStr ""));
              ("bullets", py_or (dict_get_or slide "bullets" JNull) (JArr []))]]
        else if eq_str layout (SlideLayout.value SlideLayout.two_column)
                || eq_str layout "two_column" then
          normalized_slides ++
            [[("layout", JStr (SlideLayout.value SlideLayout.two_column));
              ("title", dict_get_or slide "title" (JStr ""));
              ("left", dict_get_or slide "left" (JStr ""));
              ("right", dict_get_or slide "right" (JStr ""))]]
        else if eq_str layout (SlideLayout.value SlideLayout.image) || eq_str layout "image" then
          normalized_slides ++
            [[("layout", JStr (SlideLayout.value SlideLayout.image));
              ("title", dict_get_or slide "title" (JStr ""));
              ("caption", dict_get_or slide "caption" (dict_get_or slide "title" (JStr "")))]]
        else normalized_slides
      else
        let title := dict_get_or slide "title" (JStr "") in
        let content := dict_get_or slide "content" JNull in
        let image := dict_get_or slide "image" JNull in
        let notes := dict_get_or slide "notes" JNull in
        match content with
        | JArr content =>
            let bullets :=
              (λ b, strip (py_str b)) <$>
                List.filter (λ b, nonempty (strip (py_str b))) content in
            normalized_slides ++
              [[("layout", JStr (SlideLayout.value SlideLayout.bullet));
                ("title", title);
                ("bullets", JArr (JStr <$> bullets))]]
        | _ =>
            if py_truthy image then
              normalized_slides ++
                [[("layout", JStr (SlideLayout.value SlideLayout.image));
                  ("title", title);
                  ("caption", py_or notes (JStr (py_str image)))]]
            else
              normalized_slides ++
                [[("layout", JStr (SlideLayout.value SlideLayout.title));
                  ("title", title)]]
        end
  | _ => normalized_slides
  end.

(** The slide appended for position [i] when the deck is too short. *)
Definition placeholder_slide (i : Z) : pydict :=
  [("layout", JStr (SlideLayout.value SlideLayout.title));
   ("title", JStr ("Slide " ++ str_of_Z (i + 1)))].

(** "Ensure we have exactly num_slides slides". *)
Definition ensure_count (num_slides : Z) (normalized_slides : list pydict)
  : list pydict :=
  let len := Z.of_nat (length normalized_slides) in
  if (len <? num_slides)%Z then
    normalized_slides ++ (placeholder_slide <$> seqZ len (num_slides - len))
  else if (num_slides <? len)%Z then py_slice_to num_slides normalized_slides
  else normalized_slides.

Definition image_seed (topic : str) (idx : nat) : str :=
  let seed := List.filter is_alnum (topic ++ "_" ++ str_of_Z (Z.of_nat idx)) in
  if nonempty seed then seed else "slide_" ++ str_of_Z (Z.of_nat idx).

Definition image_url (topic : str) (idx : nat) : str :=
  "https://picsum.photos/seed/" ++ image_seed topic idx ++ "/1200/800".

(** The body of the last loop, "Ensure image slides have caption +
    image_url"; [None] when slicing the title raises. *)
Definition ensure_image_fields (topic : str) (idx : nat) (s : pydict)
  : option pydict :=
  let layout := dict_get_or s "layout" JNull in
  if eq_str layout (SlideLayout.value SlideLayout.image) || eq_str layout "image" then
    let caption := dict_get_or s "caption" JNull in
    s ← (if negb (py_truthy caption) || negb (is_str caption) then
           dict_set s "caption" <$>
             py_take 120 (py_or (dict_get_or s "title" (JStr "")) (JStr ""))
         else Some s);
    Some (dict_set s "image_url" (JStr (image_url topic idx)))
  else Some s.

(** [for idx, s in enumerate(slides, idx): ...] *)
Fixpoint for_enumerate (f : nat → pydict → option pydict) (idx : nat)
    (slides : list pydict) : option (list pydict) :=
  match slides with
  | [] => Some []
  | s :: rest =>
      s' ← f idx s; rest' ← for_enumerate f (S idx) rest; Some (s' :: rest')
  end.

(** What the [try] block does with the decoded response. *)
Definition normalize_slides (topic : str) (num_slides : Z) (data : json)
  : option (list pydict) :=
  match data with
  | JArr data =>
      let normalized_slides := foldl normalize_slide [] data in
      let normalized_slides := ensure_count num_slides normalized_slides in
      for_enumerate (ensure_image_fields topic) 0 normalized_slides
  | _ => None
  end.

(** ** Section generation ([content_generator.generate_word_sections_with_gemini]) *)

(** The text after the prefix [p], when the text starts with it. *)
Fixpoint after_prefix (p s : str) : option str :=
  match p, s with
  | [], _ => Some s
  | _ :: _, [] => None
  | a :: p', b :: s' => if bool_decide (a = b) then after_prefix p' s' else None
  end.

(** A regular-expression alternative of literals, tried in order. *)
Fixpoint after_any (ps : list str) (s : str) : option str :=
  match ps with
  | [] => None
  | p :: rest =>
      match after_prefix p s with
      | Some r => Some r
      | None => after_any rest s
      end
  end.

(** [\s*] and [\d+].  In both patterns below every starred class is
    followed by something outside that class, so the greedy match is the
    only one the matcher can find and no backtracking is modelled. *)
Definition skip_spaces (s : str) : str := dropwhile is_space s.
Definition after_digits (s : str) : option str :=
  match takewhile is_digit s with
  | [] => None
  | _ :: _ => Some (dropwhile is_digit s)
  end.

(** The match of [^(Page|page)\s*\d+\s*[-–]\s*(Section|section)\s*\d+\s*\n*]
    at the start of [s]: the text left after it. *)
Definition after_page_section_label (s : str) : option str :=
  s ← after_any ["Page"; "page"] s;
  s ← after_digits (skip_spaces s);
  s ← after_any ["-"; "–"] (skip_spaces s);
  s ← after_any ["Section"; "section"] (skip_spaces s);
  s ← after_digits (skip_spaces s);
  Some (dropwhile (λ c, bool_decide (c = NL)) (skip_spaces s)).

(** The match of [^(Section|section)\s*\d+\s*[:\-]\s*] at the start of [s]. *)
Definition after_section_label (s : str) : option str :=
  s ← after_any ["Section"; "section"] s;
  s ← after_digits (skip_spaces s);
  s ← after_any [":"; "-"] (skip_spaces s);
  Some (skip_spaces s).

(** [re.sub(pattern, "", s)] for a pattern anchored at the start. *)
Definition sub_prefix (pattern : str → option str) (s : str) : str :=
  default s (pattern s).

(** The "extra safety cleanup" of one generated section; [None] when the
    content is not text. *)
Definition clean_generated_section (topic : str) (s : pydict) : option pydict :=
  match py_or (dict_get_or s "content" (JStr "")) (JStr "") with
  | JStr content =>
      let content := sub_prefix after_page_section_label content in
      let content := sub_prefix after_section_label content in
      let '(first_line, rest) := split_once NL content in
      let content :=
        if str_eqb (strip first_line) (strip topic) then default "" rest
        else content in
      Some (dict_set s "content" (JStr (strip content)))
  | _ => None
  end.

Definition as_dict (v : json) : option pydict :=
  match v with JObj d => Some d | _ => None end.

(** What the [try] block does with the decoded response. *)
Definition clean_generated_sections (topic : str) (sections : json)
  : option (list pydict) :=
  match sections with
  | JArr sections =>
      sections ← mapM as_dict sections;
      sections ← py_sort_by (λ s, dict_get_or s "order_index" (JInt 0)) sections;
      mapM (clean_generated_section topic) sections
  | _ => None
  end.

(** ** Page reflow and export ([docx_generator.build_docx_file]) *)

(** What the code appends to the document. *)
Inductive Block :=
  | Heading (text : str) (level : Z) (font_size : option Z)
  | PageBreak
  | Paragraph (text : str) (font_size : option Z).

(** One section of a page: [{"heading": ..., "content": ...}]. *)
Record SectionDict := {
  heading : str;
  content : str;
}.

Record DocxFile := {
  file_name : str;
  blocks : list Block;
}.

(** "Simple font size logic based on how many sections in the page":
    [(para_size, heading_size)] in points. *)
Definition font_sizes (num_sections : nat) : Z * Z :=
  if num_sections <=? 1 then (12, 16)%Z
  else if num_sections =? 2 then (11, 14)%Z
  else (10, 13)%Z.

(** The body of [for section in page_sections]. *)
Definition add_section (title : str) (para_size heading_size : Z)
    (doc : list Block) (section : SectionDict) : list Block :=
  let heading := heading section in
  let raw_content := content section in
  let content := _clean_section_content title heading raw_content in
  let doc :=
    if nonempty heading then doc ++ [Heading heading 1 (Some heading_size)] else doc in
  if nonempty content then
    foldl (λ doc para_text,
             if nonempty (strip para_text)
             then doc ++ [Paragraph (strip para_text) (Some para_size)]
             else doc)
          doc (split NL content)
  else doc.

(** The body of [for page_num in sorted(pages.keys())]; the state is the
    document and [first_page]. *)
Definition add_page (title : str) (pages : gmap Z (list SectionDict))
    (st : list Block * bool) (page_num : Z) : list Block * bool :=
  let '(doc, first_page) := st in
  let doc := if negb first_page then doc ++ [PageBreak] else doc in
  let page_sections := default [] (pages !! page_num) in
  let num_sections := length page_sections in
  let '(para_size, heading_size) := font_sizes num_sections in
  (foldl (add_section title para_size heading_size) doc page_sections, false).

(** [sorted(pages.keys())] *)
Definition sorted_keys (pages : gmap Z (list SectionDict)) : list Z :=
  merge_sort Z.le (elements (dom pages)).

Definition build_docx_file (project_id : Z) (title : str)
    (pages : gmap Z (list SectionDict)) : DocxFile :=
  let doc := [Heading title 0 None] in
  let '(doc, _) := foldl (add_page title pages) (doc, true) (sorted_keys pages) in
  {| file_name := "project_" ++ str_of_Z project_id ++ ".docx"; blocks := doc |}.

(** ** The collaborator calls *)

Section collaborator.
(** The generative model: the reply to each call, by the number of the
    call. *)
Context (gemini : nat → Reply).

(** [model.generate_content(prompt)] *)
Definition generate_content : M (str * option json) :=
  λ w,
    let w' := {| committed := committed w; session := session w; calls := S (calls w) |} in
    match gemini (calls w) with
    | Fails => (inl (RuntimeError "generate_content failed"), w')
    | Responds text decoded => (inr (text, decoded), w')
    end.

Definition generate_content_with_gemini (topic : str) (num_slides : Z)
  : M (list pydict) :=
  reraise_as (RuntimeError "Gemini content generation failed")
    (resp ← generate_content;
     data ← or_raise TypeError (snd resp);
     or_raise TypeError (normalize_slides topic num_slides data)).

Definition generate_word_sections_with_gemini (topic : str)
    (section_headings : list str) : M (list pydict) :=
  reraise_as (RuntimeError "Gemini Word content generation failed")
    (resp ← generate_content;
     sections ← or_raise TypeError (snd resp);
     or_raise TypeError (clean_generated_sections topic sections)).

Definition refine_word_section_with_gemini
    (topic heading current_content instruction : str) : M str :=
  reraise_as (RuntimeError "Gemini Word refinement failed")
    (resp ← generate_content;
     mret (strip (fst resp))).

(** ** The document endpoints ([routers/documents.py]) *)

(** [db.add(project)] and [db.add(section)]: the row gets the next id. *)
Definition db_add_project (owner : Z) (project_in : ProjectCreate) : M Project :=
  db ← get_session;
  let project :=
    {| proj_id := Z.of_nat (length (projects db)) + 1;
       owner_id := owner;
       proj_title := in_title project_in;
       proj_topic := in_topic project_in;
       proj_doc_type := in_doc_type project_in;
       proj_num_pages := in_num_pages project_in |} in
  put_session {| projects := projects db ++ [project]; sections := sections db |};;
  mret project.

Definition db_add_section (project : Z) (title : str) (order : Z)
    (page index : option Z) (content : str) : M unit :=
  db ← get_session;
  let section :=
    {| sec_id := Z.of_nat (length (sections db)) + 1;
       project_id := project;
       sec_title := title;
       order_index := order;
       page_number := page;
       section_index := index;
       sec_content := content;
       history :=
         [{| version := 1; entry_content := content; prompt := "initial generation" |}] |} in
  put_session {| projects := projects db; sections := sections db ++ [section] |}.

(** One element of the comprehension below: a later element replaces an
    earlier one with the same heading.  A heading that is not a string is a
    key no title can be equal to and is left out; one that cannot be hashed
    raises. *)
Definition record_heading (acc : Exn + gmap str json) (s : pydict)
  : Exn + gmap str json :=
  match acc with
  | inl e => inl e
  | inr acc =>
      match dict_get s "heading", dict_get s "content" with
      | None, _ => inl (KeyError "heading")
      | Some _, None => inl (KeyError "content")
      | Some (JStr h), Some c => inr (<[h := c]> acc)
      | Some (JArr _), Some _ | Some (JObj _), Some _ => inl TypeError
      | Some _, Some _ => inr acc
      end
  end.

(** [{s["heading"]: s["content"] for s in generated_sections}] *)
Definition content_by_heading_of (generated_sections : list pydict)
  : Exn + gmap str json :=
  foldl record_heading (inr ∅) generated_sections.

(** The content of a new section: what was generated under its title, or,
    when that is missing or blank, a refinement of the empty text. *)
Definition initial_content (topic : str) (content_by_heading : gmap str json)
    (title : str) : M str :=
  match py_or (default (JStr "") (content_by_heading !! title)) (JStr "") with
  | JStr content =>
      if negb (nonempty (strip content)) then
        refine_word_section_with_gemini topic title ""
          "Write a clear, professional section for this heading."
      else mret content
  | _ => raise TypeError
  end.

Definition create_word_project (project_in : ProjectCreate) (current_user : User)
  : M Project :=
  match in_doc_type project_in with
  | PPTX => raise (HTTPException 400 "doc_type must be 'docx' for this endpoint")
  | DOCX =>
      project ← db_add_project (user_id current_user) project_in;
      let topic := in_topic project_in in
      let pages := default [] (in_pages project_in) in
      let num_pages := default 0%Z (in_num_pages project_in) in
      if nonempty_list pages && negb (num_pages =? 0)%Z then
        (* page-based mode *)
        let flat_headings :=
          concat (cfg_sections <$> sorted_by cfg_page_number pages) in
        generated_sections ← generate_word_sections_with_gemini topic flat_headings;
        content_by_heading ← lift (content_by_heading_of generated_sections);
        for_each
          (λ global_order_index page_cfg,
             let page_number := cfg_page_number page_cfg in
             let section_titles := take 3 (cfg_sections page_cfg) in
             for_each
               (λ global_order_index '(idx, title),
                  content ← initial_content topic content_by_heading title;
                  db_add_section (proj_id project) title global_order_index
                    (Some page_number) (Some idx) content;;
                  mret (global_order_index + 1)%Z)
               global_order_index (enumerate_from 1 section_titles))
          1%Z (sorted_by cfg_page_number pages);;
        db_commit;;
        mret project
      else
        (* flat section mode *)
        let sorted_sections := sorted_by new_order_index (in_sections project_in) in
        let headings := new_title <$> sorted_sections in
        generated_sections ← generate_word_sections_with_gemini topic headings;
        content_by_heading ← lift (content_by_heading_of generated_sections);
        for_each
          (λ (_ : unit) section_in,
             content ← initial_content topic content_by_heading (new_title section_in);
             db_add_section (proj_id project) (new_title section_in)
               (new_order_index section_in) None None content)
          tt sorted_sections;;
        db_commit;;
        mret project
  end.

(** The query of [refine_section]: the section with this id in this
    project of this owner. *)
Definition find_section (db : Db) (project section user : Z) : option SectionRow :=
  List.find
    (λ s, (sec_id s =? section)%Z
          && existsb (λ p, (proj_id p =? project_id s)%Z && (proj_id p =? project)%Z
                           && (owner_id p =? user)%Z)
               (projects db))
    (sections db).

Definition find_project (db : Db) (project : Z) : option Project :=
  List.find (λ p, (proj_id p =? project)%Z) (projects db).

(** What the flush writes into the [history] column of a row: [loaded] is
    the list that came with the row, [same_object] says that the list
    assigned is that list, changed in place, and [assigned] is what the list
    holds now. *)
Definition flushed_history (column : HistoryColumn) (loaded : list HistoryEntry)
    (same_object : bool) (assigned : list HistoryEntry) : list HistoryEntry :=
  match column with
  | MutableJson => assigned
  | PlainJson => if same_object then loaded else assigned
  end.

(** The row the session writes when it is flushed. *)
Definition db_update_section (section : SectionRow) : M unit :=
  db ← get_session;
  put_session
    {| projects := projects db;
       sections :=
         (λ r, if (sec_id r =? sec_id section)%Z then section else r) <$> sections db |}.

Definition refine_section (column : HistoryColumn) (project section : Z)
    (body_prompt : str) (current_user : User) : M SectionRow :=
  db ← get_session;
  row ← or_raise (HTTPException 404 "Section not found")
          (find_section db project section (user_id current_user));
  owner ← or_raise (HTTPException 404 "Section not found")
            (find_project db (project_id row));
  new_content ← refine_word_section_with_gemini
                  (proj_topic owner) (sec_title row) (sec_content row) body_prompt;
  (* [history = section.history or []]: the list of the row, or a new list
     when that one is empty; [history.append(...)] changes it in place *)
  let loaded := history row in
  let same_object := nonempty_list loaded in
  let history :=
    loaded ++ [{| version := Z.of_nat (length loaded) + 1;
                  prompt := body_prompt;
                  entry_content := new_content |}] in
  (* [section.content = new_content; section.history = history], then
     [db.commit()] and [db.refresh(section)]: the row as it is stored *)
  let row :=
    {| sec_id := sec_id row; project_id := project_id row; sec_title := sec_title row;
       order_index := order_index row; page_number := page_number row;
       section_index := section_index row;
       sec_content := new_content;
       history := flushed_history column loaded same_object history |} in
  db_update_section row;;
  db_commit;;
  mret row.

(** [ORDER BY page_number, section_index, order_index], a missing value
    before any number. *)
Definition null_first_ltb (a b : option Z) : bool :=
  match a, b with
  | None, Some _ => true
  | Some x, Some y => (x <? y)%Z
  | _, None => false
  end.

Definition export_order_ltb (a b : SectionRow) : bool :=
  null_first_ltb (page_number a) (page_number b)
  || bool_decide (page_number a = page_number b)
     && (null_first_ltb (section_index a) (section_index b)
         || bool_decide (section_index a = section_index b)
            && (order_index a <? order_index b)%Z).

(** The loop of [export_docx] that groups the sections by page. *)
Definition pages_of (sections : list SectionRow) : gmap Z (list SectionDict) :=
  foldl
    (λ pages s,
       let page_num :=
         match page_number s with
         | None => 1%Z
         | Some n => if (n =? 0)%Z then 1%Z else n
         end in
       <[page_num := default [] (pages !! page_num)
                     ++ [{| heading := sec_title s; content := sec_content s |}]]> pages)
    ∅ sections.

Definition export_docx (project : Z) : M DocxFile :=
  db ← get_session;
  row ← or_raise (HTTPException 404 "Project not found") (find_project db project);
  match proj_doc_type row with
  | PPTX => raise (HTTPException 400 "Project is not a Word document")
  | DOCX =>
      let sections :=
        sorted_with export_order_ltb
          (List.filter (λ s, (project_id s =? proj_id row)%Z) (sections db)) in
      mret (build_docx_file (proj_id row) (proj_title row) (pages_of sections))
  end.
End collaborator.

(** ** Predicates used to state the properties *)

(** A string occurs inside another one. *)
Definition infix_of (l s : str) : Prop := ∃ p q, s = p ++ l ++ q.

(** A line as the sanitizer leaves it: one line, no carriage return, no
    escaped line break, no surrounding whitespace. *)
Definition clean_line (l : str) : Prop :=
  (NL ∉ l) ∧ (CR ∉ l) ∧ contains [BACKSLASH; "n"%char] l = false ∧ strip l = l.

Fixpoint no_double_blank (ls : list str) : Prop :=
  match ls with
  | l1 :: t =>
      match t with
      | l2 :: _ => ¬ (l1 = [] ∧ l2 = []) ∧ no_double_blank t
      | [] => True
      end
  | [] => True
  end.

(** The list of lines the sanitizer joins: clean lines, the first one normal,
    the last one not blank, no two blank lines in a row. *)
Definition tidy (doc_title_low heading_low : str) (ls : list str) : Prop :=
  Forall clean_line ls
  ∧ (∀ l, head ls = Some l → l ≠ [] ∧ is_meta_line doc_title_low heading_low l = false)
  ∧ last ls ≠ Some []
  ∧ no_double_blank ls.

(** The section body of the sanitizer example, with the line break written
    as a line break and written as the two characters backslash and n. *)
Definition intro_example : str :=
  "Page 2 – Section 3
Introduction: growth has accelerated.".

Definition intro_example_escaped : str :=
  "Page 2 – Section 3\nIntroduction: growth has accelerated.".

(** The paragraphs a sanitized section body becomes: its non-blank lines. *)
Definition paragraph_lines (content : str) : list str :=
  List.filter nonempty (strip <$> split NL content).

(** The blocks one section contributes to the document. *)
Definition section_blocks (title : str) (para_size heading_size : Z)
    (section : SectionDict) : list Block :=
  (if nonempty (heading section)
   then [Heading (heading section) 1 (Some heading_size)] else [])
  ++ ((λ t, Paragraph t (Some para_size)) <$>
        paragraph_lines (_clean_section_content title (heading section) (content section))).

(** The blocks of one page: its sections in order, in the font sizes the
    number of sections on the page gives. *)
Definition page_blocks (title : str) (page_sections : list SectionDict) : list Block :=
  concat (section_blocks title (font_sizes (length page_sections)).1
                               (font_sizes (length page_sections)).2
            <$> page_sections).

(** A block of the page body set in the given sizes; a page break is not
    one. *)
Definition sized (sizes : Z * Z) (b : Block) : Prop :=
  match b with
  | Heading _ level size => level = 1%Z ∧ size = Some sizes.2
  | Paragraph _ size => size = Some sizes.1
  | PageBreak => False
  end.

(** The page break in front of the page emitted at position [i]. *)
Definition break_before (i : nat) : list Block :=
  match i with O => [] | S _ => [PageBreak] end.

(** The three stored sections of the reflow example. *)
Definition reflow_example (a b c : str) : list SectionRow :=
  [ {| sec_id := 1; project_id := 1; sec_title := "A"; order_index := 1;
       page_number := Some 1%Z; section_index := Some 1%Z; sec_content := a;
       history := [] |};
    {| sec_id := 2; project_id := 1; sec_title := "B"; order_index := 2;
       page_number := Some 1%Z; section_index := Some 2%Z; sec_content := b;
       history := [] |};
    {| sec_id := 3; project_id := 1; sec_title := "C"; order_index := 3;
       page_number := Some 2%Z; section_index := Some 1%Z; sec_content := c;
       history := [] |} ].

(** The entry a refinement appends to the history of a row, and the row as
    it is stored after the refinement. *)
Definition refinement_entry (row : SectionRow) (body_prompt new_content : str)
  : HistoryEntry :=
  {| version := Z.of_nat (length (history row)) + 1;
     prompt := body_prompt;
     entry_content := new_content |}.

Definition refined (column : HistoryColumn) (row : SectionRow)
    (body_prompt new_content : str) : SectionRow :=
  {| sec_id := sec_id row; project_id := project_id row; sec_title := sec_title row;
     order_index := order_index row; page_number := page_number row;
     section_index := section_index row;
     sec_content := new_content;
     history :=
       flushed_history column (history row) (nonempty_list (history row))
         (history row ++ [refinement_entry row body_prompt new_content]) |}.

(** The text a refinement call that succeeds returns. *)
Definition refined_text (r : Reply) : str :=
  match r with
  | Responds text _ => strip text
  | Fails => ""
  end.

Definition responds (r : Reply) : Prop :=
  match r with Responds _ _ => True | Fails => False end.




(** A store with one project and one freshly created section, and a
    collaborator that always answers, for the examples. *)
Definition example_user : User := {| user_id := 7 |}.

Definition example_project : Project :=
  {| proj_id := 1; owner_id := 7; proj_title := "EV Market 2025";
     proj_topic := "Electric vehicles"; proj_doc_type := DOCX;
     proj_num_pages := None |}.

Definition example_entry : HistoryEntry :=
  {| version := 1; prompt := "initial generation";
     entry_content := "Sales grew 40% in 2024." |}.

Definition example_row : SectionRow :=
  {| sec_id := 1; project_id := 1; sec_title := "Introduction"; order_index := 1;
     page_number := None; section_index := None;
     sec_content := "Sales grew 40% in 2024.";
     history := [example_entry] |}.

Definition example_db : Db :=
  {| projects := [example_project]; sections := [example_row] |}.

Definition example_gemini (n : nat) : Reply :=
  Responds " Introduction: sales grew.
Growth continues. " None.

(** The page a stored section is exported on, and what is exported of it. *)
Definition export_page (s : SectionRow) : Z :=
  match page_number s with
  | None => 1%Z
  | Some n => if (n =? 0)%Z then 1%Z else n
  end.

Definition export_entry (s : SectionRow) : SectionDict :=
  {| heading := sec_title s; content := sec_content s |}.

(** The pages [export_docx] hands to [build_docx_file] for a project. *)
Definition export_pages (db : Db) (project : Z) : gmap Z (list SectionDict) :=
  pages_of (sorted_with export_order_ltb
              (List.filter (λ s, (project_id s =? project)%Z) (sections db))).

(** A slide carries one of the four layout tags. *)
Definition has_layout (s : pydict) : Prop :=
  ∃ l, dict_get s "layout" = Some (JStr (SlideLayout.value l)).

Definition is_image_slide (s : pydict) : bool :=
  eq_str (dict_get_or s "layout" JNull) (SlideLayout.value SlideLayout.image).

(** The caption of an image slide has to be repaired: it is missing, falsy
    or not a string. *)
Definition caption_missing (s : pydict) : bool :=
  negb (py_truthy (dict_get_or s "caption" JNull))
  || negb (is_str (dict_get_or s "caption" JNull)).

(** The repair of the caption raises: the title it falls back to is a
    non-zero number, [true] or a non-empty object, none of which can be
    sliced. *)
Definition caption_repair_raises (s : pydict) : bool :=
  is_image_slide s && caption_missing s
  && match py_take 120 (py_or (dict_get_or s "title" (JStr "")) (JStr "")) with
     | Some _ => false
     | None => true
     end.

(** A collaborator whose first reply decodes to [data]. *)
Definition replying (data : json) (n : nat) : Reply :=
  match n with
  | O => Responds "" (Some data)
  | S _ => Fails
  end.

Definition empty_db : Db := {| projects := []; sections := [] |}.

(** An image slide with a number for a title and no caption. *)
Definition numeric_title_deck : json :=
  JArr [JObj [("layout", JStr "image"); ("title", JInt 2024)]].

(** An image slide with neither title nor caption. *)
Definition untitled_image_deck : json :=
  JArr [JObj [("layout", JStr "image")]].

(** An element tagged with a layout that is none of the four, although it
    has list content and an image description. *)
Definition chart_element : pydict :=
  [("layout", JStr "chart"); ("title", JStr "Sales");
   ("content", JArr [JStr "Growth"]); ("image", JStr "bar chart")].

(** The headings a request asks for, in the order the sections are created:
    in page mode the first three of every page, pages by number; in flat
    mode the sections by their order index. *)
Definition page_mode (project_in : ProjectCreate) : bool :=
  nonempty_list (default [] (in_pages project_in))
  && negb (default 0%Z (in_num_pages project_in) =? 0)%Z.

Definition requested_titles (project_in : ProjectCreate) : list str :=
  if page_mode project_in then
    concat ((λ cfg, take 3 (cfg_sections cfg))
              <$> sorted_by cfg_page_number (default [] (in_pages project_in)))
  else new_title <$> sorted_by new_order_index (in_sections project_in).

(** What was generated under a title, and whether it has to be generated
    again. *)
Definition generated_content (m : gmap str json) (title : str) : str :=
  match py_or (default (JStr "") (m !! title)) (JStr "") with
  | JStr c => c
  | _ => ""
  end.

Definition needs_fallback (m : gmap str json) (title : str) : bool :=
  negb (nonempty (strip (generated_content m title))).

(** The fallback calls the titles need. *)
Definition misses (m : gmap str json) (titles : list str) : nat :=
  length (List.filter (needs_fallback m) titles).

(** The content of the section created at position [i]: the generated
    content, or the reply to the section's own fallback call. *)
Definition resolved_content (gemini : nat → Reply) (m : gmap str json)
    (first_call : nat) (titles : list str) (i : nat) (title : str) : str :=
  if needs_fallback m title
  then refined_text (gemini (first_call + misses m (take i titles)))
  else generated_content m title.

Definition text_values (m : gmap str json) : Prop :=
  ∀ k v, m !! k = Some v → ∃ c, v = JStr c.

Definition heading_is (h : str) (s : pydict) : bool :=
  match dict_get s "heading" with
  | Some v => eq_str v h
  | None => false
  end.

(** The body of both creation loops: resolve the content, add the row. *)
Definition creation_step {St X : Type} (gemini : nat → Reply) (topic : str)
    (m : gmap str json) (project : Z) (title_of : X → str) (order_of : St → X → Z)
    (page_of index_of : X → option Z) (next : St → X → St) : St → X → M St :=
  λ s x,
    content ← initial_content gemini topic m (title_of x);
    db_add_section project (title_of x) (order_of s x) (page_of x) (index_of x) content;;
    mret (next s x).

(** The sections of the pages in creation order, each with its page number
    and its index on the page. *)
Definition page_items (pages : list PageConfig) : list (Z * Z * str) :=
  concat ((λ cfg, (λ it, (cfg_page_number cfg, it.1, it.2))
                    <$> enumerate_from 1 (take 3 (cfg_sections cfg)))
            <$> sorted_by cfg_page_number pages).

(** The world after one more collaborator call, and after one more section
    row in the session. *)
Definition bump (w : World) : World :=
  {| committed := committed w; session := session w; calls := S (calls w) |}.

Definition new_row (db : Db) (project : Z) (title : str) (order : Z)
    (page index : option Z) (content : str) : SectionRow :=
  {| sec_id := Z.of_nat (length (sections db)) + 1;
     project_id := project;
     sec_title := title;
     order_index := order;
     page_number := page;
     section_index := index;
     sec_content := content;
     history :=
       [{| version := 1; entry_content := content; prompt := "initial generation" |}] |}.

Definition with_rows (w : World) (rows : list SectionRow) (n : nat) : World :=
  {| committed := committed w;
     session := {| projects := projects (session w);
                   sections := sections (session w) ++ rows |};
     calls := n |}.

(** A row as the creation loop makes it for the item [x] at position [i]. *)
Definition created_row {X : Type} (gemini : nat → Reply) (m : gmap str json)
    (first_call : nat) (titles : list str) (project : Z) (title_of : X → str)
    (page_of index_of : X → option Z) (i : nat) (x : X) (r : SectionRow) : Prop :=
  sec_title r = title_of x
  ∧ sec_content r = resolved_content gemini m first_call titles i (title_of x)
  ∧ project_id r = project
  ∧ page_number r = page_of x
  ∧ section_index r = index_of x
  ∧ history r = [{| version := 1; prompt := "initial generation";
                    entry_content := sec_content r |}].

(** The batch call of a request fails: the collaborator raises, its text is
    not JSON, or the decoded response cannot be cleaned up. *)
Definition batch_fails (gemini : nat → Reply) (project_in : ProjectCreate) (n : nat)
  : Prop :=
  match gemini n with
  | Fails => True
  | Responds _ None => True
  | Responds _ (Some data) => clean_generated_sections (in_topic project_in) data = None
  end.

(** The batch call succeeds, and the first fallback call that fails is the
    one for the title [t]. *)
Definition fallback_fails (gemini : nat → Reply) (project_in : ProjectCreate)
    (n : nat) (t : str) : Prop :=
  ∃ text data generated m pre post,
    gemini n = Responds text (Some data)
    ∧ clean_generated_sections (in_topic project_in) data = Some generated
    ∧ content_by_heading_of generated = inr m
    ∧ requested_titles project_in = pre ++ t :: post
    ∧ (∀ i, i < misses m pre → responds (gemini (S n + i)))
    ∧ needs_fallback m t = true
    ∧ gemini (S n + misses m pre) = Fails.

(** A request for the sections "A", "A" and "B", and a response with two
    elements under "A" and blank content under "B". *)
Definition duplicate_request : ProjectCreate :=
  {| in_title := "EV Market 2025"; in_topic := "Electric vehicles";
     in_doc_type := DOCX; in_num_pages := None; in_pages := None;
     in_sections := [ {| new_title := "A"; new_order_index := 1 |};
                      {| new_title := "A"; new_order_index := 2 |};
                      {| new_title := "B"; new_order_index := 3 |} ] |}.

Definition duplicate_elements : list json :=
  [ JObj [("heading", JStr "A"); ("order_index", JInt 1); ("content", JStr "first")];
    JObj [("heading", JStr "A"); ("order_index", JInt 2); ("content", JStr "second")];
    JObj [("heading", JStr "B"); ("order_index", JInt 3); ("content", JStr "  ")] ].

(** The batch reply, then one answered fallback call. *)
Definition duplicate_gemini (n : nat) : Reply :=
  match n with
  | 0 => Responds "" (Some (JArr duplicate_elements))
  | 1 => Responds " Fallback text. " None
  | _ => Fails
  end.

(** The batch reply, then a fallback call that fails. *)
Definition failing_fallback_gemini (n : nat) : Reply :=
  match n with
  | 0 => Responds "" (Some (JArr duplicate_elements))
  | _ => Fails
  end.

(** A batch call that fails. *)
Definition failing_gemini (n : nat) : Reply := Fails.

(** The shape both modes of [create_word_project] share: add the project,
    generate all sections in one call, index the result by heading, run the
    creation loop over the items [xs], commit. *)
Definition create_with {St X : Type} (gemini : nat → Reply)
    (project_in : ProjectCreate) (current_user : User) (headings : list str)
    (step : gmap str json → Z → St → X → M St) (s0 : St) (xs : list X) : M Project :=
  project ← db_add_project (user_id current_user) project_in;
  generated_sections ←
    generate_word_sections_with_gemini gemini (in_topic project_in) headings;
  content_by_heading ← lift (content_by_heading_of generated_sections);
  for_each (step content_by_heading (proj_id project)) s0 xs;;
  db_commit;;
  mret project.

(** The project row a request adds to the store [db]. *)
Definition new_project (db : Db) (owner : Z) (project_in : ProjectCreate) : Project :=
  {| proj_id := Z.of_nat (length (projects db)) + 1;
     owner_id := owner;
     proj_title := in_title project_in;
     proj_topic := in_topic project_in;
     proj_doc_type := in_doc_type project_in;
     proj_num_pages := in_num_pages project_in |}.

(** The cleaned-up sections and the dictionary of the example response. *)
Definition duplicate_generated : list pydict :=
  default [] (clean_generated_sections "Electric vehicles" (JArr duplicate_elements)).

Definition duplicate_contents : gmap str json :=
  match content_by_heading_of duplicate_generated with
  | inr m => m
  | inl _ => ∅
  end.

(** A response element as the prompt asks for it: an object with a string
    for a heading, an integer for an order index (or none) and text for
    content (or none). *)
Definition well_formed_fields (fields : pydict) : Prop :=
  (∃ h, dict_get fields "heading" = Some (JStr h))
  ∧ (∃ i, dict_get_or fields "order_index" (JInt 0) = JInt i)
  ∧ (∃ c, py_or (dict_get_or fields "content" (JStr "")) (JStr "") = JStr c).

Definition well_formed_section (v : json) : Prop :=
  ∃ fields, v = JObj fields ∧ well_formed_fields fields.

(** A response of [n] title slides "T1", "T2", ... *)
Definition title_deck (n : Z) : json :=
  JArr ((λ i, JObj [("layout", JStr "title"); ("title", JStr ("T" ++ str_of_Z i))])
          <$> seqZ 1 n).

Definition slide_titles (slides : option (list pydict)) : option (list (option json)) :=
  fmap (M := list) (λ s, dict_get s "title") <$> slides.

(** ** More of the document endpoints, and what the further properties use *)

(** [get_word_project]: the project with this id, for its owner only. *)
Definition get_word_project (project : Z) (current_user : User) : M Project :=
  db ← get_session;
  or_raise (HTTPException 404 "Project not found")
    (List.find (λ p, (proj_id p =? project)%Z && (owner_id p =? user_id current_user)%Z)
       (projects db)).

(** The text of the sanitizer before it is split into lines: line endings
    unified, escaped line breaks made real. *)
Definition normalized (raw : str) : str :=
  replace [BACKSLASH; "n"%char] [NL] (replace [CR] [NL] (replace [CR; NL] [NL] raw)).

Definition is_page_break (b : Block) : bool :=
  match b with PageBreak => true | _ => false end.

(** The section headings of a document, in order. *)
Definition outline (doc : list Block) : list str :=
  omap (λ b, match b with
             | Heading text 1 _ => Some text
             | _ => None
             end) doc.

(** The sections of all pages, pages in ascending order. *)
Definition sections_in_order (pages : gmap Z (list SectionDict)) : list SectionDict :=
  concat ((λ k, default [] (pages !! k)) <$> sorted_keys pages).

(** A block as [build_docx_file] makes them for the document titled
    [title]: the title heading, a page break, a section heading that is not
    empty, or a paragraph of one non-blank trimmed line. *)
Definition well_formed_block (title : str) (b : Block) : Prop :=
  match b with
  | Heading text level size =>
      (level = 0%Z ∧ text = title ∧ size = None)
      ∨ (level = 1%Z ∧ text ≠ [] ∧ is_Some size)
  | PageBreak => True
  | Paragraph text size => text ≠ [] ∧ (NL ∉ text) ∧ strip text = text ∧ is_Some size
  end.

(** The sections of a project, as the store holds them. *)
Definition project_sections (db : Db) (project : Z) : list SectionRow :=
  List.filter (λ s, (project_id s =? project)%Z) (sections db).

(** A store whose only project belongs to another user, for the examples. *)
Definition other_user : User := {| user_id := 8 |}.

(** A collaborator that never answers. *)
Definition silent_gemini (n : nat) : Reply := Fails.

(** A row as [create_word_project] leaves it: one history entry, version 1,
    with the content of the row. *)
Definition initial_history (r : SectionRow) : Prop :=
  history r = [{| version := 1; entry_content := sec_content r;
                  prompt := "initial generation" |}].

(** The rows a creation loop adds for the items [xs], started in the state
    [s]. *)
Definition loop_rows {St X : Type} (project : Z) (title_of : X → str)
    (order_of : St → X → Z) (page_of index_of : X → option Z) (next : St → X → St)
    (s : St) (xs : list X) (rows : list SectionRow) : Prop :=
  length rows = length xs
  ∧ ∀ i x, xs !! i = Some x →
      ∃ row, rows !! i = Some row
             ∧ project_id row = project
             ∧ sec_title row = title_of x
             ∧ order_index row = order_of (foldl next s (take i xs)) x
             ∧ page_number row = page_of x
             ∧ section_index row = index_of x
             ∧ initial_history row.

(** Where a created section is in the document: page number, index on the
    page, order index and title. *)
Definition coordinates (r : SectionRow) : option Z * option Z * Z * str :=
  (page_number r, section_index r, order_index r, sec_title r).

(** A request in page mode: two pages, the second listed first and with four
    sections. *)
Definition paged_request : ProjectCreate :=
  {| in_title := "EV Market 2025"; in_topic := "Electric vehicles";
     in_doc_type := DOCX; in_num_pages := Some 2%Z;
     in_pages := Some [ {| cfg_page_number := 2; cfg_sections := ["C"; "D"; "E"; "F"] |};
                        {| cfg_page_number := 1; cfg_sections := ["A"; "B"] |} ];
     in_sections := [] |}.

(** A collaborator whose batch reply is an empty array and which answers
    every fallback call. *)
Definition fallback_gemini (n : nat) : Reply :=
  match n with
  | 0 => Responds "" (Some (JArr []))
  | _ => Responds " Fallback text. " None
  end.

(** The key the generated sections are sorted by, and its value when it is
    an integer. *)
Definition order_key (s : pydict) : json := dict_get_or s "order_index" (JInt 0).

Definition order_of_section (s : pydict) : Z :=
  match order_key s with JInt i => i | _ => 0%Z end.

(** What the cleanup may do to a generated section: replace its content by a
    stripped part of it. *)
Definition trimmed (s s' : pydict) : Prop :=
  ∃ c0 c, py_or (dict_get_or s "content" (JStr "")) (JStr "") = JStr c0
          ∧ s' = dict_set s "content" (JStr c)
          ∧ strip c = c
          ∧ infix_of c c0.

(** A decoded response the cleanup cannot handle: not an array, or with an
    element that is not an object or whose content is neither text nor
    empty. *)
Definition malformed_element (v : json) : Prop :=
  match v with
  | JObj fields =>
      match py_or (dict_get_or fields "content" (JStr "")) (JStr "") with
      | JStr _ => False
      | _ => True
      end
  | _ => True
  end.

Definition malformed (data : json) : Prop :=
  match data with
  | JArr items => Exists malformed_element items
  | _ => True
  end.

(** A collaborator that answers with an object instead of an array. *)
Definition object_gemini (n : nat) : Reply :=
  Responds "{}" (Some (JObj [])).

(** A response whose elements are out of order. *)
Definition unordered_elements : list json :=
  [ JObj [("heading", JStr "B"); ("order_index", JInt 2); ("content", JStr "Section 2: second")];
    JObj [("heading", JStr "A"); ("order_index", JInt 1); ("content", JStr "first")] ].

Definition unordered_gemini (n : nat) : Reply :=
  Responds "" (Some (JArr unordered_elements)).

(** A response element whose title, when it has one, is text. *)
Definition text_title (v : json) : Prop :=
  match v with
  | JObj fields => ∃ t, dict_get_or fields "title" (JStr "") = JStr t
  | _ => True
  end.

(** An element in the generic format: an object without a "layout" key. *)
Definition generic_element (v : json) : Prop :=
  ∃ fields, v = JObj fields ∧ dict_has fields "layout" = false.

Definition bullets_of (s : pydict) : list json :=
  match dict_get s "bullets" with
  | Some (JArr bullets) => bullets
  | _ => []
  end.

(** A bullet as the generic mapping leaves it: non-empty text without
    surrounding whitespace. *)
Definition trimmed_text (v : json) : Prop :=
  ∃ b, v = JStr b ∧ b ≠ [] ∧ strip b = b.

(** The deck before the pass over the image slides. *)
Definition counted_slides (num_slides : Z) (data : list json) : list pydict :=
  ensure_count num_slides (foldl normalize_slide [] data).

(** A response in the generic format, for the examples. *)
Definition generic_deck : list json :=
  [ JObj [("title", JStr "Agenda"); ("content", JArr [JStr " Market "; JStr "  "; JInt 3])];
    JObj [("title", JStr "Chart"); ("image", JStr "a bar chart")];
    JObj [("title", JStr "Thanks")] ].


(** A response element whose order index is an integer, or missing, and one
    whose content is text, or missing or empty. *)
Definition integer_order (s : pydict) : Prop := ∃ i, order_key s = JInt i.

Definition text_content (s : pydict) : Prop :=
  ∃ c, py_or (dict_get_or s "content" (JStr "")) (JStr "") = JStr c.

(** The elements of a list with the order index [k], in the order of the
    list. *)
Definition with_order (k : Z) (l : list pydict) : list pydict :=
  List.filter (λ s, (order_of_section s =? k)%Z) l.

(** * Properties *)

(** ** Strings *)

Section dropwhile.
Context {A : Type} (p : A → bool).

Lemma dropwhile_suffix l : ∃ w, l = w ++ dropwhile p l ∧ Forall (λ x, p x = true) w.
Proof.
  induction l as [|x t [w [Hw Hall]]]; simpl.
  - by exists [].
  - destruct (p x) eqn:Hx.
    + exists (x :: w). split; [by rewrite Hw at 1 | by constructor].
    + by exists [].
Qed.

Lemma dropwhile_head l x t : dropwhile p l = x :: t → p x = false.
Proof.
  induction l as [|y l IH]; simpl; [done|].
  destruct (p y) eqn:Hy; [done|]. by intros [= <- _].
Qed.

Lemma dropwhile_id l : (∀ x, head l = Some x → p x = false) → dropwhile p l = l.
Proof.
  destruct l as [|x t]; simpl; [done|]. intros H. by rewrite (H x).
Qed.

(** Dropping from the right end: [reverse (dropwhile p (reverse l))]. *)
Lemma rdrop_prefix l :
  ∃ w, l = reverse (dropwhile p (reverse l)) ++ w ∧ Forall (λ x, p x = true) w.
Proof.
  destruct (dropwhile_suffix (reverse l)) as [w [Hw Hall]].
  exists (reverse w). split.
  - rewrite <- reverse_app, <- Hw. by rewrite reverse_involutive.
  - by apply Forall_reverse.
Qed.

Lemma rdrop_last l x :
  last (reverse (dropwhile p (reverse l))) = Some x → p x = false.
Proof.
  rewrite last_reverse. destruct (dropwhile p (reverse l)) eqn:E; [done|].
  intros [= ->]. by eapply dropwhile_head.
Qed.

Lemma rdrop_id l :
  (∀ x, last l = Some x → p x = false) → reverse (dropwhile p (reverse l)) = l.
Proof.
  intros H. rewrite dropwhile_id; [apply reverse_involutive|].
  intros x. rewrite head_reverse. apply H.
Qed.
End dropwhile.

Lemma lstrip_head s c t : lstrip s = c :: t → is_space c = false.
Proof. apply dropwhile_head. Qed.

Lemma strip_head s c t : strip s = c :: t → is_space c = false.
Proof.
  unfold strip, rstrip. intros H.
  destruct (rdrop_prefix is_space (lstrip s)) as [w [Hw _]].
  rewrite H in Hw. simpl in Hw. by eapply lstrip_head.
Qed.

Lemma strip_last s c : last (strip s) = Some c → is_space c = false.
Proof. apply rdrop_last. Qed.

Lemma strip_id s :
  (∀ c, head s = Some c → is_space c = false) →
  (∀ c, last s = Some c → is_space c = false) → strip s = s.
Proof.
  intros Hh Hl. unfold strip, lstrip, rstrip.
  rewrite (dropwhile_id _ s Hh). by apply rdrop_id.
Qed.

Lemma strip_idemp s : strip (strip s) = strip s.
Proof.
  apply strip_id.
  - intros c. destruct (strip s) eqn:E; [done|]. intros [= ->]. by eapply strip_head.
  - apply strip_last.
Qed.

Lemma strip_infix s : infix_of (strip s) s.
Proof.
  destruct (dropwhile_suffix is_space s) as [p [Hp _]].
  destruct (rdrop_prefix is_space (lstrip s)) as [q [Hq _]].
  exists p, q. unfold strip, rstrip. fold (lstrip s) in Hp. by rewrite <- Hq.
Qed.

Lemma infix_elem l s c : infix_of l s → c ∈ l → c ∈ s.
Proof. intros (p & q & ->) H. rewrite !elem_of_app. auto. Qed.

Lemma infix_trans a b c : infix_of a b → infix_of b c → infix_of a c.
Proof.
  intros (p & q & ->) (p' & q' & ->). exists (p' ++ p), (q ++ q').
  by rewrite <- !app_assoc.
Qed.

Lemma startswith_app sub s q : startswith sub s = true → startswith sub (s ++ q) = true.
Proof.
  revert s. induction sub as [|a sub IH]; intros [|b s]; simpl; try done.
  intros [? ?]%andb_true_iff. apply andb_true_iff. eauto.
Qed.

Lemma contains_app_l sub s q : contains sub s = true → contains sub (s ++ q) = true.
Proof.
  induction s as [|c s IH]; simpl.
  - rewrite orb_false_r. destruct sub; [|done]. intros _. by destruct q.
  - intros [H|H]%orb_true_iff; apply orb_true_iff.
    + left. by apply (startswith_app sub (c :: s) q).
    + right. auto.
Qed.

Lemma contains_app_r sub p s : contains sub s = true → contains sub (p ++ s) = true.
Proof.
  intros H. induction p as [|c p IH]; simpl; [done|].
  rewrite IH. apply orb_true_r.
Qed.

Lemma contains_infix sub l s :
  infix_of l s → contains sub s = false → contains sub l = false.
Proof.
  intros (p & q & ->) H. destruct (contains sub l) eqn:E; [|done].
  by rewrite (contains_app_r sub p _ (contains_app_l sub l q E)) in H.
Qed.

Lemma contains_cons_absent a sub s : a ∉ s → contains (a :: sub) s = false.
Proof.
  induction s as [|c s IH]; simpl; [done|].
  intros [Hne Hs]%not_elem_of_cons. rewrite (IH Hs), orb_false_r.
  by rewrite bool_decide_eq_false_2.
Qed.

(** *** [replace] *)

Lemma replace_absent old new s : contains old s = false → replace old new s = s.
Proof.
  unfold replace. induction s as [|c s IH]; [done|].
  intros H. cbn [contains] in H. apply orb_false_iff in H as [H1 H2].
  cbn [replace_from]. rewrite H1. f_equal. auto.
Qed.

Lemma replace_from_Forall (P : ascii → Prop) old new k s :
  Forall P new → Forall P s → Forall P (replace_from old new k s).
Proof.
  intros Hn Hs. revert k. induction Hs as [|c s Hc Hs IH]; intros k; [done|].
  cbn [replace_from]. destruct k; [|apply IH].
  destruct (startswith old (c :: s)).
  - apply Forall_app. split; [done | apply IH].
  - constructor; [done | apply IH].
Qed.

Lemma replace_char_absent a new s : a ∉ new → a ∉ replace [a] new s.
Proof.
  intros Hn. unfold replace. induction s as [|c s IH]; [apply not_elem_of_nil|].
  cbn [replace_from startswith length pred]. case_bool_decide; simpl.
  - by apply not_elem_of_app.
  - apply not_elem_of_cons. split; [congruence | done].
Qed.

Lemma replace_pair_absent a b c s :
  c ≠ a → c ≠ b → contains [a; b] (replace [a; b] [c] s) = false.
Proof.
  intros Ha Hb. unfold replace.
  cut (∀ n s, length s ≤ n →
         contains [a; b] (replace_from [a; b] [c] 0 s) = false
         ∧ ∀ r, replace_from [a; b] [c] 0 s = b :: r → ∃ t, s = b :: t).
  { intros H. by apply (H (length s) s). }
  clear s. induction n as [|n IH]; intros s Hlen.
  { destruct s; [|simpl in Hlen; lia]. done. }
  destruct s as [|x t]; [done|].
  cbn [replace_from]. destruct (startswith [a; b] (x :: t)) eqn:Hsw.
  - simpl in Hsw. destruct t as [|y t']; [by rewrite andb_false_r in Hsw|].
    cbn [length pred app replace_from].
    destruct (IH t') as [IH1 _]; [simpl in Hlen; lia|].
    split.
    + cbn [contains startswith]. rewrite IH1, orb_false_r.
      by rewrite (bool_decide_eq_false_2 (a = c)).
    + intros r [= ? _]. done.
  - destruct (IH t) as [IH1 IH2]; [simpl in Hlen; lia|].
    split.
    + cbn [contains]. rewrite IH1, orb_false_r.
      cbn [startswith]. case_bool_decide; [subst x|done]. simpl.
      destruct (replace_from [a; b] [c] 0 t) as [|y r] eqn:E; [done|].
      case_bool_decide; [subst y|done].
      destruct (IH2 r eq_refl) as [t' ->].
      simpl in Hsw. by rewrite !bool_decide_eq_true_2 in Hsw.
    + intros r [= -> _]. by exists t.
Qed.

(** *** [split] and [join] *)

Lemma split_nonnil sep s : split sep s ≠ [].
Proof.
  destruct s as [|c t]; simpl; [done|].
  case_bool_decide; [done|]. by destruct (split sep t).
Qed.

Lemma join_cons sep l ls : ls ≠ [] → join sep (l :: ls) = l ++ sep ++ join sep ls.
Proof. by destruct ls. Qed.

Lemma join_split sep s : join [sep] (split sep s) = s.
Proof.
  induction s as [|c t IH]; simpl; [done|].
  case_bool_decide.
  - subst c. rewrite join_cons by apply split_nonnil. simpl. by rewrite IH.
  - pose proof (split_nonnil sep t) as Hne.
    destruct (split sep t) as [|l ls]; [done|].
    destruct ls as [|l2 ls]; simpl in *; by rewrite <- IH.
Qed.

Lemma split_absent sep l : sep ∉ l → split sep l = [l].
Proof.
  induction l as [|c l IH]; simpl; [done|].
  intros [Hne Hl]%not_elem_of_cons. rewrite bool_decide_eq_false_2 by done.
  by rewrite IH.
Qed.

Lemma split_app_sep sep l r : sep ∉ l → split sep (l ++ sep :: r) = l :: split sep r.
Proof.
  induction l as [|c l IH]; simpl.
  - intros _. by rewrite bool_decide_eq_true_2.
  - intros [Hne Hl]%not_elem_of_cons. rewrite bool_decide_eq_false_2 by done.
    by rewrite IH.
Qed.

Lemma split_join sep ls :
  ls ≠ [] → Forall (λ l, sep ∉ l) ls → split sep (join [sep] ls) = ls.
Proof.
  intros Hne Hall. induction Hall as [|l ls Hl Hall IH]; [done|].
  destruct ls as [|l2 ls].
  - simpl. by apply split_absent.
  - rewrite join_cons by done. change ([sep] ++ ?x) with (sep :: x).
    rewrite split_app_sep by done. f_equal. by apply IH.
Qed.

Lemma split_pieces sep s : Forall (λ l, (sep ∉ l) ∧ infix_of l s) (split sep s).
Proof.
  induction s as [|c t IH]; simpl.
  - constructor; [|done]. split; [apply not_elem_of_nil | by exists [], []].
  - assert (Ht : Forall (λ l, (sep ∉ l) ∧ infix_of l (c :: t)) (split sep t)).
    { eapply Forall_impl; [exact IH|]. intros l [? (p & q & ->)].
      split; [done|]. by exists (c :: p), q. }
    case_bool_decide.
    + constructor; [|done]. split; [apply not_elem_of_nil | by exists [], (c :: t)].
    + pose proof (join_split sep t) as Hj.
      destruct (split sep t) as [|l ls] eqn:E; [by apply split_nonnil in E|].
      apply Forall_cons in Ht as [[Hl _] Hls].
      constructor; [|done]. split; [apply not_elem_of_cons; split; [congruence | done]|].
      exists [], (match ls with [] => [] | _ => sep :: join [sep] ls end).
      rewrite <- Hj. destruct ls; simpl; [by rewrite app_nil_r | done].
Qed.

(** ** The text sanitizer *)

Lemma clean_line_nil : clean_line [].
Proof. repeat split; apply not_elem_of_nil. Qed.

Lemma clean_line_strip l :
  NL ∉ l → CR ∉ l → contains [BACKSLASH; "n"%char] l = false → clean_line (strip l).
Proof.
  intros H1 H2 H3. pose proof (strip_infix l) as Hi. repeat split.
  - intros H. by apply H1, (infix_elem _ _ _ Hi).
  - intros H. by apply H2, (infix_elem _ _ _ Hi).
  - by eapply contains_infix.
  - apply strip_idemp.
Qed.

(** The text the sanitizer splits into lines has neither carriage returns
    nor escaped line breaks. *)
Lemma normalized_text raw :
  let text := replace [BACKSLASH; "n"%char] [NL]
                (replace [CR] [NL] (replace [CR; NL] [NL] raw)) in
  (CR ∉ text) ∧ contains [BACKSLASH; "n"%char] text = false.
Proof.
  intros text. split.
  - assert (H : Forall (λ c, c ≠ CR) text).
    { apply replace_from_Forall; [by repeat constructor|].
      apply Forall_forall. intros c Hc ->. revert Hc.
      apply replace_char_absent. by intros [= ]%list_elem_of_singleton. }
    intros Hin. by eapply Forall_forall in H.
  - by apply replace_pair_absent.
Qed.

Lemma stripped_lines_clean text :
  CR ∉ text → contains [BACKSLASH; "n"%char] text = false →
  Forall clean_line (strip <$> split NL text).
Proof.
  intros Hcr Hbs. apply Forall_fmap.
  eapply Forall_impl; [apply split_pieces|]. intros l [Hnl Hi]. simpl.
  apply clean_line_strip; [done| |by eapply contains_infix].
  intros H. by apply Hcr, (infix_elem _ _ _ Hi).
Qed.

Lemma strip_meta_lines_suffix tl hl ls : ∃ p, ls = p ++ strip_meta_lines tl hl ls.
Proof.
  induction ls as [|l ls [p Hp]]; [by exists []|]. simpl.
  destruct (negb (nonempty (strip l))).
  - exists (l :: p). by rewrite Hp at 1.
  - destruct (is_meta_line tl hl (strip l)).
    + exists (l :: p). by rewrite Hp at 1.
    + by exists [].
Qed.

Lemma strip_meta_lines_head tl hl ls l r :
  strip_meta_lines tl hl ls = l :: r →
  strip l ≠ [] ∧ is_meta_line tl hl (strip l) = false.
Proof.
  induction ls as [|x ls IH]; [done|]. simpl.
  destruct (strip x) as [|a s] eqn:Es; simpl; [done|].
  destruct (is_meta_line tl hl (a :: s)) eqn:Em; [done|].
  intros [= <- _]. by rewrite Es.
Qed.

Lemma strip_meta_lines_id tl hl ls :
  (∀ l, head ls = Some l → strip l ≠ [] ∧ is_meta_line tl hl (strip l) = false) →
  strip_meta_lines tl hl ls = ls.
Proof.
  destruct ls as [|l ls]; [done|]. intros H.
  destruct (H l eq_refl) as [H1 H2]. simpl. rewrite H2.
  by destruct (strip l).
Qed.

Lemma no_double_blank_app_r p q : no_double_blank (p ++ q) → no_double_blank q.
Proof.
  induction p as [|a p IH]; [done|]. intros H. apply IH.
  simpl in H. destruct (p ++ q); [done | tauto].
Qed.

Lemma no_double_blank_app_l p q : no_double_blank (p ++ q) → no_double_blank p.
Proof.
  induction p as [|a p IH]; [done|]. intros H.
  destruct p as [|b p]; [done|]. simpl in *. split; [tauto|]. apply IH. tauto.
Qed.

Lemma no_double_blank_snoc acc x :
  no_double_blank acc → (last acc = Some [] → x ≠ []) → no_double_blank (acc ++ [x]).
Proof.
  induction acc as [|a acc IH]; [done|]. intros Hacc Hx.
  destruct acc as [|b acc].
  - simpl. split; [|done]. intros [-> ->]. by apply Hx.
  - simpl in Hacc. destruct Hacc as [Hab Hacc]. change ((a :: b :: acc) ++ [x])
      with (a :: b :: (acc ++ [x])). split; [done|]. by apply IH.
Qed.

Lemma collapse_step_cases acc x :
  collapse_step acc x = acc ++ [x] ∨ (x = [] ∧ last acc = Some [] ∧ collapse_step acc x = acc).
Proof.
  unfold collapse_step. destruct x as [|c x]; simpl; [|by left].
  destruct (last acc) as [[|]|] eqn:E; auto.
Qed.

Lemma collapse_prefix acc ls : ∃ r, foldl collapse_step acc ls = acc ++ r.
Proof.
  revert acc. induction ls as [|x ls IH]; intros acc; simpl.
  - exists []. by rewrite app_nil_r.
  - destruct (IH (collapse_step acc x)) as [r ->].
    destruct (collapse_step_cases acc x) as [-> | (_ & _ & ->)].
    + exists (x :: r). by rewrite <- app_assoc.
    + by exists r.
Qed.

Lemma collapse_Forall (P : str → Prop) acc ls :
  Forall P acc → Forall P ls → Forall P (foldl collapse_step acc ls).
Proof.
  intros Hacc Hls. revert acc Hacc.
  induction Hls as [|x ls Hx Hls IH]; intros acc Hacc; [done|]. simpl.
  apply IH. destruct (collapse_step_cases acc x) as [-> | (_ & _ & ->)]; [|done].
  apply Forall_app. by split; [|constructor].
Qed.

Lemma collapse_no_double_blank acc ls :
  no_double_blank acc → no_double_blank (foldl collapse_step acc ls).
Proof.
  revert acc. induction ls as [|x ls IH]; intros acc Hacc; [done|]. simpl.
  apply IH. destruct (collapse_step_cases acc x) as [E | (_ & _ & ->)]; [|done].
  rewrite E. apply no_double_blank_snoc; [done|]. intros Hl ->.
  unfold collapse_step in E. simpl in E. rewrite Hl in E.
  apply (f_equal length) in E. rewrite length_app in E. simpl in E. lia.
Qed.

Lemma collapse_id acc ls :
  no_double_blank (acc ++ ls) → foldl collapse_step acc ls = acc ++ ls.
Proof.
  revert acc. induction ls as [|x ls IH]; intros acc H; simpl.
  - by rewrite app_nil_r.
  - destruct (collapse_step_cases acc x) as [-> | (-> & Hl & _)].
    + rewrite IH; rewrite <- app_assoc; done.
    + apply last_Some in Hl as [acc' ->]. rewrite <- app_assoc in H.
      apply no_double_blank_app_r in H. simpl in H. tauto.
Qed.

Lemma is_blank_line_false l : is_blank_line l = false ↔ l ≠ [].
Proof. by destruct l. Qed.

Lemma trim_blank_lines_id ls :
  (∀ l, head ls = Some l → l ≠ []) → last ls ≠ Some [] → trim_blank_lines ls = ls.
Proof.
  intros Hh Hl. unfold trim_blank_lines.
  rewrite (dropwhile_id is_blank_line ls).
  - apply rdrop_id. intros x Hx. apply is_blank_line_false. by intros ->.
  - intros x Hx. apply is_blank_line_false. auto.
Qed.

(** What the sanitizer joins is tidy. *)
Lemma cleaned_tidy tl hl lines :
  Forall clean_line lines →
  tidy tl hl (trim_blank_lines (collapse_blank_lines (strip_meta_lines tl hl lines))).
Proof.
  intros Hlines.
  destruct (strip_meta_lines_suffix tl hl lines) as [p Hp].
  assert (Hkept : Forall clean_line (strip_meta_lines tl hl lines)).
  { rewrite Hp in Hlines. by apply Forall_app in Hlines as [_ ?]. }
  set (kept := strip_meta_lines tl hl lines) in *.
  assert (Hhead : ∀ l, head kept = Some l → l ≠ [] ∧ is_meta_line tl hl l = false).
  { intros l Hl. destruct kept as [|l' r] eqn:E; [done|]. injection Hl as ->.
    apply Forall_cons in Hkept as [(_ & _ & _ & Hs) _].
    pose proof (strip_meta_lines_head tl hl lines l r E) as H. by rewrite Hs in H. }
  set (col := collapse_blank_lines kept).
  assert (Hcol : Forall clean_line col) by by apply collapse_Forall.
  assert (Hndb : no_double_blank col) by by apply collapse_no_double_blank.
  assert (Hcolhead : ∀ l, head col = Some l → l ≠ [] ∧ is_meta_line tl hl l = false).
  { intros l. subst col. unfold collapse_blank_lines.
    destruct kept as [|x r]; [done|]. simpl.
    destruct (Hhead x eq_refl) as [Hx Hm].
    unfold collapse_step at 2. destruct x as [|c x]; [done|]. simpl.
    destruct (collapse_prefix [c :: x] r) as [r' ->]. by intros [= <-]. }
  unfold trim_blank_lines.
  rewrite (dropwhile_id is_blank_line col)
    by (intros x Hx; apply is_blank_line_false; by apply Hcolhead).
  destruct (rdrop_prefix is_blank_line col) as [w [Hw Hall]].
  set (out := reverse (dropwhile is_blank_line (reverse col))) in *.
  split; [|split; [|split]].
  - rewrite Hw in Hcol. by apply Forall_app in Hcol as [? _].
  - destruct out as [|o out']; [done|]. intros l [= <-].
    rewrite Hw in Hcolhead. by apply Hcolhead.
  - intros Hl. by apply (rdrop_last is_blank_line) in Hl.
  - rewrite Hw in Hndb. by eapply no_double_blank_app_l.
Qed.

Lemma join_elem sep ls c : c ∈ join sep ls → c ∈ sep ∨ ∃ l, l ∈ ls ∧ c ∈ l.
Proof.
  induction ls as [|l ls IH]; [by intros ?%not_elem_of_nil|].
  destruct ls as [|l2 ls].
  - simpl. intros H. right. exists l. split; [by left | done].
  - rewrite join_cons by done. intros [H|[H|H]%elem_of_app]%elem_of_app.
    + right. exists l. split; [by left | done].
    + by left.
    + destruct (IH H) as [?|(l' & ? & ?)]; [by left|]. right. exists l'.
      split; [by right | done].
Qed.

Lemma contains_pair_join a b ls :
  a ≠ NL → b ≠ NL → Forall (λ l, contains [a; b] l = false) ls →
  contains [a; b] (join [NL] ls) = false.
Proof.
  intros Ha Hb Hall. induction Hall as [|l ls Hl Hall IH]; [done|].
  destruct ls as [|l2 ls]; [done|]. rewrite join_cons by done.
  change ([NL] ++ ?x) with (NL :: x).
  set (r := join [NL] (l2 :: ls)) in *. clearbody r.
  induction l as [|x l IHl].
  - cbn [app contains startswith]. rewrite IH, orb_false_r.
    by rewrite (bool_decide_eq_false_2 (a = NL)).
  - cbn [contains] in Hl. apply orb_false_iff in Hl as [Hsw Hl].
    change ((x :: l) ++ NL :: r) with (x :: (l ++ NL :: r)).
    cbn [contains]. rewrite (IHl Hl), orb_false_r.
    cbn [startswith] in *. case_bool_decide; [|done]. simpl in *.
    destruct l as [|y l]; simpl in *.
    + by rewrite (bool_decide_eq_false_2 (b = NL)).
    + by rewrite andb_true_r in *.
Qed.

(** Joining tidy lines gives text the sanitizer reads back as the same lines
    and leaves alone. *)
Lemma tidy_join_stripped tl hl ls : tidy tl hl ls → strip (join [NL] ls) = join [NL] ls.
Proof.
  intros (Hall & Hh & Hl & _). apply strip_id.
  - intros c Hc. destruct ls as [|l ls]; [done|].
    destruct (Hh l eq_refl) as [Hne _]. apply Forall_cons in Hall as [(_ & _ & _ & Hs) _].
    destruct l as [|c' l]; [done|].
    assert (c = c') as ->. { destruct ls; simpl in Hc; by injection Hc. }
    by apply (strip_head (c' :: l) c' l).
  - intros c Hc.
    destruct (last ls) as [l|] eqn:El; [|by apply last_None in El; subst ls].
    apply last_Some in El as [ls' ->].
    apply Forall_app in Hall as [_ [(_ & _ & _ & Hs) _]%Forall_cons].
    assert (l ≠ []) as Hlne by (by intros ->).
    assert (last l = Some c) as Hlc.
    { clear -Hc Hlne. induction ls' as [|x ls' IH].
      - done.
      - change ((x :: ls') ++ [l]) with (x :: (ls' ++ [l])) in Hc.
        rewrite join_cons in Hc by by destruct ls'.
        rewrite !last_app in Hc. destruct (last (join [NL] (ls' ++ [l]))) eqn:E.
        + by apply IH.
        + exfalso. apply last_None in E. destruct ls' as [|y ls'].
          * simpl in E. subst l. done.
          * rewrite <- app_comm_cons, join_cons in E by by destruct ls'.
            by destruct y. }
    rewrite <- Hs in Hlc. by eapply strip_last.
Qed.

Lemma tidy_second_pass tl hl ls :
  tidy tl hl ls → ls ≠ [] →
  let text := join [NL] ls in
  replace [BACKSLASH; "n"%char] [NL] (replace [CR] [NL] (replace [CR; NL] [NL] text)) = text
  ∧ strip <$> split NL text = ls.
Proof.
  intros (Hall & Hh & Hl & Hndb) Hne text.
  assert (Hcr : CR ∉ text).
  { intros [H|(l & Hin & Hc)]%join_elem.
    - by apply list_elem_of_singleton in H.
    - eapply Forall_forall in Hall; [|done]. by destruct Hall as (_ & ? & _). }
  split.
  - rewrite (replace_absent [CR; NL]) by by apply contains_cons_absent.
    rewrite (replace_absent [CR]) by by apply contains_cons_absent.
    apply replace_absent. apply contains_pair_join; [done..|].
    eapply Forall_impl; [exact Hall|]. by intros l (_ & _ & ? & _).
  - subst text. rewrite split_join.
    + clear -Hall. induction Hall as [|l ls (_ & _ & _ & Hs) _ IH]; [done|].
      rewrite fmap_cons. by f_equal.
    + done.
    + eapply Forall_impl; [exact Hall|]. by intros l (? & _).
Qed.

(** The sanitizer returns tidy lines joined by line breaks. *)
Lemma clean_section_content_tidy doc_title heading raw :
  ∃ ls, tidy (lower (strip doc_title)) (lower (strip heading)) ls
        ∧ _clean_section_content doc_title heading raw = join [NL] ls.
Proof.
  unfold _clean_section_content. destruct (negb (nonempty raw)).
  - exists []. split; [|done]. split; [constructor|]. by split.
  - destruct (normalized_text raw) as [Hcr Hbs].
    eexists. split.
    + apply cleaned_tidy. by apply stripped_lines_clean.
    + eapply tidy_join_stripped. apply cleaned_tidy. by apply stripped_lines_clean.
Qed.

(** Tidy text is a fixed point of the sanitizer. *)
Lemma clean_section_content_fixed doc_title heading ls :
  tidy (lower (strip doc_title)) (lower (strip heading)) ls →
  _clean_section_content doc_title heading (join [NL] ls) = join [NL] ls.
Proof.
  intros Ht. destruct ls as [|l ls]; [done|].
  pose proof Ht as (Hall & Hh & Hl & Hndb).
  destruct (Hh l eq_refl) as [Hne Hm].
  unfold _clean_section_content.
  assert (nonempty (join [NL] (l :: ls)) = true) as ->.
  { destruct l; [done|]. by destruct ls. }
  simpl negb. cbv iota.
  destruct (tidy_second_pass _ _ _ Ht) as [-> ->]; [done|].
  rewrite strip_meta_lines_id.
  - unfold collapse_blank_lines. rewrite collapse_id by done. simpl app.
    rewrite trim_blank_lines_id; [by eapply tidy_join_stripped| |done].
    intros x [= <-]. done.
  - intros x [= <-]. apply Forall_cons in Hall as [(_ & _ & _ & ->) _]. done.
Qed.

(** C6: the sanitizer is idempotent: sanitizing its own output with the same
    document title and heading changes nothing. *)
Theorem clean_section_content_idempotent doc_title heading raw :
  _clean_section_content doc_title heading
    (_clean_section_content doc_title heading raw)
  = _clean_section_content doc_title heading raw.
Proof.
  destruct (clean_section_content_tidy doc_title heading raw) as [ls [Ht ->]].
  by apply clean_section_content_fixed.
Qed.

(** A leading line equal to the document title goes, the same text further
    down stays. *)
Example clean_title_example :
  _clean_section_content "EV Market 2025" "Overview"
    "EV Market 2025
Sales grew 40% in 2024.
EV Market 2025 remains competitive."
  = "Sales grew 40% in 2024.
EV Market 2025 remains competitive.".
Proof. reflexivity. Qed.

Lemma is_meta_line_page_section tl hl first :
  startswith "page " (lower first) && contains "section" (lower first) = true →
  is_meta_line tl hl first = true.
Proof.
  intros H. unfold is_meta_line. cbv zeta. rewrite H.
  by rewrite orb_true_r.
Qed.

Lemma is_meta_line_heading_colon tl hl first :
  nonempty hl && startswith (hl ++ ":") (lower first) = true →
  is_meta_line tl hl first = true.
Proof.
  intros H. unfold is_meta_line. cbv zeta. rewrite H.
  by rewrite !orb_true_r.
Qed.

(** C5, as the code has it: the page/section label line is dropped, and then
    the whole line that starts with "Introduction:" is dropped as well, so
    nothing is left, whatever the document title. *)
Theorem clean_intro_example_empty doc_title :
  _clean_section_content doc_title "Introduction" intro_example = ""
  ∧ _clean_section_content doc_title "Introduction" intro_example_escaped = "".
Proof.
  assert (H : ∀ raw,
    nonempty raw = true →
    strip <$> split NL (replace [BACKSLASH; "n"%char] [NL]
                          (replace [CR] [NL] (replace [CR; NL] [NL] raw)))
    = ["Page 2 – Section 3"; "Introduction: growth has accelerated."] →
    _clean_section_content doc_title "Introduction" raw = "").
  { intros raw Hne Hlines. unfold _clean_section_content.
    rewrite Hne. simpl negb. cbv iota. rewrite Hlines.
    cbn [strip_meta_lines].
    replace (strip "Page 2 – Section 3") with ("Page 2 – Section 3" : str)
      by by vm_compute.
    replace (strip "Introduction: growth has accelerated.")
      with ("Introduction: growth has accelerated." : str) by by vm_compute.
    cbn [nonempty negb].
    rewrite is_meta_line_page_section by by vm_compute.
    rewrite is_meta_line_heading_colon by by vm_compute.
    done. }
  split; apply H; by vm_compute.
Qed.

(** C5, as the specification states it, fails. *)
Lemma clean_intro_example_not_stripped_prefix :
  _clean_section_content "EV Market 2025" "Introduction" intro_example
  ≠ "growth has accelerated.".
Proof. by vm_compute. Qed.

(** ** Page reflow *)

Lemma foldl_append {A B} (f : A → list B) (acc : list B) (l : list A) :
  foldl (λ acc x, acc ++ f x) acc l = acc ++ concat (f <$> l).
Proof.
  revert acc. induction l as [|x l IH]; intros acc; simpl.
  - by rewrite app_nil_r.
  - by rewrite IH, app_assoc.
Qed.

Lemma foldl_pointwise {A B} (f g : B → A → B) (acc : B) (l : list A) :
  (∀ b x, f b x = g b x) → foldl f acc l = foldl g acc l.
Proof.
  intros H. revert acc. induction l as [|x l IH]; intros acc; simpl; [done|].
  by rewrite H, IH.
Qed.

Lemma paragraph_loop para_size doc lines :
  foldl (λ doc para_text,
           if nonempty (strip para_text)
           then doc ++ [Paragraph (strip para_text) (Some para_size)] else doc)
        doc lines
  = doc ++ ((λ t, Paragraph t (Some para_size)) <$>
              List.filter nonempty (strip <$> lines)).
Proof.
  revert doc. induction lines as [|l lines IH]; intros doc; simpl.
  - by rewrite app_nil_r.
  - rewrite IH. destruct (nonempty (strip l)); [|done].
    by rewrite <- app_assoc.
Qed.

Lemma add_section_blocks title para_size heading_size doc section :
  add_section title para_size heading_size doc section
  = doc ++ section_blocks title para_size heading_size section.
Proof.
  unfold add_section, section_blocks, paragraph_lines.
  set (text := _clean_section_content _ _ _).
  destruct (nonempty text) eqn:Et.
  - rewrite paragraph_loop. destruct (nonempty (heading section)).
    + by rewrite <- app_assoc.
    + done.
  - destruct text; [|done]. simpl.
    destruct (nonempty (heading section)); by rewrite ?app_nil_r.
Qed.

Lemma add_page_blocks title pages doc first_page page_num :
  add_page title pages (doc, first_page) page_num
  = (doc ++ (if first_page then [] else [PageBreak])
         ++ page_blocks title (default [] (pages !! page_num)), false).
Proof.
  unfold add_page, page_blocks.
  destruct (font_sizes (length (default [] (pages !! page_num)))) as [p h] eqn:E.
  f_equal. simpl.
  rewrite (foldl_pointwise _ (λ acc x, acc ++ section_blocks title p h x))
    by (intros; apply add_section_blocks).
  rewrite foldl_append. destruct first_page; simpl.
  - done.
  - by rewrite <- app_assoc.
Qed.

Lemma add_pages_later title pages doc keys :
  foldl (add_page title pages) (doc, false) keys
  = (doc ++ concat ((λ k, PageBreak :: page_blocks title (default [] (pages !! k))) <$> keys),
     false).
Proof.
  revert doc. induction keys as [|k keys IH]; intros doc; cbn [foldl].
  - simpl. by rewrite app_nil_r.
  - rewrite add_page_blocks, IH. simpl. by rewrite <- !app_assoc.
Qed.

Lemma add_pages_blocks title pages doc keys :
  (foldl (add_page title pages) (doc, true) keys).1
  = doc ++ concat (imap (λ i k, break_before i
                                  ++ page_blocks title (default [] (pages !! k))) keys).
Proof.
  destruct keys as [|k keys]; cbn [foldl].
  - simpl. by rewrite app_nil_r.
  - rewrite add_page_blocks, add_pages_later. simpl.
    rewrite <- app_assoc. do 2 f_equal.
    f_equal. rewrite <- imap_const. by apply imap_ext.
Qed.

Lemma build_docx_file_blocks project_id title pages :
  blocks (build_docx_file project_id title pages)
  = Heading title 0 None
    :: concat (imap (λ i k, break_before i
                              ++ page_blocks title (default [] (pages !! k)))
                 (sorted_keys pages)).
Proof.
  unfold build_docx_file.
  pose proof (add_pages_blocks title pages [Heading title 0 None] (sorted_keys pages)) as H.
  destruct (foldl _ _ _) as [doc fp]. simpl in *. by rewrite H.
Qed.

Lemma sorted_keys_elem pages k : k ∈ sorted_keys pages ↔ is_Some (pages !! k).
Proof.
  unfold sorted_keys. rewrite merge_sort_Permutation, elem_of_elements.
  apply elem_of_dom.
Qed.

Lemma sorted_keys_ascending pages : StronglySorted Z.lt (sorted_keys pages).
Proof.
  unfold sorted_keys.
  assert (Hs : StronglySorted Z.le (merge_sort Z.le (elements (dom pages))))
    by apply (StronglySorted_merge_sort _).
  assert (Hn : NoDup (merge_sort Z.le (elements (dom pages)))).
  { rewrite merge_sort_Permutation. apply NoDup_elements. }
  induction Hs as [|x l Hl IH Hx]; [constructor|].
  apply NoDup_cons in Hn as [Hx' Hn]. constructor; [by apply IH|].
  apply Forall_forall. intros y Hy.
  assert (x ≠ y) by (by intros ->).
  assert (x ≤ y)%Z by (by eapply Forall_forall in Hx). lia.
Qed.

Lemma section_blocks_sized title para_size heading_size section :
  Forall (sized (para_size, heading_size))
    (section_blocks title para_size heading_size section).
Proof.
  unfold section_blocks. apply Forall_app. split.
  - destruct (nonempty (heading section)); by repeat constructor.
  - apply Forall_fmap, Forall_forall. by intros t _.
Qed.

Lemma page_blocks_sized title page_sections :
  Forall (sized (font_sizes (length page_sections))) (page_blocks title page_sections).
Proof.
  unfold page_blocks. destruct (font_sizes _) as [p h]. simpl.
  apply Forall_concat, Forall_fmap, Forall_forall. intros s _.
  apply section_blocks_sized.
Qed.

Lemma font_sizes_small n : 3 ≤ n → font_sizes n = (10, 13)%Z.
Proof.
  intros H. unfold font_sizes.
  destruct (Nat.leb_spec n 1); [lia|]. destruct (Nat.eqb_spec n 2); [lia|]. done.
Qed.

(** C3: pages are emitted in ascending page-number order, exactly the pages
    after the first are preceded by a page break, and everything on a page is
    set in the sizes the number of its sections gives: 12/16 for one section,
    11/14 for two, 10/13 for three or more.  The three sections of the
    example, whatever their contents, become two pages: A and B at 11/14
    without a break, then a break and C at 12/16. *)
Theorem build_docx_file_reflow project_id title pages :
  StronglySorted Z.lt (sorted_keys pages)
  ∧ (∀ k, k ∈ sorted_keys pages ↔ is_Some (pages !! k))
  ∧ blocks (build_docx_file project_id title pages)
    = Heading title 0 None
      :: concat (imap (λ i k, break_before i
                                ++ page_blocks title (default [] (pages !! k)))
                   (sorted_keys pages))
  ∧ (∀ page_sections,
       Forall (sized (font_sizes (length page_sections)))
         (page_blocks title page_sections))
  ∧ font_sizes 1 = (12, 16)%Z
  ∧ font_sizes 2 = (11, 14)%Z
  ∧ (∀ n, font_sizes (3 + n) = (10, 13)%Z)
  ∧ (∀ a b c,
       blocks (build_docx_file project_id title
                 (pages_of (sorted_with export_order_ltb (reflow_example a b c))))
       = [Heading title 0 None]
         ++ section_blocks title 11 14 {| heading := "A"; content := a |}
         ++ section_blocks title 11 14 {| heading := "B"; content := b |}
         ++ [PageBreak]
         ++ section_blocks title 12 16 {| heading := "C"; content := c |}).
Proof.
  split; [apply sorted_keys_ascending|].
  split; [apply sorted_keys_elem|].
  split; [apply build_docx_file_blocks|].
  split; [apply page_blocks_sized|].
  split; [done|]. split; [done|].
  split; [intros n; apply font_sizes_small; lia|].
  intros a b c. rewrite build_docx_file_blocks.
  set (stored := pages_of (sorted_with export_order_ltb (reflow_example a b c))).
  assert (sorted_keys stored = [1%Z; 2%Z]) as -> by by vm_compute.
  assert (stored !! 1%Z
          = Some [ {| heading := "A"; content := a |}; {| heading := "B"; content := b |} ])
    as H1 by by vm_compute.
  assert (stored !! 2%Z = Some [ {| heading := "C"; content := c |} ])
    as H2 by by vm_compute.
  cbn [imap concat break_before app]. unfold compose. rewrite H1, H2.
  unfold page_blocks. simpl. by rewrite !app_nil_r, <- !app_assoc.
Qed.

(** ** Refinement *)

Lemma find_section_project db project section user row :
  find_section db project section user = Some row →
  ∃ p, find_project db (project_id row) = Some p ∧ project_id row = project.
Proof.
  unfold find_section, find_project. intros H.
  apply find_some in H as [_ H]. apply andb_true_iff in H as [_ H].
  apply existsb_exists in H as (p & Hp & H).
  apply andb_true_iff in H as [[H1 H2]%andb_true_iff _].
  apply Z.eqb_eq in H1, H2.
  destruct (List.find (λ p0, (proj_id p0 =? project_id row)%Z) (projects db)) eqn:E.
  - exists p0. split; [done | congruence].
  - exfalso. eapply find_none in E; [|done]. simpl in E. lia.
Qed.

Lemma find_updated {A} (P : A → bool) (upd : A → A) (l : list A) (x x' : A) :
  List.find P l = Some x → P x' = true → upd x = x' →
  (∀ r, upd r = x' ∨ upd r = r) →
  List.find P (upd <$> l) = Some x'.
Proof.
  intros Hf Hx' Hupd Hcases. induction l as [|r l IH]; [done|].
  simpl in *. destruct (P r) eqn:Hr.
  - injection Hf as ->. by rewrite Hupd, Hx'.
  - destruct (Hcases r) as [-> | ->].
    + by rewrite Hx'.
    + rewrite Hr. auto.
Qed.

(** A refinement request whose collaborator call succeeds: the reply is
    stored as it is, trimmed; what becomes of the history depends on the
    column. *)
Lemma refine_section_succeeds gemini column project section body_prompt user db n row :
  find_section db project section (user_id user) = Some row →
  responds (gemini n) →
  ∃ db',
    run_request (refine_section gemini column project section body_prompt user) db n
    = (inr (refined column row body_prompt (refined_text (gemini n))), db', S n)
    ∧ find_section db' project section (user_id user)
      = Some (refined column row body_prompt (refined_text (gemini n)))
    ∧ projects db' = projects db
    ∧ sections db'
      = (λ r, if (sec_id r =? sec_id row)%Z
              then refined column row body_prompt (refined_text (gemini n)) else r)
        <$> sections db.
Proof.
  intros Hfind Hresp.
  destruct (find_section_project _ _ _ _ _ Hfind) as (p & Hp & Hpid).
  destruct (gemini n) as [|text decoded] eqn:Hg; [done|].
  eexists. split; [|split; [|split]].
  - unfold run_request, refine_section, refine_word_section_with_gemini, reraise_as,
      generate_content, db_update_section, db_commit, get_session, put_session,
      or_raise, mbind, M_bind, mret, M_ret.
    simpl. rewrite Hfind. simpl. rewrite Hp. simpl. rewrite Hg. simpl. reflexivity.
  - unfold find_section. simpl.
    eapply find_updated; [exact Hfind| | |].
    + apply find_some in Hfind as [_ H]. exact H.
    + simpl. by rewrite Z.eqb_refl.
    + intros r. simpl. destruct (sec_id r =? sec_id row)%Z; auto.
  - done.
  - done.
Qed.

(** A refinement request whose collaborator call fails changes nothing. *)
Lemma refine_section_fails gemini column project section body_prompt user db n row :
  find_section db project section (user_id user) = Some row →
  gemini n = Fails →
  run_request (refine_section gemini column project section body_prompt user) db n
  = (inl (RuntimeError "Gemini Word refinement failed"), db, S n).
Proof.
  intros Hfind Hg.
  destruct (find_section_project _ _ _ _ _ Hfind) as (p & Hp & Hpid).
  unfold run_request, refine_section, refine_word_section_with_gemini, reraise_as,
    generate_content, db_update_section, db_commit, get_session, put_session,
    or_raise, mbind, M_bind, mret, M_ret.
  simpl. rewrite Hfind. simpl. rewrite Hp. simpl. by rewrite Hg.
Qed.

(** The history of the stored row, by column. *)
Lemma refined_history column row body_prompt new_content :
  history row ≠ [] →
  history (refined column row body_prompt new_content)
  = match column with
    | MutableJson => history row ++ [refinement_entry row body_prompt new_content]
    | PlainJson => history row
    end.
Proof. intros Hne. destruct column; simpl; [|done]. by destruct (history row). Qed.




(** ** Export *)

Lemma insert_sorted_Permutation {A} (ltb : A → A → bool) x l :
  insert_sorted ltb x l ≡ₚ x :: l.
Proof.
  induction l as [|y l IH]; simpl; [done|].
  destruct (ltb x y); [done|]. rewrite IH. apply Permutation_swap.
Qed.

Lemma sorted_with_Permutation {A} (ltb : A → A → bool) l : sorted_with ltb l ≡ₚ l.
Proof.
  unfold sorted_with.
  cut (∀ acc, foldl (λ acc x, insert_sorted ltb x acc) acc l ≡ₚ acc ++ l).
  { intros H. apply (H []). }
  induction l as [|x l IH]; intros acc; simpl.
  - by rewrite app_nil_r.
  - rewrite IH, insert_sorted_Permutation. simpl. apply Permutation_middle.
Qed.

Lemma pages_of_step_lookup (pages : gmap Z (list SectionDict)) s k :
  default [] (<[export_page s := default [] (pages !! export_page s) ++ [export_entry s]]>
                pages !! k)
  = default [] (pages !! k) ++ (if bool_decide (export_page s = k) then [export_entry s] else []).
Proof.
  case_bool_decide as H.
  - subst k. by rewrite lookup_insert_eq.
  - rewrite lookup_insert_ne by done. by rewrite app_nil_r.
Qed.

(** What a page holds: the entries of the sections exported on it, in
    order. *)
Lemma pages_of_lookup rows k :
  default [] (pages_of rows !! k)
  = export_entry <$> List.filter (λ s, bool_decide (export_page s = k)) rows.
Proof.
  unfold pages_of.
  cut (∀ acc : gmap Z (list SectionDict),
         default [] (foldl (λ pages s,
                      <[export_page s := default [] (pages !! export_page s)
                                         ++ [export_entry s]]> pages) acc rows !! k)
         = default [] (acc !! k)
           ++ (export_entry <$> List.filter (λ s, bool_decide (export_page s = k)) rows)).
  { intros H. specialize (H ∅). rewrite lookup_empty in H. exact H. }
  induction rows as [|s rows IH]; intros acc; simpl.
  - by rewrite app_nil_r.
  - rewrite IH, pages_of_step_lookup. rewrite <- app_assoc. f_equal.
    by case_bool_decide.
Qed.

Lemma pages_of_dom rows k : is_Some (pages_of rows !! k) ↔ ∃ s, s ∈ rows ∧ export_page s = k.
Proof.
  unfold pages_of.
  cut (∀ acc : gmap Z (list SectionDict),
         is_Some (foldl (λ pages s,
                    <[export_page s := default [] (pages !! export_page s)
                                       ++ [export_entry s]]> pages) acc rows !! k)
         ↔ is_Some (acc !! k) ∨ ∃ s, s ∈ rows ∧ export_page s = k).
  { intros H. rewrite (H ∅). rewrite lookup_empty. split; [|by right].
    intros [[? [=]]|?]; done. }
  induction rows as [|s rows IH]; intros acc; simpl.
  - split; [by left|]. intros [?|(s & Hs & _)]; [done|]. by apply not_elem_of_nil in Hs.
  - rewrite IH. rewrite lookup_insert_is_Some. split.
    + intros [[?|[? ?]]|(s' & Hs' & ?)].
      * right. exists s. split; [left|done].
      * by left.
      * right. exists s'. split; [by right|done].
    + intros [?|(s' & [->|Hs']%elem_of_cons & ?)].
      * destruct (decide (export_page s = k)); [by left; left|]. left. by right.
      * by left; left.
      * right. by exists s'.
Qed.

Lemma export_docx_run project db n row :
  find_project db project = Some row → proj_doc_type row = DOCX →
  run_request (export_docx project) db n
  = (inr (build_docx_file (proj_id row) (proj_title row) (export_pages db (proj_id row))),
     db, n).
Proof.
  intros Hp Ht.
  unfold run_request, export_docx, get_session, or_raise, mbind, M_bind, mret, M_ret.
  simpl. rewrite Hp. simpl. by rewrite Ht.
Qed.

Lemma find_project_id db project row : find_project db project = Some row → proj_id row = project.
Proof. intros [_ H]%find_some. by apply Z.eqb_eq in H. Qed.

(** Every stored section of the project is on one of the exported pages. *)
Lemma export_pages_cover db project s :
  s ∈ sections db → project_id s = project →
  export_page s ∈ sorted_keys (export_pages db project)
  ∧ export_entry s ∈ default [] (export_pages db project !! export_page s).
Proof.
  intros Hs Hpid. unfold export_pages.
  assert (Hin : s ∈ sorted_with export_order_ltb
                      (List.filter (λ s, (project_id s =? project)%Z) (sections db))).
  { rewrite sorted_with_Permutation. apply list_elem_of_In, filter_In.
    split; [by apply list_elem_of_In | by apply Z.eqb_eq]. }
  split.
  - apply sorted_keys_elem, pages_of_dom. by exists s.
  - rewrite pages_of_lookup. apply list_elem_of_fmap. exists s. split; [done|].
    apply list_elem_of_In, filter_In. split; [by apply list_elem_of_In|].
    by apply bool_decide_eq_true.
Qed.

(** The first paragraph of a sanitized body is a normal line. *)
Lemma paragraph_lines_head doc_title heading raw l :
  head (paragraph_lines (_clean_section_content doc_title heading raw)) = Some l →
  l ≠ [] ∧ is_meta_line (lower (strip doc_title)) (lower (strip heading)) l = false.
Proof.
  destruct (clean_section_content_tidy doc_title heading raw) as [ls [Ht ->]].
  unfold paragraph_lines. destruct ls as [|x ls]; [done|].
  destruct (tidy_second_pass _ _ _ Ht) as [_ ->]; [done|].
  destruct Ht as (_ & Hh & _). destruct (Hh x eq_refl) as [Hne Hm].
  simpl. destruct x; [done|]. simpl. by intros [= <-].
Qed.

(** C9: a refinement stores the collaborator's reply as it is (trimmed, not
    sanitized), and the next export runs the sanitizer over the stored
    content of every section of the project, the refined one included: each
    section is on one of the exported pages, what it contributes is its
    heading and the non-blank lines of its sanitized content, and the first
    of these lines is never a title, heading or label line. *)
Theorem export_sanitizes_refined gemini column project section user body_prompt db n row
    proj :
  find_section db project section (user_id user) = Some row →
  find_project db project = Some proj →
  proj_doc_type proj = DOCX →
  responds (gemini n) →
  ∃ row' db' file,
    run_request (refine_section gemini column project section body_prompt user) db n
    = (inr row', db', S n)
    ∧ sec_content row' = refined_text (gemini n)
    ∧ row' ∈ sections db'
    ∧ project_id row' = project
    ∧ run_request (export_docx project) db' (S n) = (inr file, db', S n)
    ∧ blocks file
      = Heading (proj_title proj) 0 None
        :: concat (imap (λ i k, break_before i
                                  ++ page_blocks (proj_title proj)
                                       (default [] (export_pages db' project !! k)))
                     (sorted_keys (export_pages db' project)))
    ∧ (∀ s, s ∈ sections db' → project_id s = project →
         export_page s ∈ sorted_keys (export_pages db' project)
         ∧ export_entry s ∈ default [] (export_pages db' project !! export_page s))
    ∧ (∀ s para_size heading_size,
         section_blocks (proj_title proj) para_size heading_size (export_entry s)
         = (if nonempty (sec_title s)
            then [Heading (sec_title s) 1 (Some heading_size)] else [])
           ++ ((λ t, Paragraph t (Some para_size)) <$>
                 paragraph_lines
                   (_clean_section_content (proj_title proj) (sec_title s) (sec_content s))))
    ∧ (∀ s l,
         head (paragraph_lines
                 (_clean_section_content (proj_title proj) (sec_title s) (sec_content s)))
         = Some l →
         l ≠ []
         ∧ is_meta_line (lower (strip (proj_title proj))) (lower (strip (sec_title s))) l
           = false).
Proof.
  intros Hfind Hproj Hdocx Hresp.
  destruct (refine_section_succeeds gemini column project section body_prompt user db n row
              Hfind Hresp) as (db' & Hrun & Hfind' & Hprojects & _).
  destruct (find_section_project _ _ _ _ _ Hfind) as (_ & _ & Hpid).
  pose proof (find_project_id _ _ _ Hproj) as Hid.
  assert (Hproj' : find_project db' project = Some proj).
  { unfold find_project in *. by rewrite Hprojects. }
  eexists _, db', _. split; [exact Hrun|].
  split; [done|].
  split; [apply find_some in Hfind' as [H _]; by apply list_elem_of_In|].
  split; [done|].
  split; [rewrite (export_docx_run project db' (S n) proj Hproj' Hdocx); by rewrite Hid|].
  split; [apply build_docx_file_blocks|].
  split; [intros s; apply export_pages_cover|].
  split; [done|].
  intros s l. apply paragraph_lines_head.
Qed.

Lemma export_sanitizes_refined_witness :
  find_section example_db 1 1 (user_id example_user) = Some example_row
  ∧ find_project example_db 1 = Some example_project
  ∧ ∃ row' db' file,
      run_request (refine_section example_gemini PlainJson 1 1 "Restate the heading"
                     example_user)
        example_db 0
      = (inr row', db', 1)
      ∧ sec_content row' = "Introduction: sales grew.
Growth continues."
      ∧ run_request (export_docx 1) db' 1 = (inr file, db', 1)
      ∧ blocks file
        = [Heading "EV Market 2025" 0 None; Heading "Introduction" 1 (Some 16%Z);
           Paragraph "Growth continues." (Some 12%Z)].
Proof.
  split; [reflexivity|]. split; [reflexivity|].
  destruct (export_sanitizes_refined example_gemini PlainJson 1 1 example_user
              "Restate the heading"
              example_db 0 example_row example_project)
    as (row' & db' & file & Hrun & Hcontent & _ & _ & Hexport & _).
  - reflexivity.
  - reflexivity.
  - reflexivity.
  - exact I.
  - exists row', db', file.
    assert (Hrow : row' = refined PlainJson example_row "Restate the heading"
                            (refined_text (example_gemini 0))
                   ∧ db' = {| projects := [example_project];
                              sections := [refined PlainJson example_row "Restate the heading"
                                             (refined_text (example_gemini 0))] |}).
    { vm_compute in Hrun. by injection Hrun as <- <-. }
    destruct Hrow as [-> ->].
    split; [exact Hrun|]. split; [by vm_compute|]. split; [exact Hexport|].
    vm_compute in Hexport. injection Hexport as <-. by vm_compute.
Defined.

(** ** Slide normalization *)

Lemma dict_get_set_eq d k v : dict_get (dict_set d k v) k = Some v.
Proof.
  induction d as [|[k' v'] d IH]; simpl.
  - by rewrite bool_decide_eq_true_2.
  - case_bool_decide; simpl.
    + by rewrite bool_decide_eq_true_2.
    + by rewrite bool_decide_eq_false_2.
Qed.

Lemma dict_get_set_ne d k k' v : k ≠ k' → dict_get (dict_set d k v) k' = dict_get d k'.
Proof.
  intros Hne. induction d as [|[k0 v0] d IH]; simpl.
  - by rewrite bool_decide_eq_false_2.
  - case_bool_decide; simpl.
    + subst k0. by rewrite !bool_decide_eq_false_2.
    + case_bool_decide; [done | apply IH].
Qed.

(** What one element of the response contributes: nothing or one slide. *)
Lemma normalize_slide_app acc slide :
  normalize_slide acc slide = acc ++ normalize_slide [] slide.
Proof.
  unfold normalize_slide. destruct slide; try by rewrite app_nil_r.
  repeat (match goal with
          | |- context [if ?b then _ else _] => destruct b
          | |- context [match ?x with JNull => _ | _ => _ end] => destruct x
          end; try by rewrite ?app_nil_r).
Qed.

Lemma normalize_slides_loop acc data :
  foldl normalize_slide acc data = acc ++ concat (normalize_slide [] <$> data).
Proof.
  rewrite <- foldl_append. apply foldl_pointwise. intros. apply normalize_slide_app.
Qed.

Lemma normalize_slide_layout slide s : s ∈ normalize_slide [] slide → has_layout s.
Proof.
  unfold normalize_slide, has_layout. destruct slide; try by intros ?%not_elem_of_nil.
  repeat (match goal with
          | |- context [if ?b then _ else _] => destruct b
          | |- context [match ?x with JNull => _ | _ => _ end] => destruct x
          end; try by intros ?%not_elem_of_nil);
    intros ->%list_elem_of_singleton; simpl;
    first [ by exists SlideLayout.title | by exists SlideLayout.bullet
          | by exists SlideLayout.two_column | by exists SlideLayout.image ].
Qed.

Lemma placeholder_slide_layout i : has_layout (placeholder_slide i).
Proof. by exists SlideLayout.title. Qed.

Lemma ensure_count_length num_slides l :
  (0 ≤ num_slides)%Z → length (ensure_count num_slides l) = Z.to_nat num_slides.
Proof.
  intros H. unfold ensure_count, py_slice_to.
  destruct (Z.ltb_spec (Z.of_nat (length l)) num_slides).
  - rewrite length_app, length_fmap, length_seqZ. lia.
  - destruct (Z.ltb_spec num_slides (Z.of_nat (length l))).
    + destruct (Z.leb_spec 0 num_slides); [|lia]. rewrite length_take. lia.
    + lia.
Qed.

Lemma ensure_count_kept num_slides l i :
  (Z.of_nat i < num_slides)%Z → i < length l → ensure_count num_slides l !! i = l !! i.
Proof.
  intros Hi Hl. unfold ensure_count, py_slice_to.
  destruct (Z.ltb_spec (Z.of_nat (length l)) num_slides).
  - by apply lookup_app_l.
  - destruct (Z.ltb_spec num_slides (Z.of_nat (length l))); [|done].
    destruct (Z.leb_spec 0 num_slides); [|lia]. apply lookup_take_lt. lia.
Qed.

Lemma ensure_count_padded num_slides l i :
  (Z.of_nat i < num_slides)%Z → length l ≤ i →
  ensure_count num_slides l !! i = Some (placeholder_slide (Z.of_nat i)).
Proof.
  intros Hi Hl. unfold ensure_count.
  destruct (Z.ltb_spec (Z.of_nat (length l)) num_slides); [|lia].
  rewrite lookup_app_r by done. rewrite list_lookup_fmap.
  rewrite (lookup_seqZ_lt _ _ (i - length l)) by lia. simpl. f_equal. f_equal. lia.
Qed.

Lemma ensure_count_layout num_slides l :
  Forall has_layout l → Forall has_layout (ensure_count num_slides l).
Proof.
  intros Hl. unfold ensure_count, py_slice_to.
  repeat match goal with |- context [if ?b then _ else _] => destruct b end;
    try done; try by apply Forall_take.
  apply Forall_app. split; [done|]. apply Forall_fmap, Forall_forall.
  intros i _. apply placeholder_slide_layout.
Qed.

Lemma ensure_image_fields_raises topic idx s :
  ensure_image_fields topic idx s = None ↔ caption_repair_raises s = true.
Proof.
  unfold ensure_image_fields, caption_repair_raises, is_image_slide, caption_missing.
  simpl SlideLayout.value. rewrite orb_diag.
  destruct (eq_str (dict_get_or s "layout" JNull) "image"); [|done]. simpl.
  destruct (negb (py_truthy (dict_get_or s "caption" JNull))
            || negb (is_str (dict_get_or s "caption" JNull))); [|done]. simpl.
  by destruct (py_take 120 _).
Qed.

Lemma ensure_image_fields_layout topic idx s s' :
  ensure_image_fields topic idx s = Some s' → dict_get s' "layout" = dict_get s "layout".
Proof.
  unfold ensure_image_fields. destruct (_ || _); [|by intros [= <-]].
  destruct (_ || _).
  - destruct (py_take 120 _); [|done]. simpl. intros [= <-].
    by rewrite !dict_get_set_ne.
  - simpl. intros [= <-]. by rewrite dict_get_set_ne.
Qed.

Lemma for_enumerate_Some f idx l l' :
  for_enumerate f idx l = Some l' →
  length l' = length l ∧ ∀ i s, l !! i = Some s → ∃ s', l' !! i = Some s' ∧ f (idx + i) s = Some s'.
Proof.
  revert idx l'. induction l as [|x l IH]; intros idx l'; simpl.
  - intros [= <-]. by split.
  - destruct (f idx x) as [x'|] eqn:Ex; [|done]. simpl.
    destruct (for_enumerate f (S idx) l) as [r|] eqn:Er; [|done]. simpl.
    intros [= <-]. destruct (IH _ _ Er) as [Hlen Hl]. split; [simpl; lia|].
    intros [|i] s; simpl.
    + intros [= <-]. exists x'. by rewrite Nat.add_0_r.
    + intros Hs. destruct (Hl i s Hs) as (s' & ? & ?). exists s'.
      by replace (idx + S i) with (S idx + i) by lia.
Qed.

Lemma for_enumerate_None f idx l :
  for_enumerate f idx l = None ↔ ∃ i s, l !! i = Some s ∧ f (idx + i) s = None.
Proof.
  revert idx. induction l as [|x l IH]; intros idx; simpl.
  - split; [done|]. by intros (i & s & ? & _).
  - destruct (f idx x) as [x'|] eqn:Ex; simpl.
    + destruct (for_enumerate f (S idx) l) as [r|] eqn:Er; simpl.
      * split; [done|]. intros ([|i] & s & Hs & Hf); simpl in Hs.
        -- injection Hs as <-. rewrite Nat.add_0_r in Hf. congruence.
        -- assert (for_enumerate f (S idx) l = None); [|congruence].
           apply IH. exists i, s. by replace (S idx + i) with (idx + S i) by lia.
      * split; [|done]. intros _. apply IH in Er as (i & s & ? & ?).
        exists (S i), s. by replace (idx + S i) with (S idx + i) by lia.
    + split; [|done]. intros _. exists 0, x. by rewrite Nat.add_0_r.
Qed.

(** When no caption repair raises, the deck has exactly the requested
    number of slides, every one under one of the four layouts; the slides
    that survived the mapping come first, in their order, and the rest are
    the placeholders "Slide i". *)
Lemma normalize_slides_exact_count topic num_slides data :
  (1 ≤ num_slides)%Z →
  Forall (λ s, caption_repair_raises s = false)
    (ensure_count num_slides (foldl normalize_slide [] data)) →
  ∃ slides,
    normalize_slides topic num_slides (JArr data) = Some slides
    ∧ length slides = Z.to_nat num_slides
    ∧ Forall has_layout slides
    ∧ (∀ i s, foldl normalize_slide [] data !! i = Some s → (Z.of_nat i < num_slides)%Z →
         ∃ s', slides !! i = Some s' ∧ ensure_image_fields topic i s = Some s')
    ∧ (∀ i, length (foldl normalize_slide [] data) ≤ i → (Z.of_nat i < num_slides)%Z →
         slides !! i = Some (placeholder_slide (Z.of_nat i))).
Proof.
  intros HN Hok. unfold normalize_slides.
  set (kept := foldl normalize_slide [] data) in *.
  assert (Hkept : Forall has_layout kept).
  { subst kept. rewrite normalize_slides_loop. simpl. apply Forall_concat, Forall_fmap.
    apply Forall_forall. intros x _. apply Forall_forall. apply normalize_slide_layout. }
  destruct (for_enumerate (ensure_image_fields topic) 0 (ensure_count num_slides kept))
    as [slides|] eqn:E.
  - exists slides. destruct (for_enumerate_Some _ _ _ _ E) as [Hlen Hl].
    split; [done|]. split; [by rewrite Hlen, ensure_count_length by lia|].
    split; [|split].
    + apply Forall_forall. intros s' [i Hi]%list_elem_of_lookup.
      destruct (lookup_lt_is_Some_2 (ensure_count num_slides kept) i) as [s Hs].
      { rewrite <- Hlen. by eapply lookup_lt_Some. }
      destruct (Hl i s Hs) as (s'' & Hs'' & Hf). simplify_eq.
      pose proof (ensure_count_layout num_slides kept Hkept) as Hall.
      eapply Forall_forall in Hall; [|by eapply list_elem_of_lookup_2].
      destruct Hall as [l Hlay]. exists l.
      by rewrite (ensure_image_fields_layout _ _ _ _ Hf).
    + intros i s Hs Hi. apply Hl. rewrite ensure_count_kept; [done..|].
      by eapply lookup_lt_Some.
    + intros i Hlen' Hi.
      destruct (Hl i (placeholder_slide (Z.of_nat i))) as (s' & -> & Hf).
      { by apply ensure_count_padded. }
      simpl in Hf. by injection Hf as <-.
  - exfalso. apply for_enumerate_None in E as (i & s & Hs & Hf).
    apply ensure_image_fields_raises in Hf.
    eapply Forall_forall in Hok; [|by eapply list_elem_of_lookup_2]. congruence.
Qed.

Lemma generate_content_with_gemini_run gemini topic num_slides db n text data :
  gemini n = Responds text (Some data) →
  run_request (generate_content_with_gemini gemini topic num_slides) db n
  = (match normalize_slides topic num_slides data with
     | Some slides => inr slides
     | None => inl (RuntimeError "Gemini content generation failed")
     end, db, S n).
Proof.
  intros Hg.
  unfold run_request, generate_content_with_gemini, reraise_as, generate_content,
    or_raise, mbind, M_bind, mret, M_ret, raise.
  simpl. rewrite Hg. simpl. by destruct (normalize_slides topic num_slides data).
Qed.

(** The cardinality repairs of the specification: five slides requested and
    three returned, five requested and seven returned. *)
Example cardinality_repair_pads :
  slide_titles (normalize_slides "Topic" 5 (title_deck 3))
  = Some [Some (JStr "T1"); Some (JStr "T2"); Some (JStr "T3");
          Some (JStr "Slide 4"); Some (JStr "Slide 5")].
Proof. reflexivity. Qed.

Example cardinality_repair_truncates :
  slide_titles (normalize_slides "Topic" 5 (title_deck 7))
  = Some [Some (JStr "T1"); Some (JStr "T2"); Some (JStr "T3");
          Some (JStr "T4"); Some (JStr "T5")].
Proof. reflexivity. Qed.

(** C1 at the failing input: the response is a one-element array, an image
    slide titled with the number 2024 and without a caption; the repair of
    the caption slices the number, and instead of one slide the request for
    one slide ends in the generation error. *)
Theorem numeric_title_generation_fails :
  run_request (generate_content_with_gemini (replying numeric_title_deck) "AI" 1)
    empty_db 0
  = (inl (RuntimeError "Gemini content generation failed"), empty_db, 1).
Proof. by vm_compute. Qed.

Lemma str_of_Z_head n :
  (0 ≤ n)%Z → ∃ c rest, str_of_Z n = c :: rest ∧ is_digit c = true.
Proof.
  intros Hn. unfold str_of_Z. destruct n as [|p|p]; [by eexists _, _| |lia].
  simpl. destruct (Pos.to_uint p); by eexists _, _.
Qed.

(** The seed is never empty, so the alternative ["slide_<idx>"] is never
    used. *)
Lemma image_seed_filter topic idx :
  image_seed topic idx
  = List.filter is_alnum (topic ++ "_" ++ str_of_Z (Z.of_nat idx)).
Proof.
  unfold image_seed.
  destruct (str_of_Z_head (Z.of_nat idx)) as (c & rest & -> & Hc); [lia|].
  rewrite !List.filter_app. simpl List.filter at 3.
  unfold is_alnum at 3. rewrite Hc, orb_true_r.
  destruct (List.filter is_alnum topic); [|done].
  by destruct (List.filter is_alnum "_").
Qed.

Lemma ensure_image_fields_image topic idx s0 s :
  is_image_slide s0 = true →
  ensure_image_fields topic idx s0 = Some s →
  dict_get s "image_url" = Some (JStr (image_url topic idx))
  ∧ ∃ c, dict_get s "caption" = Some c
         ∧ if caption_missing s0
           then py_take 120 (py_or (dict_get_or s0 "title" (JStr "")) (JStr "")) = Some c
           else dict_get s0 "caption" = Some c ∧ is_str c = true ∧ py_truthy c = true.
Proof.
  unfold is_image_slide, ensure_image_fields, caption_missing. simpl SlideLayout.value.
  intros ->. simpl.
  destruct (negb (py_truthy (dict_get_or s0 "caption" JNull))
            || negb (is_str (dict_get_or s0 "caption" JNull))) eqn:Em.
  - destruct (py_take 120 _) as [c|]; [|done]. simpl. intros [= <-].
    split; [apply dict_get_set_eq|]. exists c.
    by rewrite dict_get_set_ne, dict_get_set_eq.
  - simpl. intros [= <-]. split; [apply dict_get_set_eq|].
    apply orb_false_iff in Em as [Ht Hs]. apply negb_false_iff in Ht, Hs.
    unfold dict_get_or in *. rewrite dict_get_set_ne by done.
    destruct (dict_get s0 "caption") as [c|]; [|done]. by exists c.
Qed.

(** C8, as the code has it: in a normalized deck the image slide at
    (0-based) index [i] refers to the placeholder whose seed is the text
    "<topic>_<i>" without its non-alphanumeric characters, a function of the
    topic and the index alone; and its caption is the caption it had when
    that was a non-empty string, and otherwise the first 120 characters of
    its title, which may be empty. *)
Theorem image_slide_seed_and_caption topic num_slides data slides i s :
  normalize_slides topic num_slides (JArr data) = Some slides →
  slides !! i = Some s →
  is_image_slide s = true →
  dict_get s "image_url"
  = Some (JStr ("https://picsum.photos/seed/"
                ++ List.filter is_alnum (topic ++ "_" ++ str_of_Z (Z.of_nat i))
                ++ "/1200/800"))
  ∧ ∃ s0 c,
      ensure_count num_slides (foldl normalize_slide [] data) !! i = Some s0
      ∧ dict_get s "caption" = Some c
      ∧ if caption_missing s0
        then py_take 120 (py_or (dict_get_or s0 "title" (JStr "")) (JStr "")) = Some c
        else dict_get s0 "caption" = Some c ∧ is_str c = true ∧ py_truthy c = true.
Proof.
  unfold normalize_slides. intros Hrun Hs Himg.
  destruct (for_enumerate_Some _ _ _ _ Hrun) as [Hlen Hl].
  destruct (lookup_lt_is_Some_2 (ensure_count num_slides (foldl normalize_slide [] data)) i)
    as [s0 Hs0].
  { rewrite <- Hlen. by eapply lookup_lt_Some. }
  destruct (Hl i s0 Hs0) as (s' & Hs' & Hf). simplify_eq. simpl in Hf.
  assert (Himg0 : is_image_slide s0 = true).
  { unfold is_image_slide, dict_get_or in *.
    by rewrite <- (ensure_image_fields_layout _ _ _ _ Hf). }
  destruct (ensure_image_fields_image topic i s0 s Himg0 Hf) as [Hurl (c & Hc & Hcap)].
  split.
  - rewrite Hurl. unfold image_url. by rewrite image_seed_filter.
  - by exists s0, c.
Qed.

Lemma image_slide_seed_and_caption_witness :
  normalize_slides "AI trends!" 2 untitled_image_deck
  = Some [[("layout", JStr "image"); ("title", JStr ""); ("caption", JStr "");
           ("image_url", JStr "https://picsum.photos/seed/AItrends0/1200/800")];
          [("layout", JStr "title"); ("title", JStr "Slide 2")]]
  ∧ dict_get [("layout", JStr "image"); ("title", JStr ""); ("caption", JStr "");
              ("image_url", JStr "https://picsum.photos/seed/AItrends0/1200/800")]
      "image_url"
    = Some (JStr ("https://picsum.photos/seed/"
                  ++ List.filter is_alnum ("AI trends!" ++ "_" ++ str_of_Z 0)
                  ++ "/1200/800")).
Proof.
  split; [reflexivity|].
  apply (image_slide_seed_and_caption "AI trends!" 2
           [JObj [("layout", JStr "image")]]
           [[("layout", JStr "image"); ("title", JStr ""); ("caption", JStr "");
             ("image_url", JStr "https://picsum.photos/seed/AItrends0/1200/800")];
            [("layout", JStr "title"); ("title", JStr "Slide 2")]]
           0
           [("layout", JStr "image"); ("title", JStr ""); ("caption", JStr "");
            ("image_url", JStr "https://picsum.photos/seed/AItrends0/1200/800")]).
  - reflexivity.
  - reflexivity.
  - reflexivity.
Defined.

(** C8, as the specification states it, fails: an image slide without title
    and caption ends up with the empty caption. *)
Lemma untitled_image_caption_empty :
  ∃ s, normalize_slides "AI" 1 untitled_image_deck = Some [s]
       ∧ is_image_slide s = true
       ∧ dict_get s "caption" = Some (JStr "").
Proof. eexists. by vm_compute. Qed.

(** C10: an element with a "layout" key whose value is none of the four tags
    adds nothing to the deck, whatever else it carries; the slides mapped
    from the response are those of the response without it. *)
Theorem unknown_layout_dropped normalized_slides fields layout :
  dict_get fields "layout" = Some layout →
  (∀ l, layout ≠ JStr (SlideLayout.value l)) →
  normalize_slide normalized_slides (JObj fields) = normalized_slides
  ∧ ∀ before after,
      foldl normalize_slide [] (before ++ JObj fields :: after)
      = foldl normalize_slide [] (before ++ after).
Proof.
  intros Hget Hne.
  assert (Hnone : ∀ l, eq_str layout (SlideLayout.value l) = false).
  { intros l. destruct layout; try done. simpl. apply bool_decide_eq_false.
    intros ->. by apply (Hne l). }
  assert (Hdrop : ∀ acc, normalize_slide acc (JObj fields) = acc).
  { intros acc. unfold normalize_slide, dict_has, dict_get_or. rewrite Hget. simpl.
    pose proof (Hnone SlideLayout.title) as H1. pose proof (Hnone SlideLayout.bullet) as H2.
    pose proof (Hnone SlideLayout.two_column) as H3.
    pose proof (Hnone SlideLayout.image) as H4. simpl in H1, H2, H3, H4.
    by rewrite H1, H2, H3, H4. }
  split; [apply Hdrop|]. intros before after.
  by rewrite !foldl_app; cbn [foldl]; rewrite Hdrop.
Qed.

Lemma unknown_layout_dropped_witness :
  dict_get chart_element "layout" = Some (JStr "chart")
  ∧ normalize_slide [] (JObj chart_element) = []
  ∧ ∀ before after,
      foldl normalize_slide [] (before ++ JObj chart_element :: after)
      = foldl normalize_slide [] (before ++ after).
Proof.
  split; [reflexivity|].
  apply (unknown_layout_dropped [] chart_element (JStr "chart")).
  - reflexivity.
  - intros l. by destruct l.
Defined.

(** ** Document creation *)

Lemma bind_inr {A B} (m : M A) (k : A → M B) w a w' :
  m w = (inr a, w') → (m ≫= k) w = k a w'.
Proof. unfold mbind, M_bind. by intros ->. Qed.

Lemma bind_inl {A B} (m : M A) (k : A → M B) w e w' :
  m w = (inl e, w') → (m ≫= k) w = (inl e, w').
Proof. unfold mbind, M_bind. by intros ->. Qed.

Lemma for_each_cons {A S : Type} (f : S → A → M S) s x l w :
  for_each f s (x :: l) w
  = match f s x w with
    | (inr s', w') => for_each f s' l w'
    | (inl e, w') => (inl e, w')
    end.
Proof. done. Qed.

Lemma for_each_app {A S : Type} (f : S → A → M S) s l1 l2 w :
  for_each f s (l1 ++ l2) w
  = match for_each f s l1 w with
    | (inr s', w') => for_each f s' l2 w'
    | (inl e, w') => (inl e, w')
    end.
Proof.
  revert s w. induction l1 as [|x l1 IH]; intros s w; [done|].
  rewrite <- app_comm_cons, !for_each_cons. destruct (f s x w) as [[e|s'] w']; [done|].
  apply IH.
Qed.

Lemma for_each_pointwise {A S : Type} (f g : S → A → M S) s l w :
  (∀ s x w, f s x w = g s x w) → for_each f s l w = for_each g s l w.
Proof.
  intros H. revert s w. induction l as [|x l IH]; intros s w; [done|].
  rewrite !for_each_cons, H. destruct (g s x w) as [[e|s'] w']; [done|]. apply IH.
Qed.

Lemma for_each_fmap {A B S : Type} (f : S → B → M S) (g : A → B) s l w :
  for_each f s (g <$> l) w = for_each (λ s x, f s (g x)) s l w.
Proof.
  revert s w. induction l as [|x l IH]; intros s w; [done|].
  rewrite fmap_cons, !for_each_cons. destruct (f s (g x) w) as [[e|s'] w']; [done|].
  apply IH.
Qed.

Lemma for_each_concat {A S : Type} (f : S → A → M S) s ls w :
  for_each f s (concat ls) w = for_each (λ s l, for_each f s l) s ls w.
Proof.
  revert s w. induction ls as [|l ls IH]; intros s w; [done|].
  simpl concat. rewrite for_each_app, for_each_cons.
  destruct (for_each f s l w) as [[e|s'] w']; [done|]. apply IH.
Qed.

Lemma generated_content_text m title :
  text_values m →
  py_or (default (JStr "") (m !! title)) (JStr "") = JStr (generated_content m title).
Proof.
  intros Hm. unfold generated_content.
  destruct (m !! title) as [v|] eqn:E; simpl; [|done].
  destruct (Hm _ _ E) as [c ->]. unfold py_or. simpl. by destruct (nonempty c).
Qed.

Lemma initial_content_run gemini topic m title w :
  text_values m →
  initial_content gemini topic m title w
  = if needs_fallback m title then
      match gemini (calls w) with
      | Responds text _ => (inr (strip text), bump w)
      | Fails => (inl (RuntimeError "Gemini Word refinement failed"), bump w)
      end
    else (inr (generated_content m title), w).
Proof.
  intros Hm. unfold initial_content, needs_fallback.
  rewrite (generated_content_text m title Hm).
  destruct (negb (nonempty (strip (generated_content m title)))); [|done].
  unfold refine_word_section_with_gemini, reraise_as, generate_content,
    mbind, M_bind, mret, M_ret, bump.
  by destruct (gemini (calls w)).
Qed.

Lemma creation_step_run {St X : Type} gemini topic m project
    (title_of : X → str) (order_of : St → X → Z) page_of index_of (next : St → X → St) s x w :
  text_values m →
  creation_step gemini topic m project title_of order_of page_of index_of next s x w
  = if needs_fallback m (title_of x) then
      match gemini (calls w) with
      | Responds text _ =>
          (inr (next s x),
           with_rows w [new_row (session w) project (title_of x) (order_of s x)
                          (page_of x) (index_of x) (strip text)] (S (calls w)))
      | Fails => (inl (RuntimeError "Gemini Word refinement failed"), bump w)
      end
    else (inr (next s x),
          with_rows w [new_row (session w) project (title_of x) (order_of s x)
                         (page_of x) (index_of x) (generated_content m (title_of x))]
            (calls w)).
Proof.
  intros Hm. unfold creation_step.
  pose proof (initial_content_run gemini topic m (title_of x) w Hm) as Hrun.
  destruct (needs_fallback m (title_of x)).
  - destruct (gemini (calls w)) as [|text d].
    + by rewrite (bind_inl _ _ _ _ _ Hrun).
    + by rewrite (bind_inr _ _ _ _ _ Hrun).
  - by rewrite (bind_inr _ _ _ _ _ Hrun).
Qed.

Lemma with_rows_with_rows w rows1 n1 rows2 n2 :
  with_rows (with_rows w rows1 n1) rows2 n2 = with_rows w (rows1 ++ rows2) n2.
Proof. unfold with_rows. simpl. by rewrite <- app_assoc. Qed.

Lemma misses_cons m t ts :
  misses m (t :: ts) = (if needs_fallback m t then 1 else 0) + misses m ts.
Proof. unfold misses. simpl. by destruct (needs_fallback m t). Qed.

(** The creation loop when every fallback call it needs is answered. *)
Lemma creation_loop_succeeds {St X : Type} gemini topic m project
    (title_of : X → str) (order_of : St → X → Z) page_of index_of (next : St → X → St) xs s w :
  text_values m →
  (∀ i, i < misses m (title_of <$> xs) → responds (gemini (calls w + i))) →
  ∃ s' rows,
    for_each (creation_step gemini topic m project title_of order_of page_of index_of next)
      s xs w
    = (inr s', with_rows w rows (calls w + misses m (title_of <$> xs)))
    ∧ length rows = length xs
    ∧ ∀ i x, xs !! i = Some x →
        ∃ r, rows !! i = Some r
             ∧ created_row gemini m (calls w) (title_of <$> xs) project title_of
                 page_of index_of i x r.
Proof.
  intros Hm. revert s w. induction xs as [|x xs IH]; intros s w Hresp.
  - exists s, []. split; [|by split]. simpl. unfold with_rows, misses. simpl.
    rewrite app_nil_r, Nat.add_0_r. by destruct w as [? [? ?] ?].
  - rewrite for_each_cons, creation_step_run by done.
    rewrite fmap_cons, misses_cons in Hresp. rewrite fmap_cons, misses_cons.
    destruct (needs_fallback m (title_of x)) eqn:Hnf.
    + pose proof (Hresp 0 ltac:(simpl; lia)) as H0. rewrite Nat.add_0_r in H0.
      destruct (gemini (calls w)) as [|text d] eqn:Hg; [done|].
      set (r0 := new_row _ _ _ _ _ _ _).
      destruct (IH (next s x) (with_rows w [r0] (S (calls w)))) as (s' & rows & Hrun & Hlen & Hrows).
      { intros i Hi. simpl. replace (S (calls w + i)) with (calls w + S i) by lia.
        apply Hresp. simpl in *. lia. }
      exists s', (r0 :: rows). split; [|split].
      * rewrite Hrun, with_rows_with_rows. simpl. do 2 f_equal. lia.
      * simpl. lia.
      * intros [|i] y; simpl.
        -- intros [= <-]. exists r0. split; [done|].
           unfold created_row, resolved_content. rewrite Hnf. simpl.
           unfold misses. simpl. rewrite Nat.add_0_r, Hg. by repeat split.
        -- intros Hy. destruct (Hrows i y Hy) as (r & Hr & Hc). exists r. split; [done|].
           unfold created_row, resolved_content in *. simpl in Hc.
           rewrite firstn_cons, misses_cons, Hnf.
           by replace (calls w + (1 + misses m (take i (title_of <$> xs))))
             with (S (calls w + misses m (take i (title_of <$> xs)))) by lia.
    + set (r0 := new_row _ _ _ _ _ _ _).
      destruct (IH (next s x) (with_rows w [r0] (calls w))) as (s' & rows & Hrun & Hlen & Hrows).
      { intros i Hi. simpl. apply Hresp. simpl in *. lia. }
      exists s', (r0 :: rows). split; [|split].
      * rewrite Hrun, with_rows_with_rows. simpl. done.
      * simpl. lia.
      * intros [|i] y; simpl.
        -- intros [= <-]. exists r0. split; [done|].
           unfold created_row, resolved_content. rewrite Hnf. by repeat split.
        -- intros Hy. destruct (Hrows i y Hy) as (r & Hr & Hc). exists r. split; [done|].
           unfold created_row, resolved_content in *. simpl in Hc.
           by rewrite firstn_cons, misses_cons, Hnf.
Qed.

(** The creation loop when a fallback call it needs fails: the loop stops
    there and nothing was committed. *)
Lemma creation_loop_fails {St X : Type} gemini topic m project
    (title_of : X → str) (order_of : St → X → Z) page_of index_of (next : St → X → St)
    pre x post s w :
  text_values m →
  (∀ i, i < misses m (title_of <$> pre) → responds (gemini (calls w + i))) →
  needs_fallback m (title_of x) = true →
  gemini (calls w + misses m (title_of <$> pre)) = Fails →
  ∃ w',
    for_each (creation_step gemini topic m project title_of order_of page_of index_of next)
      s (pre ++ x :: post) w
    = (inl (RuntimeError "Gemini Word refinement failed"), w')
    ∧ committed w' = committed w.
Proof.
  intros Hm Hresp Hnf Hfail. rewrite for_each_app.
  destruct (creation_loop_succeeds gemini topic m project title_of order_of page_of
              index_of next pre s w Hm Hresp) as (s' & rows & -> & _).
  rewrite for_each_cons, creation_step_run by done. rewrite Hnf. simpl calls.
  rewrite Hfail. by eexists.
Qed.

Lemma generate_word_sections_run gemini topic headings w :
  generate_word_sections_with_gemini gemini topic headings w
  = (match gemini (calls w) with
     | Responds _ (Some data) =>
         match clean_generated_sections topic data with
         | Some generated => inr generated
         | None => inl (RuntimeError "Gemini Word content generation failed")
         end
     | _ => inl (RuntimeError "Gemini Word content generation failed")
     end, bump w).
Proof.
  unfold generate_word_sections_with_gemini, reraise_as, generate_content, or_raise,
    mbind, M_bind, mret, M_ret, raise, bump.
  destruct (gemini (calls w)) as [|text [data|]]; simpl; try done.
  by destruct (clean_generated_sections topic data).
Qed.

Lemma clean_generated_sections_text topic data generated :
  clean_generated_sections topic data = Some generated →
  Forall (λ s, ∃ c, dict_get s "content" = Some (JStr c)) generated.
Proof.
  unfold clean_generated_sections. destruct data; try done.
  destruct (mapM as_dict items) as [dicts|]; [|done]. simpl.
  destruct (py_sort_by _ dicts) as [sorted|]; [|done]. simpl.
  intros H%mapM_Some_1. induction H as [|s s' l l' Hs _ IH]; [done|].
  constructor; [|done]. unfold clean_generated_section in Hs.
  destruct (py_or _ _); try done. destruct (split_once NL _).
  injection Hs as <-. eexists. apply dict_get_set_eq.
Qed.

Lemma record_heading_inl e generated :
  foldl record_heading (inl e) generated = inl e.
Proof. induction generated; simpl; auto. Qed.

(** The dictionary holds, under every heading, the content of the last
    generated element with that heading: a later element replaces an earlier
    one. *)
Lemma content_by_heading_last generated m h :
  content_by_heading_of generated = inr m →
  m !! h = last (List.filter (heading_is h) generated) ≫= λ s, dict_get s "content".
Proof.
  unfold content_by_heading_of.
  cut (∀ acc : gmap str json,
         foldl record_heading (inr acc) generated = inr m →
         m !! h = match last (List.filter (heading_is h) generated) with
                  | Some s => dict_get s "content"
                  | None => acc !! h
                  end).
  { intros H Hm. rewrite (H ∅ Hm). by destruct (last _). }
  induction generated as [|s generated IH]; intros acc; cbn [foldl List.filter].
  - by intros [= <-].
  - unfold heading_is at 1. unfold record_heading at 2.
    destruct (dict_get s "heading") as [v|] eqn:Eh;
      [|by rewrite record_heading_inl].
    destruct v as [| | |h'| |]; destruct (dict_get s "content") as [c|] eqn:Ec;
      simpl; try (by rewrite record_heading_inl); try apply IH.
    intros Hm. rewrite (IH _ Hm). unfold str_eqb. case_bool_decide as Hh.
    + subst h'. rewrite last_cons. destruct (last _); [done|].
      by rewrite lookup_insert_eq.
    + destruct (last _); [done|]. by rewrite lookup_insert_ne.
Qed.

Lemma content_by_heading_text generated m :
  Forall (λ s, ∃ c, dict_get s "content" = Some (JStr c)) generated →
  content_by_heading_of generated = inr m → text_values m.
Proof.
  intros Hall Hm h v Hv. rewrite (content_by_heading_last _ _ h Hm) in Hv.
  destruct (last (List.filter (heading_is h) generated)) as [s|] eqn:El; [|done].
  simpl in Hv. apply last_Some_elem_of, list_elem_of_In, filter_In in El as [Hin _].
  apply list_elem_of_In in Hin. eapply Forall_forall in Hall as [c Hc]; [|done].
  exists c. congruence.
Qed.

Lemma enumerate_from_titles page start (l : list str) :
  (λ it : Z * Z * str, it.2) <$> ((λ it : Z * str, (page, it.1, it.2)) <$> enumerate_from start l)
  = l.
Proof.
  revert start. induction l as [|x l IH]; intros start; [done|].
  simpl. f_equal. apply IH.
Qed.

Lemma page_items_titles pages :
  (λ it : Z * Z * str, it.2) <$> page_items pages
  = concat ((λ cfg, take 3 (cfg_sections cfg)) <$> sorted_by cfg_page_number pages).
Proof.
  unfold page_items. induction (sorted_by cfg_page_number pages) as [|cfg l IH]; [done|].
  rewrite !fmap_cons. cbn [concat]. by rewrite fmap_app, enumerate_from_titles, IH.
Qed.

(** *** Well-formed responses are accepted *)

Lemma mapM_total {A B} (f : A → option B) (P : A → Prop) (Q : B → Prop) l :
  Forall P l → (∀ x, P x → ∃ y, f x = Some y ∧ Q y) →
  ∃ k, mapM f l = Some k ∧ Forall Q k ∧ length k = length l.
Proof.
  intros Hl Hf. induction Hl as [|x l Hx _ (k & Hk & HQ & Hlen)].
  - by exists [].
  - destruct (Hf x Hx) as (y & Hy & Qy). exists (y :: k). split; [|split].
    + apply mapM_Some_2. constructor; [done|]. by apply mapM_Some_1.
    + by constructor.
    + simpl. by rewrite Hlen.
Qed.

Lemma sort_insert_ints {A} (key : A → json) x sorted :
  (∃ i, key x = JInt i) → Forall (λ y, ∃ i, key y = JInt i) sorted →
  ∃ r, sort_insert key x sorted = Some r ∧ r ≡ₚ x :: sorted.
Proof.
  intros [i Hi] Hall. induction Hall as [|y l [j Hj] _ (r & Hr & Hp)]; simpl.
  - by exists [x].
  - rewrite Hi, Hj. simpl. destruct (i <? j)%Z.
    + by eexists.
    + rewrite Hr. simpl. eexists. split; [done|]. rewrite Hp. apply Permutation_swap.
Qed.

Lemma py_sort_by_ints {A} (key : A → json) l :
  Forall (λ y, ∃ i, key y = JInt i) l → ∃ r, py_sort_by key l = Some r ∧ r ≡ₚ l.
Proof.
  unfold py_sort_by. intros Hl.
  cut (∀ acc, Forall (λ y, ∃ i, key y = JInt i) acc →
         ∃ r, foldl (λ acc x, acc ≫= λ sorted, sort_insert key x sorted) (Some acc) l
              = Some r ∧ r ≡ₚ acc ++ l).
  { intros H. apply (H []). constructor. }
  induction Hl as [|x l Hx _ IH]; intros acc Hacc; simpl.
  - exists acc. by rewrite app_nil_r.
  - destruct (sort_insert_ints key x acc Hx Hacc) as (r & -> & Hp).
    destruct (IH r) as (r' & Hr' & Hp').
    { rewrite Hp. by constructor. }
    exists r'. split; [done|]. rewrite Hp', Hp. simpl. apply Permutation_middle.
Qed.

Lemma clean_generated_section_keeps topic fields :
  well_formed_fields fields →
  ∃ s, clean_generated_section topic fields = Some s
       ∧ (∃ h, dict_get s "heading" = Some (JStr h))
       ∧ is_Some (dict_get s "content").
Proof.
  intros ([h Hh] & _ & [c Hc]). unfold clean_generated_section. rewrite Hc.
  destruct (split_once NL _). eexists. split; [done|]. split.
  - exists h. by rewrite dict_get_set_ne.
  - rewrite dict_get_set_eq. by eexists.
Qed.

Lemma content_by_heading_total generated :
  Forall (λ s, (∃ h, dict_get s "heading" = Some (JStr h))
               ∧ is_Some (dict_get s "content")) generated →
  ∃ m, content_by_heading_of generated = inr m.
Proof.
  unfold content_by_heading_of. generalize (∅ : gmap str json).
  intros acc Hall. revert acc.
  induction Hall as [|s l ([h Hh] & [c Hc]) _ IH]; intros acc; simpl.
  - by exists acc.
  - rewrite Hh, Hc. apply IH.
Qed.

(** A response made of well-formed elements passes the cleanup and the
    indexing by heading, whatever the topic. *)
Lemma well_formed_response_accepted topic data :
  Forall well_formed_section data →
  ∃ generated m,
    clean_generated_sections topic (JArr data) = Some generated
    ∧ content_by_heading_of generated = inr m
    ∧ length generated = length data.
Proof.
  intros Hdata. unfold clean_generated_sections.
  destruct (mapM_total as_dict well_formed_section well_formed_fields data Hdata)
    as (dicts & -> & Hdicts & Hlen1).
  { intros v (fields & -> & Hf). by exists fields. }
  simpl.
  destruct (py_sort_by_ints (λ s, dict_get_or s "order_index" (JInt 0)) dicts)
    as (sorted & -> & Hp).
  { eapply Forall_impl; [exact Hdicts|]. by intros s (_ & ? & _). }
  simpl. rewrite <- Hp in Hdicts.
  destruct (mapM_total (clean_generated_section topic) well_formed_fields
              (λ s, (∃ h, dict_get s "heading" = Some (JStr h))
                    ∧ is_Some (dict_get s "content")) sorted Hdicts)
    as (generated & -> & Hgen & Hlen2).
  { intros s Hs. destruct (clean_generated_section_keeps topic s Hs) as (s' & ? & ? & ?).
    by exists s'. }
  destruct (content_by_heading_total generated Hgen) as [m Hm].
  exists generated, m. split; [done|]. split; [done|].
  rewrite Hlen2, <- Hlen1. by apply Permutation_length.
Qed.

Lemma bind_pointwise {A B} (m : M A) (k k' : A → M B) w :
  (∀ a w', k a w' = k' a w') → (m ≫= k) w = (m ≫= k') w.
Proof.
  intros H. unfold mbind, M_bind. destruct (m w) as [[e|a] w']; [done|]. apply H.
Qed.

Lemma bind_pointwise_l {A B} (m m' : M A) (k : A → M B) w :
  m w = m' w → (m ≫= k) w = (m' ≫= k) w.
Proof. intros H. unfold mbind, M_bind. by rewrite H. Qed.

Lemma create_word_project_flat gemini project_in user w :
  in_doc_type project_in = DOCX →
  page_mode project_in = false →
  create_word_project gemini project_in user w
  = create_with gemini project_in user
      (new_title <$> sorted_by new_order_index (in_sections project_in))
      (λ m project,
         creation_step gemini (in_topic project_in) m project new_title
           (λ _ x, new_order_index x) (λ _, None) (λ _, None) (λ _ _, tt))
      tt (sorted_by new_order_index (in_sections project_in)) w.
Proof.
  intros Hdoc Hmode. unfold create_word_project, create_with. rewrite Hdoc.
  unfold page_mode in Hmode. rewrite Hmode.
  apply bind_pointwise. intros project w1.
  apply bind_pointwise. intros generated w2.
  apply bind_pointwise. intros m w3.
  apply bind_pointwise_l. apply for_each_pointwise.
  intros [] x w4. unfold creation_step. apply bind_pointwise. intros content w5.
  unfold db_add_section, get_session, put_session, mbind, M_bind, mret, M_ret. done.
Qed.

Lemma create_word_project_paged gemini project_in user w :
  in_doc_type project_in = DOCX →
  page_mode project_in = true →
  create_word_project gemini project_in user w
  = create_with gemini project_in user
      (concat (cfg_sections <$>
                 sorted_by cfg_page_number (default [] (in_pages project_in))))
      (λ m project,
         creation_step gemini (in_topic project_in) m project
           (λ it : Z * Z * str, it.2) (λ order _, order)
           (λ it, Some it.1.1) (λ it, Some it.1.2) (λ order _, (order + 1)%Z))
      1%Z (page_items (default [] (in_pages project_in))) w.
Proof.
  intros Hdoc Hmode. unfold create_word_project, create_with. rewrite Hdoc.
  unfold page_mode in Hmode. rewrite Hmode.
  apply bind_pointwise. intros project w1.
  apply bind_pointwise. intros generated w2.
  apply bind_pointwise. intros m w3.
  apply bind_pointwise_l.
  unfold page_items. rewrite for_each_concat, for_each_fmap.
  apply for_each_pointwise.
  intros order cfg w4. rewrite for_each_fmap. apply for_each_pointwise.
  by intros order' [idx t] w5.
Qed.

Lemma run_request_pointwise {A} (m m' : M A) db n :
  (∀ w, m w = m' w) → run_request m db n = run_request m' db n.
Proof. intros H. unfold run_request. by rewrite H. Qed.

Section create_with.
Context {St X : Type} (gemini : nat → Reply) (project_in : ProjectCreate) (user : User).
Context (headings : list str).
Context (title_of : X → str) (order_of : St → X → Z) (page_of index_of : X → option Z).
Context (next : St → X → St) (s0 : St) (xs : list X).

#[local] Abbreviation step :=
  (λ (m : gmap str json) (project : Z),
     creation_step gemini (in_topic project_in) m project title_of order_of page_of
       index_of next).

Lemma create_with_batch_fails db n :
  batch_fails gemini project_in n →
  run_request (create_with gemini project_in user headings step s0 xs) db n
  = (inl (RuntimeError "Gemini Word content generation failed"), db, S n).
Proof.
  unfold batch_fails. intros Hfail.
  unfold run_request, create_with, db_add_project, get_session, put_session,
    mbind, M_bind, mret, M_ret. simpl.
  rewrite generate_word_sections_run. simpl.
  destruct (gemini n) as [|text [data|]]; try done. by rewrite Hfail.
Qed.

Lemma create_with_unfold db n text data generated m :
  gemini n = Responds text (Some data) →
  clean_generated_sections (in_topic project_in) data = Some generated →
  content_by_heading_of generated = inr m →
  create_with gemini project_in user headings step s0 xs
    {| committed := db; session := db; calls := n |}
  = match for_each (step m (proj_id (new_project db (user_id user) project_in))) s0 xs
            {| committed := db;
               session := {| projects := projects db
                                         ++ [new_project db (user_id user) project_in];
                             sections := sections db |};
               calls := S n |} with
    | (inr _, w') =>
        (inr (new_project db (user_id user) project_in),
         {| committed := session w'; session := session w'; calls := calls w' |})
    | (inl e, w') => (inl e, w')
    end.
Proof.
  intros Hg Hclean Hmap. unfold create_with.
  set (project := new_project db (user_id user) project_in).
  set (w0 := {| committed := db;
                session := {| projects := projects db ++ [project];
                              sections := sections db |};
                calls := n |}).
  rewrite (bind_inr _ _ _ project w0) by done.
  rewrite (bind_inr _ _ _ generated (bump w0)).
  2:{ rewrite generate_word_sections_run. simpl calls. by rewrite Hg, Hclean. }
  rewrite (bind_inr _ _ _ m (bump w0)) by (by rewrite Hmap).
  change (bump w0) with {| committed := db; session := session w0; calls := S n |}.
  unfold mbind, M_bind.
  by destruct (for_each _ _ _ _) as [[e|s'] w'].
Qed.


Lemma create_with_fallback_fails db n text data generated m pre x post :
  gemini n = Responds text (Some data) →
  clean_generated_sections (in_topic project_in) data = Some generated →
  content_by_heading_of generated = inr m →
  xs = pre ++ x :: post →
  (∀ i, i < misses m (title_of <$> pre) → responds (gemini (S n + i))) →
  needs_fallback m (title_of x) = true →
  gemini (S n + misses m (title_of <$> pre)) = Fails →
  ∃ n',
    run_request (create_with gemini project_in user headings step s0 xs) db n
    = (inl (RuntimeError "Gemini Word refinement failed"), db, n').
Proof.
  intros Hg Hclean Hmap Hxs Hresp Hnf Hfail.
  assert (Hm : text_values m).
  { eapply content_by_heading_text; [|done]. by eapply clean_generated_sections_text. }
  set (project := new_project db (user_id user) project_in).
  set (w1 := {| committed := db;
                session := {| projects := projects db ++ [project];
                              sections := sections db |};
                calls := S n |}).
  destruct (creation_loop_fails gemini (in_topic project_in) m (proj_id project)
              title_of order_of page_of index_of next pre x post s0 w1 Hm Hresp Hnf Hfail)
    as (w' & Hloop & Hcommitted).
  exists (calls w').
  unfold run_request. rewrite (create_with_unfold db n text data generated m) by done.
  fold project w1. rewrite Hxs, Hloop. by rewrite Hcommitted.
Qed.
End create_with.





(** C7, as the code has it: a failure of the batch call aborts the request,
    and so does a failure of a fallback call; in both cases the store is
    what it was before the request, with no project and no section added. *)
Theorem create_word_project_aborts gemini project_in user db n :
  in_doc_type project_in = DOCX →
  (batch_fails gemini project_in n →
   run_request (create_word_project gemini project_in user) db n
   = (inl (RuntimeError "Gemini Word content generation failed"), db, S n))
  ∧ (∀ t, fallback_fails gemini project_in n t →
       ∃ n', run_request (create_word_project gemini project_in user) db n
             = (inl (RuntimeError "Gemini Word refinement failed"), db, n')).
Proof.
  intros Hdoc. split.
  - intros Hfail. destruct (page_mode project_in) eqn:Hmode.
    + rewrite (run_request_pointwise _ _ db n
                 (λ w, create_word_project_paged gemini project_in user w Hdoc Hmode)).
      by apply create_with_batch_fails.
    + rewrite (run_request_pointwise _ _ db n
                 (λ w, create_word_project_flat gemini project_in user w Hdoc Hmode)).
      by apply create_with_batch_fails.
  - intros t (text & data & generated & m & pre & post
              & Hg & Hclean & Hmap & Htitles & Hresp & Hnf & Hfail).
    unfold requested_titles in Htitles. destruct (page_mode project_in) eqn:Hmode.
    + rewrite (run_request_pointwise _ _ db n
                 (λ w, create_word_project_paged gemini project_in user w Hdoc Hmode)).
      rewrite <- page_items_titles in Htitles.
      apply fmap_app_inv in Htitles as (xs1 & xs2 & -> & Hpost & Hxs).
      symmetry in Hpost. apply fmap_cons_inv in Hpost as (x & xs3 & -> & -> & ->).
      by eapply create_with_fallback_fails.
    + rewrite (run_request_pointwise _ _ db n
                 (λ w, create_word_project_flat gemini project_in user w Hdoc Hmode)).
      apply fmap_app_inv in Htitles as (xs1 & xs2 & -> & Hpost & Hxs).
      symmetry in Hpost. apply fmap_cons_inv in Hpost as (x & xs3 & -> & -> & ->).
      by eapply create_with_fallback_fails.
Qed.

Lemma create_word_project_aborts_witness :
  batch_fails failing_gemini duplicate_request 0
  ∧ fallback_fails failing_fallback_gemini duplicate_request 0 "B"
  ∧ run_request (create_word_project failing_gemini duplicate_request example_user)
      example_db 0
    = (inl (RuntimeError "Gemini Word content generation failed"), example_db, 1)
  ∧ ∃ n', run_request
            (create_word_project failing_fallback_gemini duplicate_request example_user)
            example_db 0
          = (inl (RuntimeError "Gemini Word refinement failed"), example_db, n').
Proof.
  assert (Hbatch : batch_fails failing_gemini duplicate_request 0) by exact I.
  assert (Hfallback : fallback_fails failing_fallback_gemini duplicate_request 0 "B").
  { exists "", (JArr duplicate_elements), duplicate_generated, duplicate_contents,
      ["A"; "A"], [].
    split; [reflexivity|]. split; [reflexivity|]. split; [reflexivity|].
    split; [reflexivity|]. split; [|split; reflexivity].
    intros i Hi. vm_compute in Hi. lia. }
  split; [exact Hbatch|]. split; [exact Hfallback|].
  split.
  - apply (create_word_project_aborts failing_gemini duplicate_request example_user
             example_db 0); [reflexivity | exact Hbatch].
  - apply (create_word_project_aborts failing_fallback_gemini duplicate_request
             example_user example_db 0 eq_refl) with (t := "B"). exact Hfallback.
Defined.

(** C7, as the specification states it, fails: the heading "B" needs the
    fallback call, the call fails, and the request ends in the error; the
    store is still empty, so neither an empty "B" nor the two sections under
    "A" were created. *)
Lemma fallback_failure_aborts_creation :
  run_request (create_word_project failing_fallback_gemini duplicate_request example_user)
    empty_db 0
  = (inl (RuntimeError "Gemini Word refinement failed"), empty_db, 2).
Proof. by vm_compute. Qed.

(** ** Further properties of the sanitizer *)

Lemma replace_from_skip_prefix a old new l s :
  a ∉ l → replace_from (a :: old) new 0 (l ++ s) = l ++ replace_from (a :: old) new 0 s.
Proof.
  induction l as [|c l IH]; [done|].
  intros [Hne Hl]%not_elem_of_cons. rewrite <- app_comm_cons.
  cbn [replace_from startswith]. rewrite (bool_decide_eq_false_2 (a = c)) by done.
  simpl. by rewrite IH.
Qed.

Lemma normalized_skip_prefix l s :
  CR ∉ l → BACKSLASH ∉ l → normalized (l ++ s) = l ++ normalized s.
Proof.
  intros Hcr Hbs. unfold normalized, replace.
  by rewrite !replace_from_skip_prefix.
Qed.

(** The lines the sanitizer works on. *)
Lemma clean_section_content_unfold doc_title heading raw :
  raw ≠ [] →
  _clean_section_content doc_title heading raw
  = strip (join [NL]
      (trim_blank_lines (collapse_blank_lines
         (strip_meta_lines (lower (strip doc_title)) (lower (strip heading))
            (strip <$> split NL (normalized raw)))))).
Proof. unfold _clean_section_content. by destruct raw. Qed.

(** X1: the shape of every result.  The text the sanitizer returns has no
    carriage return and no escaped line break and no surrounding whitespace;
    unless it is empty, its lines are trimmed, the first is neither blank nor
    a title, heading or label line, the last is not blank, and no two blank
    lines follow each other. *)
Theorem clean_section_content_shape doc_title heading raw :
  (CR ∉ _clean_section_content doc_title heading raw)
  ∧ contains [BACKSLASH; "n"%char] (_clean_section_content doc_title heading raw) = false
  ∧ strip (_clean_section_content doc_title heading raw)
    = _clean_section_content doc_title heading raw
  ∧ (_clean_section_content doc_title heading raw = []
     ∨ tidy (lower (strip doc_title)) (lower (strip heading))
         (split NL (_clean_section_content doc_title heading raw))).
Proof.
  destruct (clean_section_content_tidy doc_title heading raw) as [ls [Ht ->]].
  pose proof Ht as (Hall & _).
  split; [|split; [|split]].
  - intros [H|(l & Hin & Hc)]%join_elem.
    + by apply list_elem_of_singleton in H.
    + eapply Forall_forall in Hall; [|done]. by destruct Hall as (_ & ? & _).
  - apply contains_pair_join; [done..|].
    eapply Forall_impl; [exact Hall|]. by intros l (_ & _ & ? & _).
  - by eapply tidy_join_stripped.
  - destruct ls as [|l ls]; [by left|]. right.
    rewrite split_join; [done..|].
    eapply Forall_impl; [exact Hall|]. by intros x (? & _).
Qed.

(** X2: a leading line that is blank or a title, heading or label line is
    dropped and the rest is sanitized as if the line had never been there. *)
Theorem clean_section_content_drops_leading_line doc_title heading l rest :
  NL ∉ l → CR ∉ l → BACKSLASH ∉ l →
  strip l = []
  ∨ is_meta_line (lower (strip doc_title)) (lower (strip heading)) (strip l) = true →
  _clean_section_content doc_title heading (l ++ NL :: rest)
  = _clean_section_content doc_title heading rest.
Proof.
  intros Hnl Hcr Hbs Hmeta.
  rewrite clean_section_content_unfold by by destruct l.
  replace (l ++ NL :: rest) with ((l ++ [NL]) ++ rest) by by rewrite <- app_assoc.
  rewrite normalized_skip_prefix.
  2,3: apply not_elem_of_app; split; [done|]; by intros [=]%list_elem_of_singleton.
  rewrite <- app_assoc. simpl app. rewrite split_app_sep by done.
  rewrite fmap_cons. cbn [strip_meta_lines]. rewrite strip_idemp.
  assert (Hdrop : ∀ lines other : list str,
    (if negb (nonempty (strip l)) then lines
     else if is_meta_line (lower (strip doc_title)) (lower (strip heading)) (strip l)
          then lines
          else other) = lines).
  { intros lines other. destruct Hmeta as [-> | ->]; [done|]. by destruct (strip l). }
  rewrite Hdrop. destruct rest as [|c rest].
  - done.
  - by rewrite clean_section_content_unfold.
Qed.

Lemma clean_section_content_drops_leading_line_witness :
  _clean_section_content "EV Market 2025" "Overview"
    ("  ev market 2025 " ++ NL :: "Sales grew.")
  = _clean_section_content "EV Market 2025" "Overview" "Sales grew.".
Proof.
  apply (clean_section_content_drops_leading_line "EV Market 2025" "Overview"
           "  ev market 2025 " "Sales grew.").
  - apply (bool_decide_unpack _). by vm_compute.
  - apply (bool_decide_unpack _). by vm_compute.
  - apply (bool_decide_unpack _). by vm_compute.
  - right. reflexivity.
Defined.




Lemma filter_nonempty_dropwhile l :
  List.filter nonempty (dropwhile is_blank_line l) = List.filter nonempty l.
Proof. induction l as [|x l IH]; [done|]. simpl. by destruct x. Qed.

Lemma filter_reverse {A} (p : A → bool) l :
  List.filter p (reverse l) = reverse (List.filter p l).
Proof.
  induction l as [|x l IH]; [done|]. rewrite reverse_cons, List.filter_app, IH. simpl.
  destruct (p x); [by rewrite reverse_cons | by rewrite app_nil_r].
Qed.

Lemma filter_nonempty_trim l :
  List.filter nonempty (trim_blank_lines l) = List.filter nonempty l.
Proof.
  unfold trim_blank_lines.
  by rewrite filter_reverse, filter_nonempty_dropwhile, filter_reverse, reverse_involutive,
    filter_nonempty_dropwhile.
Qed.

Lemma filter_nonempty_collapse acc ls :
  List.filter nonempty (foldl collapse_step acc ls)
  = List.filter nonempty acc ++ List.filter nonempty ls.
Proof.
  revert acc. induction ls as [|x ls IH]; intros acc; simpl.
  - by rewrite app_nil_r.
  - rewrite IH. destruct (collapse_step_cases acc x) as [-> | (-> & _ & ->)].
    + rewrite List.filter_app. simpl. destruct (nonempty x); [|by rewrite app_nil_r].
      by rewrite <- app_assoc.
    + done.
Qed.

(** X26: what the sanitizer keeps.  The paragraphs of the sanitized text
    are exactly the non-blank lines of the input, stripped, from the first
    line on that is neither blank nor a title, heading or label line: the
    leading run of such lines is dropped, and after it no line with text is
    dropped, changed or reordered, even when it looks like a label. *)
Theorem sanitized_paragraphs doc_title heading raw :
  paragraph_lines (_clean_section_content doc_title heading raw)
  = List.filter nonempty
      (strip_meta_lines (lower (strip doc_title)) (lower (strip heading))
         (strip <$> split NL (normalized raw))).
Proof.
  destruct raw as [|c raw]; [done|].
  rewrite clean_section_content_unfold by done.
  set (kept := strip_meta_lines _ _ _).
  assert (Ht : tidy (lower (strip doc_title)) (lower (strip heading))
                 (trim_blank_lines (collapse_blank_lines kept))).
  { apply cleaned_tidy. destruct (normalized_text (c :: raw)) as [Hcr Hbs].
    by apply stripped_lines_clean. }
  rewrite (tidy_join_stripped _ _ _ Ht).
  transitivity (List.filter nonempty (trim_blank_lines (collapse_blank_lines kept))).
  - unfold paragraph_lines.
    destruct (trim_blank_lines (collapse_blank_lines kept)) as [|l ls] eqn:E; [done|].
    by destruct (tidy_second_pass _ _ _ Ht) as [_ ->].
  - unfold collapse_blank_lines.
    by rewrite filter_nonempty_trim, filter_nonempty_collapse.
Qed.

(** ** Further properties of the page reflow *)

Lemma paragraph_lines_elem content t :
  t ∈ paragraph_lines content → t ≠ [] ∧ (NL ∉ t) ∧ strip t = t.
Proof.
  unfold paragraph_lines. intros [Hin Hne]%list_elem_of_In%filter_In.
  apply list_elem_of_In, list_elem_of_fmap in Hin as (piece & -> & Hpiece).
  pose proof (split_pieces NL content) as Hall.
  eapply Forall_forall in Hall as [Hnl _]; [|done].
  split; [by destruct (strip piece)|]. split; [|apply strip_idemp].
  intros H. by apply Hnl, (infix_elem _ _ _ (strip_infix piece)).
Qed.

Lemma section_blocks_well_formed title para_size heading_size section :
  Forall (well_formed_block title) (section_blocks title para_size heading_size section).
Proof.
  unfold section_blocks. apply Forall_app. split.
  - destruct (heading section) eqn:E; simpl; [done|].
    constructor; [|done]. right. by eauto.
  - apply Forall_fmap, Forall_forall. intros t Ht. simpl.
    destruct (paragraph_lines_elem _ _ Ht) as (? & ? & ?). by eauto.
Qed.

Lemma page_blocks_well_formed title page_sections :
  Forall (well_formed_block title) (page_blocks title page_sections).
Proof.
  unfold page_blocks. apply Forall_concat, Forall_fmap, Forall_forall.
  intros s _. apply section_blocks_well_formed.
Qed.

(** X5: every block of an exported document is well formed: the title
    heading, a page break, a section heading with text, or a paragraph that
    is one non-blank, trimmed line; no empty heading and no blank paragraph
    is ever written, whatever the sections hold. *)
Theorem build_docx_file_well_formed project_id title pages :
  Forall (well_formed_block title) (blocks (build_docx_file project_id title pages)).
Proof.
  rewrite build_docx_file_blocks. constructor; [left; done|].
  apply Forall_concat, Forall_forall. intros bs [i Hi]%list_elem_of_lookup.
  rewrite list_lookup_imap in Hi.
  destruct (sorted_keys pages !! i) as [k|]; [|done]. injection Hi as <-.
  apply Forall_app. split; [by destruct i; repeat constructor|].
  apply page_blocks_well_formed.
Qed.

Lemma filter_page_break_page title page_sections :
  List.filter is_page_break (page_blocks title page_sections) = [].
Proof.
  pose proof (page_blocks_sized title page_sections) as H.
  induction H as [|b bs Hb _ IH]; [done|]. simpl. by destruct b.
Qed.

Lemma filter_concat {A} (p : A → bool) (ls : list (list A)) :
  List.filter p (concat ls) = concat (List.filter p <$> ls).
Proof.
  induction ls as [|l ls IH]; [done|]. simpl. by rewrite List.filter_app, IH.
Qed.

Lemma document_body (page : Z → list Block) keys :
  concat (imap (λ i k, break_before i ++ page k) keys)
  = match keys with
    | [] => []
    | k :: rest => page k ++ concat ((λ k, PageBreak :: page k) <$> rest)
    end.
Proof.
  destruct keys as [|k rest]; [done|]. cbn [imap concat break_before app].
  do 2 f_equal. rewrite <- imap_const. by apply imap_ext.
Qed.

Lemma sorted_keys_length pages : length (sorted_keys pages) = size pages.
Proof.
  unfold sorted_keys. rewrite merge_sort_Permutation.
  by rewrite <- size_dom.
Qed.

(** X4: a document of [n] pages has [n - 1] page breaks (none when there is
    no page): one in front of every page but the first, also when pages are
    empty or page numbers have gaps. *)
Theorem build_docx_file_page_breaks project_id title pages :
  length (List.filter is_page_break (blocks (build_docx_file project_id title pages)))
  = pred (size pages).
Proof.
  rewrite build_docx_file_blocks, <- sorted_keys_length.
  rewrite (document_body (λ k, page_blocks title (default [] (pages !! k)))).
  cbn [List.filter is_page_break].
  destruct (sorted_keys pages) as [|k keys]; [done|].
  rewrite List.filter_app, filter_page_break_page. cbn [app length pred].
  induction keys as [|k' keys IH]; [done|].
  rewrite fmap_cons. cbn [concat app List.filter is_page_break].
  rewrite List.filter_app, filter_page_break_page. cbn [app length]. by rewrite IH.
Qed.

Lemma outline_app a b : outline (a ++ b) = outline a ++ outline b.
Proof. apply omap_app. Qed.

Lemma outline_section title para_size heading_size section :
  outline (section_blocks title para_size heading_size section)
  = List.filter nonempty [heading section].
Proof.
  unfold section_blocks. rewrite outline_app.
  assert (outline ((λ t, Paragraph t (Some para_size)) <$>
                     paragraph_lines (_clean_section_content title (heading section)
                                        (content section))) = []) as ->.
  { induction (paragraph_lines _) as [|t l IH]; [done|]. exact IH. }
  rewrite app_nil_r. simpl. by destruct (nonempty (heading section)).
Qed.

Lemma outline_page title page_sections :
  outline (page_blocks title page_sections)
  = List.filter nonempty (heading <$> page_sections).
Proof.
  unfold page_blocks. generalize (font_sizes (length page_sections)). intros sizes.
  induction page_sections as [|s l IH]; [done|].
  rewrite fmap_cons. cbn [concat]. rewrite outline_app, outline_section, IH.
  simpl. by destruct (nonempty (heading s)).
Qed.

Lemma docx_outline project_id title pages :
  outline (blocks (build_docx_file project_id title pages))
  = List.filter nonempty (heading <$> sections_in_order pages).
Proof.
  rewrite build_docx_file_blocks. unfold sections_in_order.
  rewrite (document_body (λ k, page_blocks title (default [] (pages !! k)))).
  change (outline (Heading title 0 None :: ?l)) with (outline l).
  destruct (sorted_keys pages) as [|k keys]; [done|].
  rewrite fmap_cons. cbn [concat].
  rewrite outline_app, outline_page, fmap_app, List.filter_app. f_equal.
  induction keys as [|k' keys IH]; [done|].
  rewrite !fmap_cons. cbn [concat].
  change (outline ((PageBreak :: ?a) ++ ?b)) with (outline (a ++ b)).
  by rewrite outline_app, outline_page, fmap_app, List.filter_app, IH.
Qed.

(** X6: the section headings of an exported document are the headings of
    the sections, pages in ascending order and sections in their order on
    the page, without the empty ones; the body of a section never adds a
    heading. *)
Theorem build_docx_file_outline project_id title pages :
  outline (blocks (build_docx_file project_id title pages))
  = List.filter nonempty (heading <$> sections_in_order pages).
Proof. apply docx_outline. Qed.

(** ** Further properties of the endpoints *)

Lemma filter_page_count (rows : list SectionRow) (keys : list Z) :
  NoDup keys →
  length (concat ((λ k, List.filter (λ s, bool_decide (export_page s = k)) rows) <$> keys))
  = length (List.filter (λ s, bool_decide (export_page s ∈ keys)) rows).
Proof.
  intros Hnd. induction Hnd as [|k keys Hk _ IH].
  - simpl. induction rows as [|s rows IHr]; [done|]. exact IHr.
  - rewrite fmap_cons. cbn [concat]. rewrite length_app, IH. clear IH.
    induction rows as [|s rows IHr]; [done|]. simpl.
    destruct (decide (export_page s = k)) as [->|Hne].
    + rewrite (bool_decide_eq_true_2 (k = k)) by done.
      rewrite (bool_decide_eq_true_2 (k ∈ k :: keys)) by (by left).
      rewrite (bool_decide_eq_false_2 (k ∈ keys)) by done. simpl. lia.
    + rewrite (bool_decide_eq_false_2 (export_page s = k)) by done.
      destruct (decide (export_page s ∈ keys)).
      * rewrite (bool_decide_eq_true_2 (export_page s ∈ k :: keys)) by (by right).
        rewrite (bool_decide_eq_true_2 (export_page s ∈ keys)) by done. simpl. lia.
      * rewrite (bool_decide_eq_false_2 (export_page s ∈ k :: keys))
          by (by intros [?|?]%elem_of_cons).
        rewrite (bool_decide_eq_false_2 (export_page s ∈ keys)) by done. done.
Qed.

Lemma sorted_keys_NoDup pages : NoDup (sorted_keys pages).
Proof. unfold sorted_keys. rewrite merge_sort_Permutation. apply NoDup_elements. Qed.

(** X7: what an export holds.  The pages handed to [build_docx_file] hold
    the sections of the project and nothing else: an entry is on page [k]
    exactly when it is the title and content of a stored section of the
    project whose page number is [k], or is missing or 0 when [k] is 1; and
    every section is there once. *)
Theorem export_pages_exact db project :
  (∀ k e, e ∈ default [] (export_pages db project !! k)
          ↔ ∃ s, s ∈ sections db ∧ project_id s = project
                 ∧ export_page s = k ∧ e = export_entry s)
  ∧ length (sections_in_order (export_pages db project))
    = length (project_sections db project).
Proof.
  unfold export_pages, project_sections.
  set (rows := sorted_with export_order_ltb _).
  assert (Hrows : ∀ s, s ∈ rows ↔ s ∈ sections db ∧ project_id s = project).
  { intros s. unfold rows. rewrite sorted_with_Permutation, !list_elem_of_In, filter_In.
    by rewrite Z.eqb_eq. }
  split.
  - intros k e. rewrite pages_of_lookup, list_elem_of_fmap. split.
    + intros (s & -> & [Hin Hk]%list_elem_of_In%filter_In).
      apply list_elem_of_In, Hrows in Hin as [? ?]. apply bool_decide_eq_true in Hk.
      by exists s.
    + intros (s & Hin & Hp & Hk & ->). exists s. split; [done|].
      apply list_elem_of_In, filter_In. split.
      * apply list_elem_of_In, Hrows. done.
      * by apply bool_decide_eq_true.
  - unfold sections_in_order.
    rewrite (list_fmap_ext _ (λ k, export_entry <$>
               List.filter (λ s, bool_decide (export_page s = k)) rows) (sorted_keys (pages_of rows)))
      by (intros; apply pages_of_lookup).
    transitivity (length rows).
    2:{ unfold rows. by rewrite sorted_with_Permutation. }
    transitivity (length (concat ((λ k, List.filter (λ s, bool_decide (export_page s = k)) rows)
                                    <$> sorted_keys (pages_of rows)))).
    { induction (sorted_keys (pages_of rows)) as [|k keys IH]; [done|].
      rewrite !fmap_cons. cbn [concat]. by rewrite !length_app, length_fmap, IH. }
    rewrite filter_page_count by apply sorted_keys_NoDup.
    f_equal. apply forallb_filter_id. apply forallb_forall. intros s Hs.
    apply bool_decide_eq_true, sorted_keys_elem, pages_of_dom. exists s.
    by apply list_elem_of_In in Hs.
Qed.

(** X8: exporting is read-only.  Whatever the outcome, the
    store and the number of collaborator calls are what they were; an export
    of a project that does not exist ends in 404, and of a project that is
    not a Word document in 400. *)
Theorem export_docx_read_only project db n :
  ∃ r, run_request (export_docx project) db n = (r, db, n)
       ∧ (find_project db project = None
          → r = inl (HTTPException 404 "Project not found"))
       ∧ (∀ row, find_project db project = Some row → proj_doc_type row = PPTX
          → r = inl (HTTPException 400 "Project is not a Word document")).
Proof.
  unfold run_request, export_docx, get_session, or_raise, mbind, M_bind, mret, M_ret, raise.
  simpl. destruct (find_project db project) as [row|] eqn:E; simpl.
  - destruct (proj_doc_type row) eqn:Et; eexists; (split; [done|]); (split; [done|]);
      intros row' [= <-] ?; congruence.
  - eexists. split; [done|]. split; [done|]. done.
Qed.

Lemma export_docx_read_only_witness :
  ∃ r, run_request (export_docx 5) example_db 3 = (r, example_db, 3)
       ∧ r = inl (HTTPException 404 "Project not found").
Proof.
  destruct (export_docx_read_only 5 example_db 3) as (r & Hrun & H404 & _).
  exists r. split; [exact Hrun|]. apply H404. reflexivity.
Defined.

(** X9: a project is fetched by its owner only.  [get_word_project] returns
    a stored project with the requested id that belongs to the caller, ends
    in 404 exactly when there is none, and changes nothing. *)
Theorem get_word_project_owner_only project user db n :
  ∃ r, run_request (get_word_project project user) db n = (r, db, n)
       ∧ (∀ p, r = inr p
               → p ∈ projects db ∧ proj_id p = project ∧ owner_id p = user_id user)
       ∧ (r = inl (HTTPException 404 "Project not found")
          ↔ ∀ p, p ∈ projects db → proj_id p = project → owner_id p ≠ user_id user).
Proof.
  unfold run_request, get_word_project, get_session, or_raise, mbind, M_bind, mret, M_ret,
    raise. simpl.
  destruct (List.find _ (projects db)) as [p|] eqn:E; simpl; eexists; (split; [done|]).
  - apply find_some in E as [Hin [H1 H2]%andb_true_iff].
    apply Z.eqb_eq in H1, H2. apply list_elem_of_In in Hin. split.
    + by intros p' [= <-].
    + split; [done|]. intros H. by destruct (H p).
  - split; [done|]. split; [|done]. intros _ p Hin Hid Hown.
    eapply find_none in E; [|by apply list_elem_of_In]. simpl in E.
    apply andb_false_iff in E as [E|E]; apply Z.eqb_neq in E; done.
Qed.

Lemma get_word_project_owner_only_witness :
  run_request (get_word_project 1 example_user) example_db 0
  = (inr example_project, example_db, 0)
  ∧ run_request (get_word_project 1 other_user) example_db 0
    = (inl (HTTPException 404 "Project not found"), example_db, 0).
Proof.
  split.
  - destruct (get_word_project_owner_only 1 example_user example_db 0)
      as (r & Hrun & _ & _). rewrite Hrun. vm_compute in Hrun. by injection Hrun as <-.
  - destruct (get_word_project_owner_only 1 other_user example_db 0)
      as (r & Hrun & _ & H404). rewrite Hrun. f_equal. f_equal. apply H404.
    intros p [->|[]%not_elem_of_nil]%elem_of_cons _. by vm_compute.
Defined.

(** X10: a refinement whose collaborator call fails changes nothing: the
    request ends in the refinement error, content and history of the section
    and the rest of the store are as before, however the history column is
    declared. *)
Theorem refine_section_failure_keeps_store gemini column project section body_prompt user
    db n row :
  find_section db project section (user_id user) = Some row →
  gemini n = Fails →
  run_request (refine_section gemini column project section body_prompt user) db n
  = (inl (RuntimeError "Gemini Word refinement failed"), db, S n).
Proof. apply refine_section_fails. Qed.

Lemma refine_section_failure_keeps_store_witness :
  run_request (refine_section silent_gemini PlainJson 1 1 "Shorten" example_user)
    example_db 0
  = (inl (RuntimeError "Gemini Word refinement failed"), example_db, 1).
Proof.
  apply (refine_section_failure_keeps_store silent_gemini PlainJson 1 1 "Shorten"
           example_user example_db 0 example_row); reflexivity.
Defined.

(** X11: a section is refined by the owner of its project only.  When no
    project with the given id belongs to the caller, the request ends in 404
    before the collaborator is called, and the store is unchanged. *)
Theorem refine_section_not_owner gemini column project section body_prompt user db n :
  (∀ p, p ∈ projects db → proj_id p = project → owner_id p ≠ user_id user) →
  run_request (refine_section gemini column project section body_prompt user) db n
  = (inl (HTTPException 404 "Section not found"), db, n).
Proof.
  intros Hown.
  assert (find_section db project section (user_id user) = None) as Hnone.
  { unfold find_section.
    destruct (List.find _ (sections db)) as [s|] eqn:E; [|done]. exfalso.
    apply find_some in E as [_ [_ H]%andb_true_iff].
    apply existsb_exists in H as (p & Hp & H).
    apply andb_true_iff in H as [[_ H2]%andb_true_iff H3].
    apply Z.eqb_eq in H2, H3. apply list_elem_of_In in Hp. by apply (Hown p). }
  unfold run_request, refine_section, get_session, or_raise, mbind, M_bind, raise.
  simpl. by rewrite Hnone.
Qed.

Lemma refine_section_not_owner_witness :
  run_request (refine_section example_gemini PlainJson 1 1 "Shorten" other_user)
    example_db 0
  = (inl (HTTPException 404 "Section not found"), example_db, 0).
Proof.
  apply (refine_section_not_owner example_gemini PlainJson 1 1 "Shorten" other_user
           example_db 0).
  intros p [->|[]%not_elem_of_nil]%elem_of_cons _. by vm_compute.
Defined.

(** X12: a successful refinement touches one section only.  The projects
    and every row with another id are unchanged, no row is added or removed,
    and of the refined row the id, project, title, order index, page number
    and section index stay; its content is the trimmed reply.  What is
    stored as its history depends on how the column is declared: a column
    that tracks mutations holds the history with the new entry at its end; a
    plain JSON column keeps the history it had, because the list assigned
    is the list that was loaded, and takes the new entry only when the
    history was empty. *)
Theorem refine_section_frame gemini column project section body_prompt user db n row :
  find_section db project section (user_id user) = Some row →
  responds (gemini n) →
  ∃ row' db',
    run_request (refine_section gemini column project section body_prompt user) db n
    = (inr row', db', S n)
    ∧ projects db' = projects db
    ∧ length (sections db') = length (sections db)
    ∧ (∀ i r, sections db !! i = Some r → sec_id r ≠ section
              → sections db' !! i = Some r)
    ∧ (∀ i r, sections db !! i = Some r → sec_id r = section
              → sections db' !! i = Some row')
    ∧ (sec_id row', project_id row', sec_title row', order_index row',
       page_number row', section_index row')
      = (sec_id row, project_id row, sec_title row, order_index row,
         page_number row, section_index row)
    ∧ sec_content row' = refined_text (gemini n)
    ∧ history row'
      = match column, history row with
        | PlainJson, _ :: _ => history row
        | _, _ =>
            history row ++ [refinement_entry row body_prompt (refined_text (gemini n))]
        end.
Proof.
  intros Hfind Hresp.
  destruct (refine_section_succeeds gemini column project section body_prompt user db n
              row Hfind Hresp) as (db' & Hrun & _ & Hprojects & Hsections).
  assert (Hid : sec_id row = section).
  { unfold find_section in Hfind. apply find_some in Hfind as [_ [H _]%andb_true_iff].
    by apply Z.eqb_eq in H. }
  eexists _, db'. split; [exact Hrun|]. split; [done|].
  split; [by rewrite Hsections, length_fmap|].
  split; [|split; [|split; [|split]]].
  - intros i r Hr Hne. rewrite Hsections, list_lookup_fmap, Hr. simpl.
    destruct (Z.eqb_spec (sec_id r) (sec_id row)); [congruence | done].
  - intros i r Hr Heq. rewrite Hsections, list_lookup_fmap, Hr. simpl.
    destruct (Z.eqb_spec (sec_id r) (sec_id row)); [done | congruence].
  - done.
  - done.
  - simpl. destruct column; [|by destruct (history row)]. by destruct (history row).
Qed.

Lemma refine_section_frame_witness :
  ∃ row' db',
    run_request (refine_section example_gemini PlainJson 1 1 "Shorten" example_user)
      example_db 0
    = (inr row', db', 1)
    ∧ projects db' = projects example_db
    ∧ length (sections db') = 1
    ∧ sec_title row' = "Introduction"
    ∧ history row' = [example_entry].
Proof.
  destruct (refine_section_frame example_gemini PlainJson 1 1 "Shorten" example_user
              example_db 0 example_row)
    as (row' & db' & Hrun & Hp & Hlen & _ & _ & Hsame & _ & Hh).
  - reflexivity.
  - exact I.
  - exists row', db'. split; [exact Hrun|]. split; [exact Hp|]. split; [exact Hlen|].
    split; [by injection Hsame|]. exact Hh.
Defined.

(** ** Further properties of document creation *)

(** The creation loop, whatever the collaborator replies: nothing is
    committed, every item costs at most one call, and when the loop ends
    normally the session has one more row per item. *)
Lemma creation_loop_outcome {St X : Type} gemini topic m project
    (title_of : X → str) (order_of : St → X → Z) page_of index_of (next : St → X → St) xs s w :
  text_values m →
  ∃ r w',
    for_each (creation_step gemini topic m project title_of order_of page_of index_of next)
      s xs w = (r, w')
    ∧ committed w' = committed w
    ∧ calls w ≤ calls w' ≤ calls w + length xs
    ∧ ∀ s', r = inr s' →
        ∃ rows, session w' = {| projects := projects (session w);
                                sections := sections (session w) ++ rows |}
                ∧ loop_rows project title_of order_of page_of index_of next s xs rows.
Proof.
  intros Hm. revert s w. induction xs as [|x xs IH]; intros s w.
  - exists (inr s), w. split; [done|]. split; [done|]. split; [simpl; lia|].
    intros s' _. exists []. split; [|by split].
    rewrite app_nil_r. by destruct (session w).
  - rewrite for_each_cons, creation_step_run by done.
    assert (Hstep : ∀ content n1, calls w ≤ n1 ≤ S (calls w) →
      let r0 := new_row (session w) project (title_of x) (order_of s x) (page_of x)
                  (index_of x) content in
      ∃ r w', for_each (creation_step gemini topic m project title_of order_of page_of
                          index_of next) (next s x) xs (with_rows w [r0] n1) = (r, w')
        ∧ committed w' = committed w
        ∧ calls w ≤ calls w' ≤ calls w + length (x :: xs)
        ∧ ∀ s', r = inr s' →
            ∃ rows, session w' = {| projects := projects (session w);
                                    sections := sections (session w) ++ rows |}
                    ∧ loop_rows project title_of order_of page_of index_of next s
                        (x :: xs) rows).
    { intros content n1 Hn1 r0.
      destruct (IH (next s x) (with_rows w [r0] n1)) as (r & w' & Hrun & Hc & Hcalls & Hok).
      exists r, w'. split; [done|]. split; [done|]. split; [simpl in *; lia|].
      intros s' Hs'. destruct (Hok s' Hs') as (rows & Hsess & Hlen & Hrows).
      exists (r0 :: rows). split; [by rewrite Hsess; simpl; rewrite <- app_assoc|].
      split; [simpl; lia|]. intros [|i] y; simpl.
      - intros [= <-]. exists r0. by repeat split.
      - intros Hy. apply (Hrows i y Hy). }
    destruct (needs_fallback m (title_of x)).
    + destruct (gemini (calls w)) as [|text d].
      * eexists _, _. split; [done|]. split; [done|]. split; [simpl; lia|]. done.
      * apply Hstep. lia.
    + apply Hstep. lia.
Qed.

Lemma content_values_text topic data generated m :
  clean_generated_sections topic data = Some generated →
  content_by_heading_of generated = inr m → text_values m.
Proof.
  intros Hclean Hmap. eapply content_by_heading_text; [|done].
  by eapply clean_generated_sections_text.
Qed.

(** Both modes of creation, whatever the collaborator replies. *)
Lemma create_with_outcome {St X : Type} gemini project_in user headings
    (title_of : X → str) (order_of : St → X → Z) page_of index_of (next : St → X → St)
    s0 xs db n :
  ∃ r db' n',
    run_request
      (create_with gemini project_in user headings
         (λ m project, creation_step gemini (in_topic project_in) m project title_of
                         order_of page_of index_of next) s0 xs) db n = (r, db', n')
    ∧ n ≤ n' ≤ S n + length xs
    ∧ match r with
      | inl _ => db' = db
      | inr project =>
          project = new_project db (user_id user) project_in
          ∧ ∃ rows, db' = {| projects := projects db ++ [project];
                             sections := sections db ++ rows |}
                    ∧ loop_rows (proj_id project) title_of order_of page_of index_of
                        next s0 xs rows
      end.
Proof.
  destruct (gemini n) as [|text [data|]] eqn:Hg.
  1,3: eexists _, _, _; split;
    [apply create_with_batch_fails; unfold batch_fails; by rewrite Hg|];
    split; [lia|done].
  destruct (clean_generated_sections (in_topic project_in) data) as [generated|] eqn:Hclean.
  2:{ eexists _, _, _; split;
      [apply create_with_batch_fails; unfold batch_fails; by rewrite Hg|].
      split; [lia|done]. }
  destruct (content_by_heading_of generated) as [e|m] eqn:Hmap.
  { exists (inl e), db, (S n). split; [|split; [lia|done]].
    unfold run_request, create_with.
    set (project := new_project db (user_id user) project_in).
    set (w0 := {| committed := db;
                  session := {| projects := projects db ++ [project];
                                sections := sections db |};
                  calls := n |}).
    rewrite (bind_inr _ _ _ project w0) by done.
    rewrite (bind_inr _ _ _ generated (bump w0)).
    2:{ rewrite generate_word_sections_run. simpl calls. by rewrite Hg, Hclean. }
    rewrite (bind_inl _ _ _ e (bump w0)) by (by rewrite Hmap). done. }
  pose proof (content_values_text _ _ _ _ Hclean Hmap) as Hm.
  set (project := new_project db (user_id user) project_in).
  set (w1 := {| committed := db;
                session := {| projects := projects db ++ [project];
                              sections := sections db |};
                calls := S n |}).
  destruct (creation_loop_outcome gemini (in_topic project_in) m (proj_id project)
              title_of order_of page_of index_of next xs s0 w1 Hm)
    as (r & w' & Hloop & Hc & Hcalls & Hok).
  unfold run_request. rewrite create_with_unfold
    with (text := text) (data := data) (generated := generated) (m := m) by done.
  fold project w1. rewrite Hloop. destruct r as [e|s'].
  - exists (inl e), db, (calls w'). split; [by rewrite Hc|]. split; [simpl in *; lia|done].
  - destruct (Hok s' eq_refl) as (rows & Hsess & Hrows).
    exists (inr project), (session w'), (calls w'). split; [done|].
    split; [simpl in *; lia|]. split; [done|]. exists rows. by rewrite Hsess.
Qed.

Lemma loop_rows_titles {St X : Type} project (title_of : X → str) (order_of : St → X → Z)
    page_of index_of (next : St → X → St) s xs rows :
  loop_rows project title_of order_of page_of index_of next s xs rows →
  sec_title <$> rows = title_of <$> xs
  ∧ Forall (λ r, project_id r = project ∧ initial_history r) rows.
Proof.
  intros [Hlen Hrows]. split.
  - apply list_eq. intros i. rewrite !list_lookup_fmap.
    destruct (xs !! i) as [x|] eqn:Ex.
    + destruct (Hrows i x Ex) as (r & -> & _ & Ht & _). simpl. by rewrite Ht.
    + apply lookup_ge_None in Ex. rewrite <- Hlen in Ex.
      apply lookup_ge_None in Ex. by rewrite Ex.
  - apply Forall_lookup. intros i r Hr.
    destruct (xs !! i) as [x|] eqn:Ex.
    + destruct (Hrows i x Ex) as (r' & Hr' & Hp & _ & _ & _ & _ & Hh).
      rewrite Hr in Hr'. injection Hr' as <-. done.
    + apply lookup_ge_None in Ex. rewrite <- Hlen in Ex.
      apply lookup_ge_None in Ex. congruence.
Qed.

Lemma requested_titles_flat project_in :
  page_mode project_in = false →
  requested_titles project_in
  = new_title <$> sorted_by new_order_index (in_sections project_in).
Proof. unfold requested_titles. by intros ->. Qed.

Lemma requested_titles_paged project_in :
  page_mode project_in = true →
  requested_titles project_in
  = (λ it : Z * Z * str, it.2) <$> page_items (default [] (in_pages project_in)).
Proof. unfold requested_titles. intros ->. by rewrite page_items_titles. Qed.

(** The outcome of [create_word_project] in either mode, whatever the
    collaborator replies. *)
Lemma create_word_project_outcome gemini project_in user db n :
  ∃ r db' n',
    run_request (create_word_project gemini project_in user) db n = (r, db', n')
    ∧ n ≤ n' ≤ S n + length (requested_titles project_in)
    ∧ match r with
      | inl _ => db' = db
      | inr project =>
          in_doc_type project_in = DOCX
          ∧ project = new_project db (user_id user) project_in
          ∧ ∃ rows, db' = {| projects := projects db ++ [project];
                             sections := sections db ++ rows |}
                    ∧ if page_mode project_in then
                        loop_rows (proj_id project) (λ it : Z * Z * str, it.2)
                          (λ order _, order) (λ it, Some it.1.1) (λ it, Some it.1.2)
                          (λ order _, (order + 1)%Z) 1%Z
                          (page_items (default [] (in_pages project_in))) rows
                      else
                        loop_rows (proj_id project) new_title
                          (λ (_ : unit) x, new_order_index x) (λ _, None) (λ _, None)
                          (λ _ _, tt) tt
                          (sorted_by new_order_index (in_sections project_in)) rows
      end.
Proof.
  destruct (in_doc_type project_in) eqn:Hdoc.
  { eexists _, db, n. split.
    - unfold run_request, create_word_project. rewrite Hdoc. reflexivity.
    - split; [lia|done]. }
  destruct (page_mode project_in) eqn:Hmode.
  - destruct (create_with_outcome gemini project_in user
                (concat (cfg_sections <$>
                           sorted_by cfg_page_number (default [] (in_pages project_in))))
                (λ it : Z * Z * str, it.2) (λ order _, order)
                (λ it, Some it.1.1) (λ it, Some it.1.2) (λ order _, (order + 1)%Z)
                1%Z (page_items (default [] (in_pages project_in))) db n)
      as (r & db' & n' & Hrun & Hcalls & Hr).
    exists r, db', n'. split.
    { rewrite <- Hrun. apply run_request_pointwise. intros w.
      by apply create_word_project_paged. }
    split. { rewrite requested_titles_paged, length_fmap by done. done. }
    destruct r as [e|project]; [done|]. by destruct Hr as [-> Hr].
  - destruct (create_with_outcome gemini project_in user
                (new_title <$> sorted_by new_order_index (in_sections project_in))
                new_title (λ (_ : unit) x, new_order_index x) (λ _, None) (λ _, None)
                (λ _ _, tt) tt (sorted_by new_order_index (in_sections project_in)) db n)
      as (r & db' & n' & Hrun & Hcalls & Hr).
    exists r, db', n'. split.
    { rewrite <- Hrun. apply run_request_pointwise. intros w.
      by apply create_word_project_flat. }
    split. { rewrite requested_titles_flat, length_fmap by done. done. }
    destruct r as [e|project]; [done|]. by destruct Hr as [-> Hr].
Qed.

(** X13: creation is all or nothing, whatever the collaborator replies.  A
    request that ends in an error leaves the store as it was; one that
    returns a project has added that project and one section per requested
    title, in order, each belonging to the project and with a single
    history entry of version 1 holding its content.  The collaborator is
    called at most once for the batch and once per section. *)
Theorem create_word_project_all_or_nothing gemini project_in user db n :
  ∃ r db' n',
    run_request (create_word_project gemini project_in user) db n = (r, db', n')
    ∧ n ≤ n' ≤ S n + length (requested_titles project_in)
    ∧ match r with
      | inl _ => db' = db
      | inr project =>
          in_doc_type project_in = DOCX
          ∧ owner_id project = user_id user
          ∧ proj_title project = in_title project_in
          ∧ ∃ rows, db' = {| projects := projects db ++ [project];
                             sections := sections db ++ rows |}
                    ∧ sec_title <$> rows = requested_titles project_in
                    ∧ Forall (λ r, project_id r = proj_id project ∧ initial_history r)
                        rows
      end.
Proof.
  destruct (create_word_project_outcome gemini project_in user db n)
    as (r & db' & n' & Hrun & Hcalls & Hr).
  exists r, db', n'. split; [done|]. split; [done|].
  destruct r as [e|project]; [done|].
  destruct Hr as (Hdoc & Hp & rows & Hdb & Hrows).
  split; [done|]. split; [by rewrite Hp|]. split; [by rewrite Hp|].
  exists rows. split; [done|].
  destruct (page_mode project_in) eqn:Hmode.
  - rewrite requested_titles_paged by done. by apply loop_rows_titles in Hrows.
  - rewrite requested_titles_flat by done. by apply loop_rows_titles in Hrows.
Qed.

Lemma foldl_count {X : Type} (xs : list X) (start : Z) :
  foldl (λ order _, (order + 1)%Z) start xs = (start + Z.of_nat (length xs))%Z.
Proof.
  revert start. induction xs as [|x xs IH]; intros start; simpl; [lia|].
  rewrite IH. lia.
Qed.

Lemma enumerate_from_bounds {A} (l : list A) start idx x :
  (idx, x) ∈ enumerate_from start l → (start ≤ idx < start + Z.of_nat (length l))%Z.
Proof.
  revert start. induction l as [|y l IH]; intros start; simpl.
  - by intros ?%not_elem_of_nil.
  - intros [[= -> ->]|Hin]%elem_of_cons; [lia|]. apply IH in Hin. lia.
Qed.

Lemma page_items_index pages it :
  it ∈ page_items pages → (1 ≤ it.1.2 ≤ 3)%Z.
Proof.
  unfold page_items.
  intros (l & (cfg & -> & _)%list_elem_of_In%list_elem_of_fmap
            & Hit%list_elem_of_In)%list_elem_of_In%in_concat.
  apply list_elem_of_fmap in Hit as ([idx t] & -> & Hin). simpl.
  apply enumerate_from_bounds in Hin. rewrite length_take in Hin. lia.
Qed.

(** X14: where the created sections are.  In page mode the sections of a
    page carry its page number and their position on the page, which is
    between 1 and 3, and the order index counts 1, 2, 3, ... through the
    whole document; in flat mode a section has neither page number nor
    section index and keeps the order index of the request. *)
Theorem created_sections_coordinates gemini project_in user db n project db' n' :
  run_request (create_word_project gemini project_in user) db n = (inr project, db', n') →
  ∃ rows,
    sections db' = sections db ++ rows
    ∧ if page_mode project_in then
        coordinates <$> rows
        = imap (λ i (it : Z * Z * str),
                  (Some it.1.1, Some it.1.2, (1 + Z.of_nat i)%Z, it.2))
            (page_items (default [] (in_pages project_in)))
        ∧ Forall (λ r, ∃ idx, section_index r = Some idx ∧ (1 ≤ idx ≤ 3)%Z) rows
      else
        coordinates <$> rows
        = (λ x, (None, None, new_order_index x, new_title x))
            <$> sorted_by new_order_index (in_sections project_in).
Proof.
  intros Hrun.
  destruct (create_word_project_outcome gemini project_in user db n)
    as (r & db1 & n1 & Hrun1 & _ & Hr).
  rewrite Hrun in Hrun1. injection Hrun1 as <- <- <-.
  destruct Hr as (_ & _ & rows & -> & Hrows). exists rows. split; [done|].
  destruct (page_mode project_in).
  - destruct Hrows as [Hlen Hrows]. split.
    + apply list_eq. intros i. rewrite list_lookup_fmap, list_lookup_imap.
      destruct (page_items _ !! i) as [it|] eqn:Eit.
      * destruct (Hrows i it Eit) as (r & -> & _ & Ht & Ho & Hp & Hi & _). simpl.
        unfold coordinates. rewrite Ht, Ho, Hp, Hi, foldl_count, length_take.
        apply lookup_lt_Some in Eit. do 3 f_equal. lia.
      * apply lookup_ge_None in Eit. rewrite <- Hlen in Eit.
        apply lookup_ge_None in Eit. by rewrite Eit.
    + apply Forall_lookup. intros i r Hr.
      destruct (page_items (default [] (in_pages project_in)) !! i) as [it|] eqn:Eit.
      * destruct (Hrows i it Eit) as (r' & Hr' & _ & _ & _ & _ & Hi & _).
        rewrite Hr in Hr'. injection Hr' as <-. exists it.1.2. split; [done|].
        eapply page_items_index, list_elem_of_lookup_2, Eit.
      * apply lookup_ge_None in Eit. rewrite <- Hlen in Eit.
        apply lookup_ge_None in Eit. congruence.
  - destruct Hrows as [Hlen Hrows].
    apply list_eq. intros i. rewrite !list_lookup_fmap.
    destruct (sorted_by _ _ !! i) as [x|] eqn:Ex.
    + destruct (Hrows i x Ex) as (r & -> & _ & Ht & Ho & Hp & Hi & _). simpl.
      unfold coordinates. by rewrite Ht, Ho, Hp, Hi.
    + apply lookup_ge_None in Ex. rewrite <- Hlen in Ex.
      apply lookup_ge_None in Ex. by rewrite Ex.
Qed.

Lemma created_sections_coordinates_witness :
  ∃ project db' n',
    run_request (create_word_project fallback_gemini paged_request example_user)
      empty_db 0 = (inr project, db', n')
    ∧ coordinates <$> sections db'
      = [ (Some 1, Some 1, 1, "A"); (Some 1, Some 2, 2, "B");
          (Some 2, Some 1, 3, "C"); (Some 2, Some 2, 4, "D");
          (Some 2, Some 3, 5, "E") ]%Z.
Proof.
  destruct (run_request (create_word_project fallback_gemini paged_request example_user)
              empty_db 0) as [[[e|project] db'] n'] eqn:Hrun; [by vm_compute in Hrun|].
  exists project, db', n'. split; [done|].
  destruct (created_sections_coordinates _ _ _ _ _ _ _ _ Hrun) as (rows & -> & Hrows).
  change (page_mode paged_request) with true in Hrows. cbv iota in Hrows.
  change (sections empty_db ++ rows) with rows.
  destruct Hrows as [-> _]. reflexivity.
Defined.

(** X15: a created project can be fetched by its owner and by nobody else.
    After a successful creation, with a project id no stored project had,
    [get_word_project] returns the created project to the creating user and
    ends in 404 for any other user. *)
Theorem create_then_get gemini project_in user db n project db' n' :
  run_request (create_word_project gemini project_in user) db n = (inr project, db', n') →
  (∀ p, p ∈ projects db → proj_id p ≠ proj_id project) →
  run_request (get_word_project (proj_id project) user) db' n' = (inr project, db', n')
  ∧ ∀ other, user_id other ≠ user_id user →
      run_request (get_word_project (proj_id project) other) db' n'
      = (inl (HTTPException 404 "Project not found"), db', n').
Proof.
  intros Hrun Hfresh.
  destruct (create_word_project_outcome gemini project_in user db n)
    as (r & db1 & n1 & Hrun1 & _ & Hr).
  rewrite Hrun in Hrun1. injection Hrun1 as <- <- <-.
  destruct Hr as (_ & Hp & rows & -> & _).
  assert (Hown : owner_id project = user_id user) by (by rewrite Hp).
  assert (Hfind : ∀ u, List.find (λ p, (proj_id p =? proj_id project)%Z
                                      && (owner_id p =? u)%Z)
                         (projects db ++ [project])
                       = if (owner_id project =? u)%Z then Some project else None).
  { intros u. clear Hp. revert Hfresh. generalize (projects db).
    intros ps. induction ps as [|p ps IH]; intros Hfresh; simpl.
    - by rewrite Z.eqb_refl.
    - destruct (Z.eqb_spec (proj_id p) (proj_id project)) as [Heq|_].
      + exfalso. apply (Hfresh p); [by left|done].
      + simpl. apply IH. intros q Hq. apply Hfresh. by right. }
  unfold run_request, get_word_project, get_session, or_raise, mbind, M_bind, mret, M_ret,
    raise. simpl. split.
  - by rewrite Hfind, Hown, Z.eqb_refl.
  - intros other Hother. rewrite Hfind, Hown.
    destruct (Z.eqb_spec (user_id user) (user_id other)); [congruence | done].
Qed.

Lemma create_then_get_witness :
  ∃ project db' n',
    run_request (create_word_project fallback_gemini paged_request example_user)
      example_db 0 = (inr project, db', n')
    ∧ run_request (get_word_project 2 example_user) db' n' = (inr project, db', n')
    ∧ run_request (get_word_project 2 other_user) db' n'
      = (inl (HTTPException 404 "Project not found"), db', n').
Proof.
  destruct (run_request (create_word_project fallback_gemini paged_request example_user)
              example_db 0) as [[[e|project] db'] n'] eqn:Hrun; [by vm_compute in Hrun|].
  exists project, db', n'. split; [done|].
  assert (Hid : proj_id project = 2%Z).
  { vm_compute in Hrun. by injection Hrun as <- _ _. }
  destruct (create_then_get _ _ _ _ _ _ _ _ Hrun) as [Hget Hother].
  - intros p [->|[]%not_elem_of_nil]%elem_of_cons. by rewrite Hid.
  - rewrite Hid in Hget, Hother. split; [done|]. by apply Hother.
Defined.

(** ** Further properties of the section service *)

Lemma after_prefix_suffix p s r : after_prefix p s = Some r → r `suffix_of` s.
Proof.
  revert s. induction p as [|a p IH]; intros [|b s]; simpl; try done.
  - by intros [= <-].
  - by intros [= <-].
  - case_bool_decide; [|done]. intros Hr%IH. by apply suffix_cons_r.
Qed.

Lemma after_any_suffix ps s r : after_any ps s = Some r → r `suffix_of` s.
Proof.
  induction ps as [|p ps IH]; simpl; [done|].
  destruct (after_prefix p s) as [r'|] eqn:E; [|done].
  intros [= <-]. by eapply after_prefix_suffix.
Qed.

Lemma dropwhile_suffix_of {A} (p : A → bool) l : dropwhile p l `suffix_of` l.
Proof. destruct (dropwhile_suffix p l) as (w & H & _). by exists w. Qed.

Lemma after_digits_suffix s r : after_digits s = Some r → r `suffix_of` s.
Proof.
  unfold after_digits. destruct (takewhile is_digit s); [done|].
  intros [= <-]. apply dropwhile_suffix_of.
Qed.

Lemma bind_suffix (f : str → option str) (k : str → option str) (pre : str → str) s r :
  (∀ x y, f x = Some y → y `suffix_of` x) →
  (∀ x, pre x `suffix_of` x) →
  (∀ y, k y = Some r → r `suffix_of` y) →
  (f (pre s) ≫= k) = Some r → r `suffix_of` s.
Proof.
  intros Hf Hpre Hk. destruct (f (pre s)) as [y|] eqn:E; [|done]. simpl.
  intros Hr%Hk. etrans; [exact Hr|]. etrans; [by eapply Hf|]. apply Hpre.
Qed.

Lemma after_page_section_label_suffix s r :
  after_page_section_label s = Some r → r `suffix_of` s.
Proof.
  unfold after_page_section_label, skip_spaces.
  apply (bind_suffix (after_any ["Page"; "page"]) _ id);
    [apply after_any_suffix | done |]. intros s1.
  apply (bind_suffix after_digits _ (dropwhile is_space));
    [apply after_digits_suffix | apply dropwhile_suffix_of |]. intros s2.
  apply (bind_suffix (after_any ["-"; "–"]) _ (dropwhile is_space));
    [apply after_any_suffix | apply dropwhile_suffix_of |]. intros s3.
  apply (bind_suffix (after_any ["Section"; "section"]) _ (dropwhile is_space));
    [apply after_any_suffix | apply dropwhile_suffix_of |]. intros s4.
  apply (bind_suffix after_digits _ (dropwhile is_space));
    [apply after_digits_suffix | apply dropwhile_suffix_of |]. intros s5.
  intros [= <-]. etrans; apply dropwhile_suffix_of.
Qed.

Lemma after_section_label_suffix s r :
  after_section_label s = Some r → r `suffix_of` s.
Proof.
  unfold after_section_label, skip_spaces.
  apply (bind_suffix (after_any ["Section"; "section"]) _ id);
    [apply after_any_suffix | done |]. intros s1.
  apply (bind_suffix after_digits _ (dropwhile is_space));
    [apply after_digits_suffix | apply dropwhile_suffix_of |]. intros s2.
  apply (bind_suffix (after_any [":"; "-"]) _ (dropwhile is_space));
    [apply after_any_suffix | apply dropwhile_suffix_of |]. intros s3.
  intros [= <-]. apply dropwhile_suffix_of.
Qed.

Lemma sub_prefix_suffix pattern s :
  (∀ r, pattern s = Some r → r `suffix_of` s) → sub_prefix pattern s `suffix_of` s.
Proof. unfold sub_prefix. intros H. destruct (pattern s); simpl; [by apply H | done]. Qed.

Lemma split_once_rest sep s l r :
  split_once sep s = (l, Some r) → r `suffix_of` s.
Proof.
  revert l. induction s as [|c s IH]; intros l; simpl; [done|].
  case_bool_decide.
  - intros [= _ <-]. by apply suffix_cons_r.
  - destruct (split_once sep s) as [l' r'] eqn:E. intros [= _ ->].
    apply suffix_cons_r. by eapply IH.
Qed.

Lemma suffix_infix (r s : str) : r `suffix_of` s → infix_of r s.
Proof. intros [k ->]. exists k, []. by rewrite app_nil_r. Qed.

Lemma clean_generated_section_trimmed topic s s' :
  clean_generated_section topic s = Some s' → trimmed s s'.
Proof.
  unfold clean_generated_section, trimmed.
  destruct (py_or _ _) as [| | |c0| |]; try done.
  set (c1 := sub_prefix after_page_section_label c0).
  set (c2 := sub_prefix after_section_label c1).
  assert (H2 : c2 `suffix_of` c0).
  { etrans; [apply sub_prefix_suffix, after_section_label_suffix|].
    apply sub_prefix_suffix, after_page_section_label_suffix. }
  destruct (split_once NL c2) as [first_line rest] eqn:Esplit.
  intros [= <-]. eexists c0, _. split; [done|]. split; [done|].
  split; [apply strip_idemp|].
  eapply infix_trans; [apply strip_infix|].
  destruct (str_eqb _ _); [|by apply suffix_infix].
  destruct rest as [r|]; simpl.
  - apply suffix_infix. etrans; [|exact H2]. by eapply split_once_rest.
  - exists c0, []. by rewrite app_nil_r.
Qed.

Lemma sort_insert_Permutation {A} (key : A → json) x sorted r :
  sort_insert key x sorted = Some r → r ≡ₚ x :: sorted.
Proof.
  revert r. induction sorted as [|y l IH]; intros r; simpl.
  - by intros [= <-].
  - destruct (py_lt (key x) (key y)) as [[]|]; [| |done].
    + by intros [= <-].
    + destruct (sort_insert key x l) as [r'|]; [|done]. simpl. intros [= <-].
      rewrite (IH r' eq_refl). apply Permutation_swap.
Qed.

Lemma py_sort_by_Permutation {A} (key : A → json) l r :
  py_sort_by key l = Some r → r ≡ₚ l.
Proof.
  unfold py_sort_by.
  cut (∀ acc, foldl (λ acc x, acc ≫= λ sorted, sort_insert key x sorted) acc l = Some r →
              ∃ a, acc = Some a ∧ r ≡ₚ a ++ l).
  { intros H Hr. destruct (H _ Hr) as (a & [= <-] & Hp). done. }
  induction l as [|x l IH]; intros acc; simpl.
  - intros ->. exists r. by rewrite app_nil_r.
  - intros (a & Ha & Hp)%IH. destruct acc as [a0|]; [|done]. simpl in Ha.
    exists a0. split; [done|]. rewrite Hp, (sort_insert_Permutation _ _ _ _ Ha).
    simpl. apply Permutation_middle.
Qed.

Lemma mapM_as_dict items dicts :
  mapM as_dict items = Some dicts → items = JObj <$> dicts.
Proof.
  intros H%mapM_Some_1. induction H as [|v d l l' Hv _ IH]; [done|].
  destruct v; try done. injection Hv as <-. simpl. by rewrite IH.
Qed.

Lemma clean_generated_sections_trimmed topic data generated :
  clean_generated_sections topic data = Some generated →
  ∃ dicts sorted,
    data = JArr (JObj <$> dicts)
    ∧ py_sort_by order_key dicts = Some sorted
    ∧ Forall2 trimmed sorted generated.
Proof.
  unfold clean_generated_sections. destruct data as [| | | |items|]; try done.
  destruct (mapM as_dict items) as [dicts|] eqn:Ed; [|done]. simpl.
  destruct (py_sort_by _ dicts) as [sorted|] eqn:Es; [|done]. simpl.
  intros H%mapM_Some_1. exists dicts, sorted.
  split; [by rewrite (mapM_as_dict _ _ Ed)|]. split; [done|].
  eapply Forall2_impl; [exact H|]. intros s s'. apply clean_generated_section_trimmed.
Qed.

Lemma sort_insert_sorted {A} (key : A → json) (rank : A → Z) x sorted r :
  (∀ a b, a ∈ x :: sorted → b ∈ x :: sorted →
          py_lt (key a) (key b) = Some (rank a <? rank b)%Z) →
  StronglySorted (λ a b, (rank a ≤ rank b)%Z) sorted →
  sort_insert key x sorted = Some r →
  StronglySorted (λ a b, (rank a ≤ rank b)%Z) r.
Proof.
  intros Hlt Hsorted. revert r.
  induction Hsorted as [|y l Hl IH Hy]; intros r; simpl.
  - intros [= <-]. repeat constructor.
  - rewrite Hlt by (repeat constructor).
    destruct (Z.ltb_spec (rank x) (rank y)) as [Hxy|Hxy].
    + intros [= <-]. constructor; [by constructor|].
      constructor; [lia|]. eapply Forall_impl; [exact Hy|]. simpl. lia.
    + destruct (sort_insert key x l) as [r'|] eqn:Er; [|done]. simpl. intros [= <-].
      constructor.
      * apply IH; [|done]. intros a b Ha Hb. apply Hlt.
        -- apply elem_of_cons in Ha as [->|Ha]; [by left | by do 2 right].
        -- apply elem_of_cons in Hb as [->|Hb]; [by left | by do 2 right].
      * rewrite (sort_insert_Permutation _ _ _ _ Er). by constructor.
Qed.

Lemma py_sort_by_sorted {A} (key : A → json) (rank : A → Z) l r :
  (∀ a b, a ∈ l → b ∈ l → py_lt (key a) (key b) = Some (rank a <? rank b)%Z) →
  py_sort_by key l = Some r →
  StronglySorted (λ a b, (rank a ≤ rank b)%Z) r.
Proof.
  unfold py_sort_by. intros Hlt.
  cut (∀ acc,
         (∀ a b, a ∈ acc ++ l → b ∈ acc ++ l →
                 py_lt (key a) (key b) = Some (rank a <? rank b)%Z) →
         StronglySorted (λ a b, (rank a ≤ rank b)%Z) acc →
         foldl (λ acc x, acc ≫= λ sorted, sort_insert key x sorted) (Some acc) l = Some r →
         StronglySorted (λ a b, (rank a ≤ rank b)%Z) r).
  { intros H. apply (H []); [done | constructor]. }
  clear Hlt. induction l as [|x l IH]; intros acc Hlt Hacc; simpl.
  - by intros [= <-].
  - destruct (sort_insert key x acc) as [acc'|] eqn:Eacc.
    2:{ intros Hr. exfalso. clear -Hr. induction l; simpl in *; [done|]. auto. }
    apply IH.
    + intros a b Ha Hb. apply Hlt.
      * rewrite (sort_insert_Permutation _ _ _ _ Eacc) in Ha.
        rewrite <- Permutation_middle. done.
      * rewrite (sort_insert_Permutation _ _ _ _ Eacc) in Hb.
        rewrite <- Permutation_middle. done.
    + eapply sort_insert_sorted; [|done|done].
      intros a b Ha Hb. apply Hlt.
      * apply elem_of_cons in Ha as [->|Ha]; apply elem_of_app; [right; by left | by left].
      * apply elem_of_cons in Hb as [->|Hb]; apply elem_of_app; [right; by left | by left].
Qed.

Lemma sort_insert_stable {A} (key : A → json) (rank : A → Z) x sorted r k :
  (∀ a b, a ∈ x :: sorted → b ∈ x :: sorted →
          py_lt (key a) (key b) = Some (rank a <? rank b)%Z) →
  StronglySorted (λ a b, (rank a ≤ rank b)%Z) sorted →
  sort_insert key x sorted = Some r →
  List.filter (λ a, (rank a =? k)%Z) r
  = List.filter (λ a, (rank a =? k)%Z) sorted ++ List.filter (λ a, (rank a =? k)%Z) [x].
Proof.
  intros Hlt Hsorted. revert r.
  induction Hsorted as [|y l Hl IH Hy]; intros r.
  - by intros [= <-].
  - cbn [sort_insert]. rewrite Hlt by (repeat constructor).
    destruct (Z.ltb_spec (rank x) (rank y)) as [Hxy|Hxy].
    + intros [= <-]. cbn [List.filter].
      destruct (Z.eqb_spec (rank x) k) as [Hk|Hk]; [|by rewrite app_nil_r].
      assert (List.filter (λ a, (rank a =? k)%Z) l = []) as ->.
      { clear -Hy Hxy Hk. induction Hy as [|z l Hz _ IHl]; [done|]. simpl.
        destruct (Z.eqb_spec (rank z) k); [lia | done]. }
      destruct (Z.eqb_spec (rank y) k); [lia | done].
    + destruct (sort_insert key x l) as [r'|] eqn:Er; [|done]. simpl. intros [= <-].
      cbn [List.filter]. rewrite (IH (λ a b Ha Hb, Hlt a b
        ltac:(apply elem_of_cons in Ha as [->|Ha]; [by left | by do 2 right])
        ltac:(apply elem_of_cons in Hb as [->|Hb]; [by left | by do 2 right])) r' eq_refl).
      by destruct (rank y =? k)%Z.
Qed.

Lemma py_sort_by_stable {A} (key : A → json) (rank : A → Z) l r k :
  (∀ a b, a ∈ l → b ∈ l → py_lt (key a) (key b) = Some (rank a <? rank b)%Z) →
  py_sort_by key l = Some r →
  List.filter (λ a, (rank a =? k)%Z) r = List.filter (λ a, (rank a =? k)%Z) l.
Proof.
  unfold py_sort_by. intros Hlt.
  cut (∀ acc,
         (∀ a b, a ∈ acc ++ l → b ∈ acc ++ l →
                 py_lt (key a) (key b) = Some (rank a <? rank b)%Z) →
         StronglySorted (λ a b, (rank a ≤ rank b)%Z) acc →
         foldl (λ acc x, acc ≫= λ sorted, sort_insert key x sorted) (Some acc) l = Some r →
         List.filter (λ a, (rank a =? k)%Z) r
         = List.filter (λ a, (rank a =? k)%Z) acc ++ List.filter (λ a, (rank a =? k)%Z) l).
  { intros H. apply (H []); [done | constructor]. }
  clear Hlt. induction l as [|x l IH]; intros acc Hlt Hacc; simpl.
  - intros [= <-]. by rewrite app_nil_r.
  - destruct (sort_insert key x acc) as [acc'|] eqn:Eacc.
    2:{ intros Hr. exfalso. clear -Hr. induction l; simpl in *; [done|]. auto. }
    assert (Hlt' : ∀ a b, a ∈ x :: acc → b ∈ x :: acc →
                          py_lt (key a) (key b) = Some (rank a <? rank b)%Z).
    { intros a b Ha Hb. apply Hlt.
      - apply elem_of_cons in Ha as [->|Ha]; apply elem_of_app; [right; by left | by left].
      - apply elem_of_cons in Hb as [->|Hb]; apply elem_of_app; [right; by left | by left]. }
    intros Hr. rewrite (IH acc'); [| |by eapply sort_insert_sorted|done].
    + rewrite (sort_insert_stable key rank x acc acc' k Hlt' Hacc Eacc).
      rewrite <- app_assoc. simpl. by destruct (rank x =? k)%Z.
    + intros a b Ha Hb. apply Hlt.
      * rewrite (sort_insert_Permutation _ _ _ _ Eacc) in Ha.
        rewrite <- Permutation_middle. done.
      * rewrite (sort_insert_Permutation _ _ _ _ Eacc) in Hb.
        rewrite <- Permutation_middle. done.
Qed.

Lemma mapM_as_dict_objects dicts : mapM as_dict (JObj <$> dicts) = Some dicts.
Proof. apply mapM_Some_2. induction dicts; by constructor. Qed.

Lemma clean_generated_section_text topic s :
  text_content s → ∃ s', clean_generated_section topic s = Some s'.
Proof.
  intros [c Hc]. unfold clean_generated_section. rewrite Hc.
  destruct (split_once NL _). by eexists.
Qed.

(** X16: the cleanup of the generated sections sorts and trims, and nothing
    else.  When the response is an array of objects whose order index is an
    integer or missing and whose content is text, missing or empty, the
    section service returns after one call with the store unchanged.  Its
    result is the response sorted by ascending order index, elements of
    equal order index in the order of the response, and an element of the
    result differs from the element it comes from only in its content, which
    is a stripped part of the generated content. *)
Theorem generated_sections_trimmed gemini topic headings db n text dicts :
  gemini n = Responds text (Some (JArr (JObj <$> dicts))) →
  Forall integer_order dicts →
  Forall text_content dicts →
  ∃ sorted generated,
    run_request (generate_word_sections_with_gemini gemini topic headings) db n
    = (inr generated, db, S n)
    ∧ sorted ≡ₚ dicts
    ∧ StronglySorted (λ a b, (order_of_section a ≤ order_of_section b)%Z) sorted
    ∧ (∀ k, with_order k sorted = with_order k dicts)
    ∧ Forall2 (λ s s', trimmed s s'
                       ∧ ∀ key, key ≠ "content" → dict_get s' key = dict_get s key)
        sorted generated.
Proof.
  intros Hg Hints Htext.
  assert (Hlt : ∀ a b, a ∈ dicts → b ∈ dicts →
                       py_lt (order_key a) (order_key b)
                       = Some (order_of_section a <? order_of_section b)%Z).
  { intros a b Ha Hb.
    destruct (proj1 (Forall_forall _ _) Hints a Ha) as [i Hi].
    destruct (proj1 (Forall_forall _ _) Hints b Hb) as [j Hj].
    unfold order_of_section. by rewrite Hi, Hj. }
  destruct (py_sort_by_ints order_key dicts Hints) as (sorted & Hsort & Hperm).
  assert (Hclean : ∃ generated, mapM (clean_generated_section topic) sorted = Some generated).
  { assert (Hall : Forall text_content sorted) by (by rewrite Hperm).
    clear -Hall. induction Hall as [|s l Hs _ [g Hg]]; [by exists []|].
    destruct (clean_generated_section_text topic s Hs) as [s' Hs'].
    exists (s' :: g). apply mapM_Some_2. constructor; [done|]. by apply mapM_Some_1. }
  destruct Hclean as [generated Hclean].
  exists sorted, generated. split.
  { unfold run_request. rewrite generate_word_sections_run. simpl. rewrite Hg.
    unfold clean_generated_sections. rewrite mapM_as_dict_objects. simpl.
    fold order_key. change (λ s : pydict, order_key s) with order_key.
    rewrite Hsort. simpl. by rewrite Hclean. }
  split; [done|].
  split; [by eapply py_sort_by_sorted|].
  split; [intros k; by eapply py_sort_by_stable|].
  apply mapM_Some_1 in Hclean.
  eapply Forall2_impl; [exact Hclean|]. intros s s' Hs.
  pose proof (clean_generated_section_trimmed topic s s' Hs) as Ht. split; [done|].
  destruct Ht as (c0 & c & _ & -> & _). intros key Hkey. by apply dict_get_set_ne.
Qed.

Lemma generated_sections_trimmed_witness :
  ∃ generated,
    run_request (generate_word_sections_with_gemini unordered_gemini "Electric vehicles"
                   ["A"; "B"]) empty_db 0 = (inr generated, empty_db, 1)
    ∧ (λ s, dict_get s "content") <$> generated
      = [Some (JStr "first"); Some (JStr "second")].
Proof.
  destruct (generated_sections_trimmed unordered_gemini "Electric vehicles" ["A"; "B"]
              empty_db 0 ""
              [ [("heading", JStr "B"); ("order_index", JInt 2);
                 ("content", JStr "Section 2: second")];
                [("heading", JStr "A"); ("order_index", JInt 1);
                 ("content", JStr "first")] ])
    as (sorted & generated & Hrun & _).
  - reflexivity.
  - repeat constructor; by eexists.
  - repeat constructor; by eexists.
  - exists generated. split; [exact Hrun|].
    vm_compute in Hrun. by injection Hrun as <-.
Defined.

(** X17: a malformed response fails the whole batch.  When the decoded
    response is not an array, or has an element that is not an object or
    whose content is neither text nor empty, the section service ends in its
    generation error after the one call, and the store is unchanged. *)
Theorem malformed_batch_rejected gemini topic headings db n text data :
  gemini n = Responds text (Some data) →
  malformed data →
  run_request (generate_word_sections_with_gemini gemini topic headings) db n
  = (inl (RuntimeError "Gemini Word content generation failed"), db, S n).
Proof.
  intros Hg Hbad. unfold run_request. rewrite generate_word_sections_run. simpl.
  rewrite Hg.
  destruct (clean_generated_sections topic data) as [generated|] eqn:Hclean; [|done].
  exfalso.
  apply clean_generated_sections_trimmed in Hclean as (dicts & sorted & -> & Hs & Ht).
  simpl in Hbad. apply Exists_exists in Hbad as (v & Hv & Hbad).
  apply list_elem_of_fmap in Hv as (s & -> & Hs'). simpl in Hbad.
  apply py_sort_by_Permutation in Hs. rewrite <- Hs in Hs'.
  apply list_elem_of_lookup in Hs' as [i Hi].
  destruct (Forall2_lookup_l _ _ _ _ _ Ht Hi) as (s' & _ & (c0 & c & Hc & _)).
  by rewrite Hc in Hbad.
Qed.

Lemma malformed_batch_rejected_witness :
  run_request (generate_word_sections_with_gemini object_gemini "Electric vehicles"
                 ["A"; "B"]) empty_db 0
  = (inl (RuntimeError "Gemini Word content generation failed"), empty_db, 1).
Proof.
  apply (malformed_batch_rejected object_gemini "Electric vehicles" ["A"; "B"] empty_db 0
           "{}" (JObj [])); [reflexivity | exact I].
Defined.

(** X18: the generated sections come back in the order of their order
    index.  A response whose elements are objects with a string for a
    heading, an integer for an order index and text for content is accepted,
    and the result has as many elements, sorted by order index, whatever the
    order of the response. *)
Theorem generated_sections_sorted topic items :
  Forall well_formed_section items →
  ∃ generated,
    clean_generated_sections topic (JArr items) = Some generated
    ∧ length generated = length items
    ∧ StronglySorted (λ a b, (order_of_section a ≤ order_of_section b)%Z) generated.
Proof.
  intros Hitems.
  destruct (well_formed_response_accepted topic items Hitems)
    as (generated & _ & Hclean & _ & Hlen).
  exists generated. split; [done|]. split; [done|].
  apply clean_generated_sections_trimmed in Hclean as (dicts & sorted & [= Hdicts] & Hs & Ht).
  assert (Hints : ∀ s, s ∈ dicts → order_key s = JInt (order_of_section s)).
  { intros s Hin. subst items. rewrite Forall_fmap in Hitems.
    eapply Forall_forall in Hitems as (fields & [= <-] & _ & [i Hi] & _); [|done].
    unfold order_of_section, order_key. by rewrite Hi. }
  assert (Hsorted : StronglySorted (λ a b, (order_of_section a ≤ order_of_section b)%Z)
                      sorted).
  { eapply py_sort_by_sorted; [|exact Hs]. intros a b Ha Hb.
    by rewrite (Hints a Ha), (Hints b Hb). }
  assert (Hkeep : Forall2 (λ s s', order_of_section s' = order_of_section s)
                    sorted generated).
  { eapply Forall2_impl; [exact Ht|]. intros s s' (c0 & c & _ & -> & _).
    unfold order_of_section, order_key, dict_get_or. by rewrite dict_get_set_ne. }
  clear -Hsorted Hkeep. revert generated Hkeep.
  induction Hsorted as [|s l Hl IH Hs]; intros generated Hkeep.
  - apply Forall2_nil_inv_l in Hkeep as ->. constructor.
  - apply Forall2_cons_inv_l in Hkeep as (s' & g & Hs' & Hg & ->).
    constructor; [by apply IH|]. rewrite Hs'.
    clear -Hs Hg. induction Hg as [|a a' l g Ha _ IHg]; [constructor|].
    apply Forall_cons in Hs as [H1 H2]. constructor; [by rewrite Ha | by apply IHg].
Qed.

Lemma generated_sections_sorted_witness :
  ∃ generated,
    clean_generated_sections "Electric vehicles" (JArr unordered_elements) = Some generated
    ∧ order_of_section <$> generated = [1; 2]%Z.
Proof.
  destruct (generated_sections_sorted "Electric vehicles" unordered_elements)
    as (generated & Hclean & _).
  - repeat constructor; eexists; (split; [reflexivity|]);
      (split; [by eexists|]); split; by eexists.
  - exists generated. split; [done|]. vm_compute in Hclean. by injection Hclean as <-.
Defined.

(** ** Further properties of the slide service *)

Lemma normalize_slide_title fields s :
  s ∈ normalize_slide [] (JObj fields) →
  dict_get s "title" = Some (dict_get_or fields "title" (JStr "")).
Proof.
  unfold normalize_slide.
  repeat (match goal with
          | |- context [if ?b then _ else _] => destruct b
          | |- context [match ?x with JNull => _ | _ => _ end] => destruct x
          end; try by intros ?%not_elem_of_nil);
    by intros ->%list_elem_of_singleton.
Qed.

Lemma text_title_no_raise s t :
  dict_get s "title" = Some (JStr t) → caption_repair_raises s = false.
Proof.
  intros Ht. unfold caption_repair_raises, dict_get_or. rewrite Ht. simpl.
  unfold py_or. simpl. destruct (nonempty t); simpl; apply andb_false_r.
Qed.

Lemma counted_slides_text num_slides data :
  Forall text_title data →
  Forall (λ s, ∃ t, dict_get s "title" = Some (JStr t)) (counted_slides num_slides data).
Proof.
  intros Hdata. unfold counted_slides.
  assert (Hkept : Forall (λ s, ∃ t, dict_get s "title" = Some (JStr t))
                    (foldl normalize_slide [] data)).
  { rewrite normalize_slides_loop. simpl. apply Forall_concat, Forall_fmap.
    eapply Forall_impl; [exact Hdata|]. intros v Hv. apply Forall_forall. intros s Hs.
    destruct v; try by apply not_elem_of_nil in Hs.
    destruct Hv as [t Ht]. exists t. rewrite <- Ht. by apply normalize_slide_title. }
  unfold ensure_count, py_slice_to.
  repeat match goal with |- context [if ?b then _ else _] => destruct b end;
    try done; try by apply Forall_take.
  apply Forall_app. split; [done|]. apply Forall_fmap, Forall_forall.
  intros i _. by eexists.
Qed.

(** A response whose titles are text is normalized without error, slide by
    slide. *)
Lemma normalize_slides_text topic num_slides data :
  Forall text_title data →
  ∃ slides,
    normalize_slides topic num_slides (JArr data) = Some slides
    ∧ length slides = length (counted_slides num_slides data)
    ∧ ∀ i s, counted_slides num_slides data !! i = Some s →
        ∃ s', slides !! i = Some s' ∧ ensure_image_fields topic i s = Some s'.
Proof.
  intros Hdata. unfold normalize_slides. fold (counted_slides num_slides data).
  destruct (for_enumerate (ensure_image_fields topic) 0 (counted_slides num_slides data))
    as [slides|] eqn:E.
  - exists slides. destruct (for_enumerate_Some _ _ _ _ E) as [Hlen Hl]. by repeat split.
  - exfalso. apply for_enumerate_None in E as (i & s & Hs & Hf).
    apply ensure_image_fields_raises in Hf.
    pose proof (counted_slides_text num_slides data Hdata) as Hall.
    eapply Forall_forall in Hall as [t Ht]; [|by eapply list_elem_of_lookup_2].
    by rewrite (text_title_no_raise s t Ht) in Hf.
Qed.

Lemma ensure_image_fields_frame topic idx s s' :
  ensure_image_fields topic idx s = Some s' →
  (is_image_slide s = false → s' = s)
  ∧ ∀ k, k ≠ "caption" → k ≠ "image_url" → dict_get s' k = dict_get s k.
Proof.
  unfold ensure_image_fields, is_image_slide. simpl SlideLayout.value. rewrite orb_diag.
  destruct (eq_str (dict_get_or s "layout" JNull) "image").
  2:{ intros [= <-]. by split. }
  intros Hs'. split; [done|]. intros k Hc Hu. revert Hs'.
  destruct (_ || _).
  - destruct (py_take 120 _); [|done]. simpl. intros [= <-].
    by rewrite !dict_get_set_ne.
  - simpl. intros [= <-]. by rewrite dict_get_set_ne.
Qed.

(** X19: a response whose titles are text always gives a deck of exactly
    the requested size.  For a count of at least 0 the service returns that
    many slides after one call, the store unchanged; every slide has one of
    the four layouts; the slides mapped from the response come first, with
    their titles and layouts, and the positions the response did not fill
    hold the placeholders "Slide i". *)
Theorem slide_deck_exact_count gemini topic num_slides db n text data :
  gemini n = Responds text (Some (JArr data)) →
  (0 ≤ num_slides)%Z →
  Forall text_title data →
  ∃ slides,
    run_request (generate_content_with_gemini gemini topic num_slides) db n
    = (inr slides, db, S n)
    ∧ length slides = Z.to_nat num_slides
    ∧ Forall has_layout slides
    ∧ (∀ i s, foldl normalize_slide [] data !! i = Some s → (Z.of_nat i < num_slides)%Z →
         ∃ s', slides !! i = Some s'
               ∧ dict_get s' "layout" = dict_get s "layout"
               ∧ dict_get s' "title" = dict_get s "title")
    ∧ (∀ i, length (foldl normalize_slide [] data) ≤ i → (Z.of_nat i < num_slides)%Z →
         slides !! i = Some (placeholder_slide (Z.of_nat i))).
Proof.
  intros Hg HN Hdata.
  destruct (normalize_slides_text topic num_slides data Hdata) as (slides & Hrun & Hlen & Hl).
  exists slides. split.
  { by rewrite (generate_content_with_gemini_run gemini topic num_slides db n text
                  (JArr data) Hg), Hrun. }
  unfold counted_slides in *. set (kept := foldl normalize_slide [] data) in *.
  assert (Hkept : Forall has_layout kept).
  { subst kept. rewrite normalize_slides_loop. simpl. apply Forall_concat, Forall_fmap.
    apply Forall_forall. intros x _. apply Forall_forall. apply normalize_slide_layout. }
  split; [by rewrite Hlen, ensure_count_length|]. split; [|split].
  - apply Forall_forall. intros s' [i Hi]%list_elem_of_lookup.
    destruct (lookup_lt_is_Some_2 (ensure_count num_slides kept) i) as [s Hs].
    { rewrite <- Hlen. by eapply lookup_lt_Some. }
    destruct (Hl i s Hs) as (s'' & Hs'' & Hf). simplify_eq.
    pose proof (ensure_count_layout num_slides kept Hkept) as Hall.
    eapply Forall_forall in Hall; [|by eapply list_elem_of_lookup_2].
    destruct Hall as [l Hlay]. exists l.
    by rewrite (ensure_image_fields_layout _ _ _ _ Hf).
  - intros i s Hs Hi. destruct (Hl i s) as (s' & Hs' & Hf).
    { rewrite ensure_count_kept; [done..|]. by eapply lookup_lt_Some. }
    exists s'. split; [done|].
    apply ensure_image_fields_frame in Hf as [_ Hf]. by rewrite !Hf.
  - intros i Hlen' Hi.
    destruct (Hl i (placeholder_slide (Z.of_nat i))) as (s' & -> & Hf).
    { by apply ensure_count_padded. }
    simpl in Hf. by injection Hf as <-.
Qed.

Lemma slide_deck_exact_count_witness :
  ∃ slides,
    run_request (generate_content_with_gemini (replying (JArr generic_deck)) "AI" 4)
      empty_db 0 = (inr slides, empty_db, 1)
    ∧ length slides = 4
    ∧ slides !! 3 = Some (placeholder_slide 3).
Proof.
  destruct (slide_deck_exact_count (replying (JArr generic_deck)) "AI" 4 empty_db 0 ""
              generic_deck) as (slides & Hrun & Hlen & _ & _ & Hpad).
  - reflexivity.
  - lia.
  - repeat constructor; by eexists.
  - exists slides. split; [exact Hrun|]. split; [exact Hlen|].
    apply (Hpad 3); [vm_compute; lia | lia].
Defined.



(** X21: the three services make exactly one collaborator call, leave the
    store alone, and turn every failure into their own error: the slide
    service into "Gemini content generation failed", the section service
    into "Gemini Word content generation failed", and the refinement, which
    fails only when the call itself fails, into "Gemini Word refinement
    failed". *)
Theorem services_wrap_errors gemini topic num_slides headings heading current instruction
    db n :
  (∃ r, run_request (generate_content_with_gemini gemini topic num_slides) db n
        = (r, db, S n)
        ∧ ∀ e, r = inl e → e = RuntimeError "Gemini content generation failed")
  ∧ (∃ r, run_request (generate_word_sections_with_gemini gemini topic headings) db n
          = (r, db, S n)
          ∧ ∀ e, r = inl e → e = RuntimeError "Gemini Word content generation failed")
  ∧ (∃ r, run_request (refine_word_section_with_gemini gemini topic heading current
                         instruction) db n = (r, db, S n)
          ∧ ∀ e, r = inl e
                 → e = RuntimeError "Gemini Word refinement failed" ∧ gemini n = Fails).
Proof.
  split; [|split].
  - unfold run_request, generate_content_with_gemini, reraise_as, generate_content,
      or_raise, mbind, M_bind, mret, M_ret, raise. simpl.
    destruct (gemini n) as [|text [data|]]; simpl.
    + eexists. split; [done|]. by intros e [= <-].
    + destruct (normalize_slides topic num_slides data); simpl;
        (eexists; split; [done|]); [done | by intros e [= <-]].
    + eexists. split; [done|]. by intros e [= <-].
  - unfold run_request. rewrite generate_word_sections_run. simpl.
    eexists. split; [done|].
    destruct (gemini n) as [|text [data|]]; try by intros e [= <-].
    destruct (clean_generated_sections topic data); [done | by intros e [= <-]].
  - unfold run_request, refine_word_section_with_gemini, reraise_as, generate_content,
      mbind, M_bind, mret, M_ret. simpl.
    destruct (gemini n) as [|text d]; simpl; (eexists; split; [done|]);
      [by intros e [= <-] | done].
Qed.

Lemma generic_element_slide fields :
  dict_has fields "layout" = false →
  ∃ s, normalize_slide [] (JObj fields) = [s] ∧ Forall trimmed_text (bullets_of s).
Proof.
  intros Hno. unfold normalize_slide. rewrite Hno.
  destruct (dict_get_or fields "content" JNull) as [| | | |content|];
    try (destruct (py_truthy _); eexists; (split; [done|]); by constructor).
  eexists. split; [done|]. unfold bullets_of. simpl.
  apply Forall_fmap, Forall_fmap, Forall_forall.
  intros b [_ Hb]%list_elem_of_In%filter_In. simpl. eexists. split; [done|]. split.
  - by destruct (strip (py_str b)).
  - apply strip_idemp.
Qed.

(** X22: in the generic format nothing is lost.  When every element of the
    response is an object without a "layout" key, each of them becomes
    exactly one slide, in order, with the title of the element and one of
    the four layouts; and the bullets of a slide are non-empty strings
    without surrounding whitespace. *)
Theorem generic_elements_mapped data :
  Forall generic_element data →
  Forall2 (λ v s, ∃ fields, v = JObj fields
                            ∧ dict_get s "title" = Some (dict_get_or fields "title" (JStr ""))
                            ∧ has_layout s
                            ∧ Forall trimmed_text (bullets_of s))
    data (foldl normalize_slide [] data).
Proof.
  intros Hdata. rewrite normalize_slides_loop. simpl.
  induction Hdata as [|v data (fields & -> & Hno) _ IH]; [constructor|].
  rewrite fmap_cons. cbn [concat].
  destruct (generic_element_slide fields Hno) as (s & Hs & Hb). rewrite Hs.
  constructor; [|exact IH]. exists fields. split; [done|].
  assert (Hin : s ∈ normalize_slide [] (JObj fields)) by (rewrite Hs; by left).
  split; [by apply normalize_slide_title|]. split; [|done].
  by eapply normalize_slide_layout.
Qed.

Lemma generic_elements_mapped_witness :
  length (foldl normalize_slide [] generic_deck) = 3
  ∧ (bullets_of <$> foldl normalize_slide [] generic_deck)
    = [[JStr "Market"; JStr "3"]; []; []].
Proof.
  assert (H : Forall generic_element generic_deck)
    by (repeat constructor; by eexists).
  apply generic_elements_mapped, Forall2_length in H.
  split; [by rewrite <- H|]. reflexivity.
Defined.

(** X23: the pass over the image slides touches nothing else.  In the deck
    the service returns, a slide that is not an image slide is the slide
    the mapping and the count repair produced, and an image slide differs
    from it in its caption and its image URL only. *)
Theorem image_pass_frame topic num_slides data slides :
  normalize_slides topic num_slides (JArr data) = Some slides →
  Forall2 (λ s s', (is_image_slide s = false → s' = s)
                   ∧ ∀ k, k ≠ "caption" → k ≠ "image_url" → dict_get s' k = dict_get s k)
    (counted_slides num_slides data) slides.
Proof.
  unfold normalize_slides. fold (counted_slides num_slides data).
  intros [Hlen Hl]%for_enumerate_Some.
  apply Forall2_same_length_lookup. split; [done|].
  intros i s s' Hs Hs'. destruct (Hl i s Hs) as (s'' & Hs'' & Hf). simplify_eq.
  by apply ensure_image_fields_frame in Hf.
Qed.

Lemma image_pass_frame_witness :
  ∃ slides,
    normalize_slides "AI" 3 (JArr generic_deck) = Some slides
    ∧ Forall2 (λ s s', dict_get s' "title" = dict_get s "title")
        (counted_slides 3 generic_deck) slides.
Proof.
  eexists. split; [reflexivity|].
  eapply Forall2_impl; [apply (image_pass_frame "AI" 3 generic_deck); reflexivity|].
  intros s s' [_ H]. by apply H.
Defined.

Lemma uint_digits d :
  Forall (λ c, is_digit c = true) (list_ascii_of_string (NilEmpty.string_of_uint d)).
Proof. induction d; simpl; by constructor. Qed.

Lemma str_of_Z_digits n : (0 ≤ n)%Z → Forall (λ c, is_digit c = true) (str_of_Z n).
Proof.
  intros Hn. unfold str_of_Z. destruct n as [|p|p]; [by repeat constructor| |lia].
  simpl. destruct (Pos.to_uint p) eqn:E; try apply uint_digits. by repeat constructor.
Qed.

Lemma str_of_Z_inj n m : str_of_Z n = str_of_Z m → n = m.
Proof.
  unfold str_of_Z. intros H. apply (f_equal string_of_list_ascii) in H.
  rewrite !string_of_list_ascii_of_string in H.
  apply (f_equal NilZero.int_of_string) in H.
  assert (Hnil : ∀ z, Z.to_int z ≠ Decimal.Pos Decimal.Nil
                      ∧ Z.to_int z ≠ Decimal.Neg Decimal.Nil).
  { intros [|p|p]; simpl; split; try done; intros [= Hp];
      by apply DecimalPos.Unsigned.to_uint_nonnil in Hp. }
  rewrite !NilZero.isi in H by apply Hnil.
  injection H as H. by apply DecimalZ.to_int_inj.
Qed.

Lemma filter_all {A} (p : A → bool) l : Forall (λ x, p x = true) l → List.filter p l = l.
Proof. induction 1 as [|x l Hx _ IH]; simpl; [done|]. by rewrite Hx, IH. Qed.

Lemma image_url_inj topic i j : image_url topic i = image_url topic j → i = j.
Proof.
  unfold image_url. intros H. apply app_inv_head, app_inv_tail in H.
  rewrite !image_seed_filter, !List.filter_app in H. do 2 apply app_inv_head in H.
  assert (Hf : ∀ k, List.filter is_alnum (str_of_Z (Z.of_nat k)) = str_of_Z (Z.of_nat k)).
  { intros k. apply filter_all. eapply Forall_impl; [apply str_of_Z_digits; lia|].
    intros c Hc. unfold is_alnum. by rewrite Hc, orb_true_r. }
  rewrite !Hf in H. apply str_of_Z_inj in H. lia.
Qed.

(** X24: two slides of a deck never share a placeholder image.  For the
    same topic, whatever it is, the image URLs of two different slide
    indices are different. *)
Theorem image_url_distinct topic i j : i ≠ j → image_url topic i ≠ image_url topic j.
Proof. intros Hne H. by apply Hne, (image_url_inj topic). Qed.

Lemma image_url_distinct_witness :
  image_url "AI trends!" 0 ≠ image_url "AI trends!" 10.
Proof. apply (image_url_distinct "AI trends!" 0 10). lia. Defined.

(** ** Creating a document and exporting it *)

Lemma insert_sorted_last {A} (ltb : A → A → bool) x acc :
  Forall (λ y, ltb x y = false) acc → insert_sorted ltb x acc = acc ++ [x].
Proof. induction 1 as [|y acc Hy _ IH]; simpl; [done|]. by rewrite Hy, IH. Qed.

(** Sorting a list that is in order returns it. *)
Lemma sorted_with_sorted {A} (ltb : A → A → bool) l :
  StronglySorted (λ a b, ltb b a = false) l → sorted_with ltb l = l.
Proof.
  unfold sorted_with.
  cut (∀ acc, Forall (λ x, Forall (λ y, ltb x y = false) acc) l →
              StronglySorted (λ a b, ltb b a = false) l →
              foldl (λ acc x, insert_sorted ltb x acc) acc l = acc ++ l).
  { intros H Hl. apply (H [] ); [|done]. apply Forall_forall. by intros. }
  induction l as [|x l IH]; intros acc Hacc Hl; simpl.
  - by rewrite app_nil_r.
  - apply Forall_cons in Hacc as [Hx Hacc]. apply StronglySorted_inv in Hl as [Hl Hxl].
    rewrite insert_sorted_last by done. rewrite IH; [by rewrite <- app_assoc| |done].
    apply Forall_forall. intros z Hz. apply Forall_app. split.
    + eapply Forall_forall in Hacc; done.
    + constructor; [|done]. eapply Forall_forall in Hxl; done.
Qed.

Lemma insert_sorted_by_sorted {A} (key : A → Z) x sorted :
  StronglySorted (λ a b, (key a ≤ key b)%Z) sorted →
  StronglySorted (λ a b, (key a ≤ key b)%Z) (insert_sorted (λ x y, (key x <? key y)%Z) x sorted).
Proof.
  induction 1 as [|y l Hl IH Hy]; simpl; [repeat constructor|].
  destruct (Z.ltb_spec (key x) (key y)).
  - constructor; [by constructor|]. constructor; [lia|].
    eapply Forall_impl; [exact Hy|]. simpl. lia.
  - constructor; [done|]. rewrite insert_sorted_Permutation. by constructor.
Qed.

Lemma sorted_by_sorted {A} (key : A → Z) l :
  StronglySorted (λ a b, (key a ≤ key b)%Z) (sorted_by key l).
Proof.
  unfold sorted_by, sorted_with.
  cut (∀ acc, StronglySorted (λ a b, (key a ≤ key b)%Z) acc →
              StronglySorted (λ a b, (key a ≤ key b)%Z)
                (foldl (λ acc x, insert_sorted (λ x y, (key x <? key y)%Z) x acc) acc l)).
  { intros H. apply H. constructor. }
  induction l as [|x l IH]; intros acc Hacc; simpl; [done|].
  by apply IH, insert_sorted_by_sorted.
Qed.

Lemma StronglySorted_Forall2 {A B} (P : A → B → Prop) (R : A → A → Prop)
    (R' : B → B → Prop) xs rows :
  (∀ x x' r r', P x r → P x' r' → R x x' → R' r r') →
  Forall2 P xs rows → StronglySorted R xs → StronglySorted R' rows.
Proof.
  intros HR. induction 1 as [|x r xs rows Hxr Hrest IH]; intros Hs; [constructor|].
  apply StronglySorted_inv in Hs as [Hs Hx]. constructor; [by apply IH|].
  clear IH Hs. induction Hrest as [|x' r' xs rows Hxr' _ IH]; [constructor|].
  apply Forall_cons in Hx as [Hx Hxs]. constructor; [by eapply HR | by apply IH].
Qed.

Lemma singleton_keys (l : list Z) a :
  NoDup l → (∀ k, k ∈ l ↔ k = a) → l = [a].
Proof.
  intros Hnd Hl. destruct l as [|x l].
  - exfalso. apply (not_elem_of_nil a). by apply Hl.
  - assert (x = a) as -> by (apply Hl; by left).
    destruct l as [|y l]; [done|]. exfalso.
    assert (y = a) as -> by (apply Hl; right; by left).
    apply NoDup_cons in Hnd as [Hnd _]. apply Hnd. by left.
Qed.

(** The pages of sections that all belong on page 1. *)
Lemma sections_in_order_one_page rows :
  Forall (λ s, export_page s = 1%Z) rows →
  sections_in_order (pages_of rows) = export_entry <$> rows.
Proof.
  intros Hrows. unfold sections_in_order.
  assert (Hfilter : List.filter (λ s, bool_decide (export_page s = 1%Z)) rows = rows).
  { apply forallb_filter_id, forallb_forall. intros s Hs%list_elem_of_In.
    apply bool_decide_eq_true. eapply Forall_forall in Hrows; done. }
  destruct rows as [|r rows].
  - done.
  - rewrite (singleton_keys (sorted_keys (pages_of (r :: rows))) 1).
    + simpl. by rewrite app_nil_r, pages_of_lookup, Hfilter.
    + apply sorted_keys_NoDup.
    + intros k. rewrite sorted_keys_elem, pages_of_dom. split.
      * intros (s & Hs & <-). eapply Forall_forall in Hrows; done.
      * intros ->. exists r. split; [by left|]. by apply Forall_cons in Hrows as [? _].
Qed.

(** X25: a document created in flat mode exports with its sections in the
    requested order.  After a successful creation without pages, for a
    project id nothing in the store used, the export succeeds without
    changing anything; the document starts with the title of the request,
    and its section headings are the requested titles in ascending order
    index, without the empty ones. *)
Theorem create_then_export_flat gemini project_in user db n project db' n' :
  run_request (create_word_project gemini project_in user) db n = (inr project, db', n') →
  page_mode project_in = false →
  (∀ p, p ∈ projects db → proj_id p ≠ proj_id project) →
  (∀ s, s ∈ sections db → project_id s ≠ proj_id project) →
  ∃ doc,
    run_request (export_docx (proj_id project)) db' n' = (inr doc, db', n')
    ∧ head (blocks doc) = Some (Heading (in_title project_in) 0 None)
    ∧ outline (blocks doc)
      = List.filter nonempty
          (new_title <$> sorted_by new_order_index (in_sections project_in)).
Proof.
  intros Hrun Hmode Hfresh Hfresh_s.
  destruct (create_word_project_outcome gemini project_in user db n)
    as (r & db1 & n1 & Hrun1 & _ & Hr).
  rewrite Hrun in Hrun1. injection Hrun1 as <- <- <-.
  destruct Hr as (Hdoc & Hp & rows & -> & Hrows). rewrite Hmode in Hrows.
  destruct Hrows as [Hlen Hrows].
  set (xs := sorted_by new_order_index (in_sections project_in)) in *.
  assert (Hrel : Forall2 (λ x r, sec_title r = new_title x
                                 ∧ order_index r = new_order_index x
                                 ∧ page_number r = None ∧ section_index r = None
                                 ∧ project_id r = proj_id project) xs rows).
  { apply Forall2_same_length_lookup. split; [done|]. intros i x r Hx Hr.
    destruct (Hrows i x Hx) as (r' & Hr' & ? & ? & ? & ? & ? & _). by simplify_eq. }
  assert (Hfind : find_project {| projects := projects db ++ [project];
                                  sections := sections db ++ rows |} (proj_id project)
                  = Some project).
  { unfold find_project. simpl. clear -Hfresh. revert Hfresh. generalize (projects db).
    intros ps. induction ps as [|p ps IH]; intros Hfresh; simpl.
    - by rewrite Z.eqb_refl.
    - destruct (Z.eqb_spec (proj_id p) (proj_id project)) as [Heq|_].
      + exfalso. apply (Hfresh p); [by left|done].
      + apply IH. intros q Hq. apply Hfresh. by right. }
  eexists. split.
  { apply export_docx_run; [exact Hfind|]. by rewrite Hp. }
  split. { rewrite build_docx_file_blocks. simpl. by rewrite Hp. }
  rewrite docx_outline. unfold export_pages. simpl.
  assert (Hfilter : List.filter (λ s, (project_id s =? proj_id project)%Z)
                      (sections db ++ rows) = rows).
  { rewrite List.filter_app.
    assert (List.filter (λ s, (project_id s =? proj_id project)%Z) (sections db) = []) as ->.
    { clear -Hfresh_s. revert Hfresh_s. generalize (sections db).
      intros ss. induction ss as [|s ss IH]; intros Hfresh_s; simpl; [done|].
      destruct (Z.eqb_spec (project_id s) (proj_id project)) as [Heq|_].
      - exfalso. apply (Hfresh_s s); [by left|done].
      - apply IH. intros q Hq. apply Hfresh_s. by right. }
    simpl. apply forallb_filter_id, forallb_forall. intros s Hs%list_elem_of_In.
    apply Z.eqb_eq. apply list_elem_of_lookup in Hs as [i Hi].
    by destruct (Forall2_lookup_r _ _ _ _ _ Hrel Hi) as (x & _ & _ & _ & _ & _ & ?). }
  rewrite Hfilter.
  assert (Hsorted : sorted_with export_order_ltb rows = rows).
  { apply sorted_with_sorted.
    eapply (StronglySorted_Forall2 _ (λ a b, (new_order_index a ≤ new_order_index b)%Z));
      [|exact Hrel|apply sorted_by_sorted].
    intros x x' r r' (_ & Ho & Hpn & Hi & _) (_ & Ho' & Hpn' & Hi' & _) Hle.
    unfold export_order_ltb. rewrite Hpn, Hpn', Hi, Hi', Ho, Ho'. simpl.
    apply Z.ltb_ge. done. }
  rewrite Hsorted, sections_in_order_one_page.
  2:{ apply Forall_forall. intros s [i Hi]%list_elem_of_lookup.
      destruct (Forall2_lookup_r _ _ _ _ _ Hrel Hi) as (x & _ & _ & _ & Hpn & _).
      unfold export_page. by rewrite Hpn. }
  f_equal. rewrite <- list_fmap_compose.
  clear -Hrel. induction Hrel as [|x r xs rows (Ht & _) _ IH]; [done|].
  rewrite !fmap_cons. simpl. by rewrite Ht, IH.
Qed.

Lemma create_then_export_flat_witness :
  ∃ project db' n' doc,
    run_request (create_word_project duplicate_gemini duplicate_request example_user)
      empty_db 0 = (inr project, db', n')
    ∧ run_request (export_docx (proj_id project)) db' n' = (inr doc, db', n')
    ∧ outline (blocks doc) = ["A"; "A"; "B"].
Proof.
  destruct (run_request (create_word_project duplicate_gemini duplicate_request
                           example_user) empty_db 0)
    as [[[e|project] db'] n'] eqn:Hrun; [by vm_compute in Hrun|].
  destruct (create_then_export_flat _ _ _ _ _ _ _ _ Hrun) as (doc & Hexport & _ & Hout).
  - reflexivity.
  - by intros p ?%not_elem_of_nil.
  - by intros s ?%not_elem_of_nil.
  - by exists project, db', n', doc.
Defined.

Lemma build_docx_file_name project_id title pages :
  file_name (build_docx_file project_id title pages)
  = "project_" ++ str_of_Z project_id ++ ".docx".
Proof. unfold build_docx_file. by destruct (foldl _ _ _). Qed.

(** X27: one export file per project.  The documents of two projects are
    saved under the same file name exactly when the project ids are equal:
    an export replaces the earlier export of the same project and never
    that of another, whatever the titles and pages. *)
Theorem export_file_per_project project1 title1 pages1 project2 title2 pages2 :
  file_name (build_docx_file project1 title1 pages1)
  = file_name (build_docx_file project2 title2 pages2)
  ↔ project1 = project2.
Proof.
  rewrite !build_docx_file_name. split; [|by intros ->].
  intros H. apply app_inv_head, app_inv_tail in H. by apply str_of_Z_inj.
Qed.

Lemma find_unique {A} (f : A → Z) (p : A → bool) l k r :
  NoDup (f <$> l) → l !! k = Some r → p r = true →
  (∀ s, p s = true → f s = f r) →
  List.find p l = Some r.
Proof.
  intros Hnd Hr Hpr Hp. revert k Hr Hnd.
  induction l as [|x l IH]; intros k Hr Hnd; [done|].
  rewrite fmap_cons in Hnd. apply NoDup_cons in Hnd as [Hx Hnd]. simpl.
  destruct k as [|k]; simpl in Hr.
  - injection Hr as ->. by rewrite Hpr.
  - destruct (p x) eqn:Hpx; [|by eapply IH].
    exfalso. apply Hx. rewrite (Hp x Hpx). apply list_elem_of_fmap. exists r.
    split; [done|]. by eapply list_elem_of_lookup_2.
Qed.

(** X28: a created section can be refined by its creator.  After a
    successful creation, in a store where section ids are unique, a
    refinement of the section created for the [i]-th requested title,
    asked by the creating user and answered by the collaborator, succeeds;
    the section keeps its title and its content becomes the trimmed reply.
    Its stored history is the initial generation as version 1 followed by
    the refinement as version 2 when the history column tracks mutations,
    and the initial generation alone when it is a plain JSON column. *)
Theorem create_then_refine gemini column project_in user db n project db' n' i title
    body_prompt :
  run_request (create_word_project gemini project_in user) db n = (inr project, db', n') →
  requested_titles project_in !! i = Some title →
  NoDup (sec_id <$> sections db') →
  responds (gemini n') →
  ∃ r row' db'',
    sections db' !! (length (sections db) + i) = Some r
    ∧ run_request (refine_section gemini column (proj_id project) (sec_id r) body_prompt
                     user) db' n' = (inr row', db'', S n')
    ∧ sec_title row' = title
    ∧ sec_content row' = refined_text (gemini n')
    ∧ (λ e, (version e, prompt e)) <$> history row'
      = match column with
        | MutableJson => [(1%Z, "initial generation"); (2%Z, body_prompt)]
        | PlainJson => [(1%Z, "initial generation")]
        end.
Proof.
  intros Hrun Htitle Hnd Hresp.
  destruct (create_word_project_outcome gemini project_in user db n)
    as (r0 & db1 & n1 & Hrun1 & _ & Hr).
  rewrite Hrun in Hrun1. injection Hrun1 as <- <- <-.
  destruct Hr as (Hdoc & Hp & rows & -> & Hrows).
  assert (Hrow : ∃ r, rows !! i = Some r ∧ project_id r = proj_id project
                      ∧ sec_title r = title ∧ initial_history r).
  { destruct (page_mode project_in) eqn:Hmode.
    - rewrite requested_titles_paged, list_lookup_fmap in Htitle by done.
      destruct (page_items _ !! i) as [it|] eqn:Eit; [|done]. injection Htitle as <-.
      destruct Hrows as [_ Hrows].
      destruct (Hrows i it Eit) as (r & ? & ? & ? & _ & _ & _ & ?). by exists r.
    - rewrite requested_titles_flat, list_lookup_fmap in Htitle by done.
      destruct (sorted_by _ _ !! i) as [x|] eqn:Ex; [|done]. injection Htitle as <-.
      destruct Hrows as [_ Hrows].
      destruct (Hrows i x Ex) as (r & ? & ? & ? & _ & _ & _ & ?). by exists r. }
  destruct Hrow as (r & Hr & Hpid & Ht & Hh). simpl in *.
  assert (Hlookup : (sections db ++ rows) !! (length (sections db) + i) = Some r).
  { rewrite lookup_app_r by lia. by replace (length (sections db) + i - length (sections db))
      with i by lia. }
  assert (Hfind : find_section {| projects := projects db ++ [project];
                                  sections := sections db ++ rows |}
                    (proj_id project) (sec_id r) (user_id user) = Some r).
  { unfold find_section. simpl. eapply (find_unique sec_id); [exact Hnd|exact Hlookup| |].
    - rewrite Z.eqb_refl. simpl. apply existsb_exists. exists project. split.
      + apply in_or_app. right. by left.
      + rewrite Hpid, !Z.eqb_refl. simpl. apply Z.eqb_eq. by rewrite Hp.
    - intros s [Hs _]%andb_true_iff. by apply Z.eqb_eq. }
  destruct (refine_section_succeeds gemini column (proj_id project) (sec_id r) body_prompt
              user _ n' r Hfind Hresp) as (db'' & Hrefine & _).
  eexists r, _, db''. split; [done|]. split; [exact Hrefine|]. split; [done|].
  split; [done|].
  rewrite refined_history by (by rewrite Hh). unfold refinement_entry.
  rewrite Hh. by destruct column.
Qed.

Lemma create_then_refine_witness :
  ∃ project db' n' r row' db'',
    run_request (create_word_project fallback_gemini paged_request example_user)
      empty_db 0 = (inr project, db', n')
    ∧ sections db' !! 2 = Some r
    ∧ run_request (refine_section fallback_gemini PlainJson (proj_id project) (sec_id r)
                     "Shorten" example_user) db' n' = (inr row', db'', S n')
    ∧ sec_title row' = "C"
    ∧ length (history row') = 1.
Proof.
  destruct (run_request (create_word_project fallback_gemini paged_request example_user)
              empty_db 0) as [[[e|project] db'] n'] eqn:Hrun; [by vm_compute in Hrun|].
  destruct (create_then_refine fallback_gemini PlainJson paged_request example_user
              empty_db 0 project db' n' 2 "C" "Shorten" Hrun)
    as (r & row' & db'' & Hr & Hrefine & Ht & _ & Hh).
  - reflexivity.
  - vm_compute in Hrun. injection Hrun as _ <- _. vm_compute.
    repeat (constructor; [by rewrite ?elem_of_cons, elem_of_nil; intuition discriminate|]).
    constructor.
  - vm_compute in Hrun. injection Hrun as _ _ <-. exact I.
  - exists project, db', n', r, row', db''. repeat (split; [done|]).
    apply (f_equal length) in Hh. by rewrite length_fmap in Hh.
Defined.

(** ** Refinement after refinement *)


